(** * Krkn scenario generator: a shallow embedding and its properties

    The development follows [ocs_ci/krkn_chaos/krkn_scenario_generator.py]:
    Python values, the two selector resolvers, the template writer over an
    explicit file system, and the six families of scenario builders.  The
    Jinja2 engine and the constant [KRKN_SCENARIO_TEMPLATE] are external to
    the module and enter through an [environment]; the engine is taken to
    be a total function of the template text and the configuration.
    [hashlib.md5] and [json.dumps] are implemented, so that file names can
    be computed.  Of the operating system, the model has missing templates
    and the empty directory name; other failures of the disk are left
    out.  The last module of the definitions is the workload validation of
    [tests/cross_functional/krkn_chaos/conftest.py]. *)

From Stdlib Require Import ZArith List String Ascii Bool Lia.
From Stdlib Require Import DecimalString DecimalPos DecimalZ.
From stdpp Require Import gmap strings sorting.
Import ListNotations.

Set Warnings "-register-all".

Local Open Scope string_scope.
Local Open Scope Z_scope.

(** ** Python values *)

(** The values the generator handles: [None], integers, strings, lists and
    dictionaries.  A dictionary is an association list in insertion order,
    as Python dictionaries are. *)
Inductive pyval : Type :=
| VNone
| VInt (z : Z)
| VStr (s : string)
| VList (l : list pyval)
| VDict (d : list (string * pyval)).

Abbreviation pydict := (list (string * pyval)).

(** Python truthiness: [None], [0], the empty string, [[]] and [{}] are false. *)
Definition truthy (v : pyval) : bool :=
  match v with
  | VNone => false
  | VInt z => negb (z =? 0)
  | VStr s => negb (String.eqb s EmptyString)
  | VList l => match l with [] => false | _ => true end
  | VDict d => match d with [] => false | _ => true end
  end.

(** [a or b]. *)
Definition py_or (a b : pyval) : pyval := if truthy a then a else b.

(** An optional string argument whose Python default is [None]. *)
Definition of_opt_str (o : option string) : pyval :=
  match o with Some s => VStr s | None => VNone end.

(** A keyword argument left out takes its declared default. *)
Definition kwarg {A : Type} (dflt : A) (o : option A) : A :=
  match o with Some a => a | None => dflt end.

(** *** Dictionaries *)

Fixpoint dict_get (k : string) (d : pydict) : option pyval :=
  match d with
  | [] => None
  | (k', v) :: r => if String.eqb k k' then Some v else dict_get k r
  end.

(** [d[k] = v]: an existing key keeps its position, a new key goes last. *)
Fixpoint dict_set (k : string) (v : pyval) (d : pydict) : pydict :=
  match d with
  | [] => [(k, v)]
  | (k', v') :: r =>
      if String.eqb k k' then (k, v) :: r else (k', v') :: dict_set k v r
  end.

(** [{**d, **e}]: the items of [e] are set into [d] from left to right. *)
Definition dict_update (d e : pydict) : pydict :=
  fold_left (fun acc kv => dict_set (fst kv) (snd kv) acc) e d.

(** A dictionary display [{k1: v1, ..., **e}]. *)
Definition dict_lit (items : pydict) : pydict := dict_update [] items.

Definition has_key (k : string) (d : pydict) : bool :=
  match dict_get k d with Some _ => true | None => false end.

Definition dict_keys (d : pydict) : list string := map fst d.

(** ** Errors and results *)

Inductive pyerror : Type :=
| ValueError (msg : string)
| TemplateNotFound (name : string)
| FileNotFoundError (path : string).

Inductive result (A : Type) : Type :=
| Ok (a : A)
| Raise (e : pyerror).
Arguments Ok {A} a.
Arguments Raise {A} e.

Definition rbind {A B : Type} (r : result A) (f : A -> result B) : result B :=
  match r with Ok a => f a | Raise e => Raise e end.

(** ** Strings as Python has them *)

Module PyStr.

(** [str(n)] for an integer. *)
Definition of_Z (z : Z) : string := NilZero.string_of_int (Z.to_int z).

(** [str(len(l))]. *)
Definition of_nat (n : nat) : string := of_Z (Z.of_nat n).

(** [sep.join(l)]. *)
Fixpoint join (sep : string) (l : list string) : string :=
  match l with
  | [] => EmptyString
  | [x] => x
  | x :: r => x +:+ sep +:+ join sep r
  end.

Definition lower_char (c : ascii) : ascii :=
  let n := nat_of_ascii c in
  if ((65 <=? n) && (n <=? 90))%nat then ascii_of_nat (n + 32) else c.

(** [s.lower()] on the ASCII letters. *)
Fixpoint lower (s : string) : string :=
  match s with
  | EmptyString => EmptyString
  | String c r => String (lower_char c) (lower r)
  end.

(** [c in s] for a one-character [c]. *)
Fixpoint contains_char (c : ascii) (s : string) : bool :=
  match s with
  | EmptyString => false
  | String a r => if Ascii.eqb a c then true else contains_char c r
  end.

(** [s.split(c)[-1]]: what follows the last occurrence of [c], the whole
    string when there is none. *)
Fixpoint split_last (c : ascii) (s : string) : string :=
  match s with
  | EmptyString => EmptyString
  | String a r =>
      if contains_char c r then split_last c r
      else if Ascii.eqb a c then r
      else s
  end.

Fixpoint all_chars (c : ascii) (s : string) : bool :=
  match s with
  | EmptyString => true
  | String a r => Ascii.eqb a c && all_chars c r
  end.

(** [s.rstrip(c)]. *)
Fixpoint rstrip (c : ascii) (s : string) : string :=
  match s with
  | EmptyString => EmptyString
  | String a r => if all_chars c r && Ascii.eqb a c then EmptyString
                  else String a (rstrip c r)
  end.

(** [s[:s.rfind(c) + 1]]: up to and including the last [c]. *)
Fixpoint upto_last (c : ascii) (s : string) : string :=
  match s with
  | EmptyString => EmptyString
  | String a r =>
      if contains_char c r then String a (upto_last c r)
      else if Ascii.eqb a c then String a EmptyString
      else EmptyString
  end.

Definition startswith_char (c : ascii) (s : string) : bool :=
  match s with String a _ => Ascii.eqb a c | EmptyString => false end.

Fixpoint endswith_char (c : ascii) (s : string) : bool :=
  match s with
  | EmptyString => false
  | String a EmptyString => Ascii.eqb a c
  | String _ r => endswith_char c r
  end.

End PyStr.

(** *** Sorting *)

(** [sorted(l)]: a stable insertion sort; on integers and on strings, where
    equal keys are equal values, every sort returns the same list. *)
Section Sorted.
Context {A : Type} (le : A -> A -> bool).

Fixpoint insert_sorted (x : A) (l : list A) : list A :=
  match l with
  | [] => [x]
  | y :: r => if le x y then x :: l else y :: insert_sorted x r
  end.

Definition sorted (l : list A) : list A :=
  fold_right insert_sorted [] l.
End Sorted.

Definition sorted_ints : list Z -> list Z := sorted Z.leb.
Definition sorted_strs : list string -> list string := sorted String.leb.

(** ** [hashlib.md5] *)

(** MD5 (RFC 1321) over a list of bytes, with 32-bit words as integers
    reduced modulo [2^32]. *)
Module MD5.

Definition w32 (x : Z) : Z := x mod 2 ^ 32.

Definition not32 (x : Z) : Z := Z.lxor x 0xffffffff.

Definition rotl (x c : Z) : Z :=
  Z.lor (w32 (Z.shiftl x c)) (Z.shiftr x (32 - c)).

Definition K : list Z :=
  [ 0xd76aa478; 0xe8c7b756; 0x242070db; 0xc1bdceee;
    0xf57c0faf; 0x4787c62a; 0xa8304613; 0xfd469501;
    0x698098d8; 0x8b44f7af; 0xffff5bb1; 0x895cd7be;
    0x6b901122; 0xfd987193; 0xa679438e; 0x49b40821;
    0xf61e2562; 0xc040b340; 0x265e5a51; 0xe9b6c7aa;
    0xd62f105d; 0x02441453; 0xd8a1e681; 0xe7d3fbc8;
    0x21e1cde6; 0xc33707d6; 0xf4d50d87; 0x455a14ed;
    0xa9e3e905; 0xfcefa3f8; 0x676f02d9; 0x8d2a4c8a;
    0xfffa3942; 0x8771f681; 0x6d9d6122; 0xfde5380c;
    0xa4beea44; 0x4bdecfa9; 0xf6bb4b60; 0xbebfbc70;
    0x289b7ec6; 0xeaa127fa; 0xd4ef3085; 0x04881d05;
    0xd9d4d039; 0xe6db99e5; 0x1fa27cf8; 0xc4ac5665;
    0xf4292244; 0x432aff97; 0xab9423a7; 0xfc93a039;
    0x655b59c3; 0x8f0ccc92; 0xffeff47d; 0x85845dd1;
    0x6fa87e4f; 0xfe2ce6e0; 0xa3014314; 0x4e0811a1;
    0xf7537e82; 0xbd3af235; 0x2ad7d2bb; 0xeb86d391 ].

Definition shifts : list Z :=
  [ 7; 12; 17; 22; 7; 12; 17; 22; 7; 12; 17; 22; 7; 12; 17; 22;
    5; 9; 14; 20; 5; 9; 14; 20; 5; 9; 14; 20; 5; 9; 14; 20;
    4; 11; 16; 23; 4; 11; 16; 23; 4; 11; 16; 23; 4; 11; 16; 23;
    6; 10; 15; 21; 6; 10; 15; 21; 6; 10; 15; 21; 6; 10; 15; 21 ].

(** The round function and the message word it consumes at step [i]. *)
Definition mix (i : nat) (b c d : Z) : Z * nat :=
  if (i <? 16)%nat then
    (Z.lor (Z.land b c) (Z.land (not32 b) d), i)
  else if (i <? 32)%nat then
    (Z.lor (Z.land d b) (Z.land (not32 d) c), ((5 * i + 1) mod 16)%nat)
  else if (i <? 48)%nat then
    (Z.lxor (Z.lxor b c) d, ((3 * i + 5) mod 16)%nat)
  else
    (Z.lxor c (Z.lor b (not32 d)), ((7 * i) mod 16)%nat).

Definition digest_state : Type := Z * Z * Z * Z.

Definition step (M : list Z) (st : digest_state) (i : nat) : digest_state :=
  let '(a, b, c, d) := st in
  let '(f, g) := mix i b c d in
  let f' := w32 (f + a + nth i K 0 + nth g M 0) in
  (d, w32 (b + rotl f' (nth i shifts 0)), b, c).

Definition process_block (st : digest_state) (M : list Z) : digest_state :=
  let '(a0, b0, c0, d0) := st in
  let '(a, b, c, d) := fold_left (step M) (seq 0 64) st in
  (w32 (a0 + a), w32 (b0 + b), w32 (c0 + c), w32 (d0 + d)).

Definition init : digest_state :=
  (0x67452301, 0xefcdab89, 0x98badcfe, 0x10325476).

(** [n] as [k] little-endian bytes. *)
Fixpoint le_bytes (k : nat) (n : Z) : list Z :=
  match k with
  | O => []
  | S k' => (n mod 256) :: le_bytes k' (n / 256)
  end.

Definition pad (msg : list Z) : list Z :=
  let len := Z.of_nat (List.length msg) in
  msg ++ [0x80] ++ repeat 0 (Z.to_nat ((55 - len) mod 64))
      ++ le_bytes 8 ((8 * len) mod 2 ^ 64).

Fixpoint words (bs : list Z) : list Z :=
  match bs with
  | b0 :: b1 :: b2 :: b3 :: r =>
      (b0 + 256 * b1 + 65536 * b2 + 16777216 * b3) :: words r
  | _ => []
  end.

Fixpoint blocks (fuel : nat) (ws : list Z) : list (list Z) :=
  match fuel with
  | O => []
  | S fuel' =>
      match ws with
      | [] => []
      | _ => firstn 16 ws :: blocks fuel' (skipn 16 ws)
      end
  end.

Definition digest (msg : list Z) : list Z :=
  let ws := words (pad msg) in
  let '(a, b, c, d) :=
    fold_left process_block (blocks (List.length ws) ws) init in
  le_bytes 4 a ++ le_bytes 4 b ++ le_bytes 4 c ++ le_bytes 4 d.

Definition hex_digit (n : Z) : ascii :=
  if n <? 10 then ascii_of_nat (Z.to_nat (48 + n))
  else ascii_of_nat (Z.to_nat (87 + n)).

Definition hex_byte (b : Z) : string :=
  String (hex_digit (b / 16)) (String (hex_digit (b mod 16)) EmptyString).

(** [s.encode()]: UTF-8, a character standing for its code point. *)
Fixpoint encode (s : string) : list Z :=
  match s with
  | EmptyString => []
  | String c r =>
      let n := Z.of_nat (nat_of_ascii c) in
      if n <? 128 then n :: encode r
      else (192 + n / 64) :: (128 + n mod 64) :: encode r
  end.

(** [hashlib.md5(s.encode()).hexdigest()]. *)
Definition hexdigest (s : string) : string :=
  String.concat EmptyString (map hex_byte (digest (encode s))).

(** [hashlib.md5(s.encode()).hexdigest()[:n]]. *)
Definition hexdigest_prefix (n : nat) (s : string) : string :=
  String.substring 0 n (hexdigest s).

End MD5.

(** ** [json.dumps] *)

Module Json.

Definition dquote : string := String (ascii_of_nat 34) EmptyString.

(** The escapes of [json.dumps] with [ensure_ascii] left at its default:
    the quote, the backslash, the short control escapes, and a four-digit
    hexadecimal escape for whatever is not between the space and the
    tilde. *)
Definition escape_char (c : ascii) : string :=
  let n := nat_of_ascii c in
  if (n =? 34)%nat then "\" +:+ dquote
  else if (n =? 92)%nat then "\\"
  else if (n =? 10)%nat then "\n"
  else if (n =? 13)%nat then "\r"
  else if (n =? 9)%nat then "\t"
  else if (n =? 8)%nat then "\b"
  else if (n =? 12)%nat then "\f"
  else if ((n <? 32) || (126 <? n))%nat
       then "\u00" +:+ MD5.hex_byte (Z.of_nat n)
  else String c EmptyString.

Fixpoint escape (s : string) : string :=
  match s with
  | EmptyString => EmptyString
  | String c r => escape_char c +:+ escape r
  end.

Definition quote (s : string) : string := dquote +:+ escape s +:+ dquote.

Definition key_le (x y : string * pyval) : bool := String.leb (fst x) (fst y).

(** [sort_keys=True]: every dictionary, at every depth, lists its items
    by key. *)
Fixpoint sort_keys (v : pyval) : pyval :=
  match v with
  | VList l => VList (map sort_keys l)
  | VDict d => VDict (sorted key_le (map (fun '(k, x) => (k, sort_keys x)) d))
  | _ => v
  end.

(** [json.dumps(v)] with the default separators. *)
Fixpoint dumps (v : pyval) : string :=
  match v with
  | VNone => "null"
  | VInt z => PyStr.of_Z z
  | VStr s => quote s
  | VList l => "[" +:+ PyStr.join ", " (map dumps l) +:+ "]"
  | VDict d =>
      "{" +:+ PyStr.join ", " (map (fun '(k, x) => quote k +:+ ": " +:+ dumps x) d)
          +:+ "}"
  end.

(** [json.dumps(v, sort_keys=True)]. *)
Definition dumps_sorted (v : pyval) : string := dumps (sort_keys v).

End Json.

(** [str(l)] for a list of integers. *)
Definition str_int_list (l : list Z) : string :=
  "[" +:+ PyStr.join ", " (map PyStr.of_Z l) +:+ "]".

(** ** [os.path] *)

Module os_path.

Definition slash : ascii := ascii_of_nat 47.

Definition join (a b : string) : string :=
  if PyStr.startswith_char slash b then b
  else if String.eqb a EmptyString || PyStr.endswith_char slash a then a +:+ b
  else a +:+ "/" +:+ b.

Definition dirname (p : string) : string :=
  let head := PyStr.upto_last slash p in
  if negb (String.eqb head EmptyString) && negb (PyStr.all_chars slash head)
  then PyStr.rstrip slash head
  else head.

Definition basename (p : string) : string := PyStr.split_last slash p.

End os_path.

(** ** The file system and the monad of the builders *)

(** Files by path with their text, and the directories that exist.  A
    builder reads its template from the files and writes one file. *)
Record filesystem : Type := {
  files : gmap string string;
  dirs : gset string
}.

(** A computation reads and changes the file system and returns or raises;
    what it wrote before raising stays written. *)
Definition io (A : Type) : Type := filesystem -> result A * filesystem.

Definition ret {A : Type} (a : A) : io A := fun fs => (Ok a, fs).

Definition raise {A : Type} (e : pyerror) : io A := fun fs => (Raise e, fs).

Definition bind {A B : Type} (m : io A) (f : A -> io B) : io B :=
  fun fs =>
    match m fs with
    | (Ok a, fs') => f a fs'
    | (Raise e, fs') => (Raise e, fs')
    end.

Definition lift {A : Type} (r : result A) : io A := fun fs => (r, fs).

Notation "x <- m ;; k" := (bind m (fun x => k))
  (at level 100, m at next level, right associativity).

(** The directory [d] and those above it. *)
Fixpoint ancestors (fuel : nat) (d : string) : list string :=
  match fuel with
  | O => []
  | S fuel' =>
      if String.eqb d EmptyString then []
      else d :: (let up := os_path.dirname d in
                 if String.eqb up d then [] else ancestors fuel' up)
  end.

(** [os.makedirs(d, exist_ok=True)]; the empty path is refused. *)
Definition makedirs (d : string) : io unit :=
  fun fs =>
    if String.eqb d EmptyString then (Raise (FileNotFoundError d), fs)
    else (Ok tt,
          {| files := files fs;
             dirs := list_to_set (ancestors (S (String.length d)) d) ∪ dirs fs |}).

(** [open(path, "w")] followed by [f.write(text)]. *)
Definition write_text (path text : string) : io unit :=
  fun fs => (Ok tt, {| files := <[path := text]> (files fs); dirs := dirs fs |}).

(** ** The template writer *)

(** What the module takes from outside: the template directory constant of
    [ocs_ci.ocs.constants] and the Jinja2 engine, which turns a template
    text and a configuration into the rendered text. *)
Record environment : Type := {
  KRKN_SCENARIO_TEMPLATE : string;
  jinja_render : string -> pydict -> string
}.

Module TemplateWriter.

Record t : Type := {
  template : string;
  config : pydict
}.

(** [__init__]: the template is looked up under its directory, and the
    writer starts with an empty configuration. *)
Definition init (template_path : string) : io t :=
  fun fs =>
    let d := os_path.dirname template_path in
    let template_dir := if String.eqb d EmptyString then "." else d in
    let name := os_path.basename template_path in
    match files fs !! os_path.join template_dir name with
    | Some text => (Ok {| template := text; config := [] |}, fs)
    | None => (Raise (TemplateNotFound name), fs)
    end.

(** [writer.config = c]. *)
Definition set_config (w : t) (c : pydict) : t :=
  {| template := template w; config := c |}.

Section Render.
Context (env : environment).

Definition render_yaml (w : t) : string :=
  jinja_render env (template w) (config w).

Definition write_to_file (w : t) (output_path : string) : io string :=
  _ <- makedirs (os_path.dirname output_path) ;;
  _ <- write_text output_path (render_yaml w) ;;
  ret output_path.
End Render.

End TemplateWriter.

(** ** The selector resolvers *)

Definition _get_selector_config (node_name node_selector : pyval) : pydict :=
  if truthy node_name then dict_lit [("node_name", node_name)]
  else if truthy node_selector then dict_lit [("node_selector", node_selector)]
  else dict_lit [].

Definition pod_selector_message : string :=
  "Either pod_name or label_selector must be provided".

Definition _get_pod_selector_config (pod_name label_selector : pyval)
  : result pydict :=
  if negb (truthy pod_name) && negb (truthy label_selector)
  then Raise (ValueError pod_selector_message)
  else Ok (if truthy pod_name then dict_lit [("pod_name", pod_name)]
           else dict_lit [("label_selector", label_selector)]).

(** ** Resource hogs *)

(** For every builder of the source, the dictionary it assembles ([hog_data]
    or [config] there) is a definition of its own, named after the builder,
    and the builder hands it to the writer; a keyword argument is [None]
    (or [VNone], where the Python default is [None]) when the call leaves it
    out. *)

Module HogScenarios.

Section Create.
Context (env : environment).

Definition _create_hog (scenario_dir template_name : string)
    (hog_data : pydict) (output_name : string) : io string :=
  let template_path :=
    os_path.join (os_path.join (KRKN_SCENARIO_TEMPLATE env) "kube")
                 template_name in
  writer <- TemplateWriter.init template_path ;;
  let writer := TemplateWriter.set_config writer hog_data in
  TemplateWriter.write_to_file env writer
    (os_path.join scenario_dir output_name).
End Create.

(** The keyword arguments of [cpu_hog]; [None] is an argument left out. *)
Module cpu_kw.
Record t : Type := {
  duration : option pyval;
  workers : option pyval;
  image : option pyval;
  namespace : option pyval;
  cpu_load_percentage : option pyval;
  cpu_method : option pyval;
  node_name : pyval;
  node_selector : pyval;
  number_of_nodes : option pyval;
  taints : pyval
}.
Definition omitted : t :=
  {| duration := None; workers := None; image := None; namespace := None;
     cpu_load_percentage := None; cpu_method := None; node_name := VNone;
     node_selector := VNone; number_of_nodes := None; taints := VNone |}.
End cpu_kw.

Definition cpu_hog_data (kw : cpu_kw.t) : pydict :=
  dict_lit
    ([ ("duration", kwarg (VInt 60) (cpu_kw.duration kw));
       ("workers", kwarg (VStr EmptyString) (cpu_kw.workers kw));
       ("hog_type", VStr "cpu");
       ("image", kwarg (VStr "quay.io/krkn-chaos/krkn-hog") (cpu_kw.image kw));
       ("namespace", kwarg (VStr "default") (cpu_kw.namespace kw));
       ("cpu_load_percentage",
         kwarg (VInt 90) (cpu_kw.cpu_load_percentage kw));
       ("cpu_method", kwarg (VStr "all") (cpu_kw.cpu_method kw));
       ("number_of_nodes",
         kwarg (VStr EmptyString) (cpu_kw.number_of_nodes kw));
       ("taints", py_or (cpu_kw.taints kw) (VList [])) ]
     ++ _get_selector_config (cpu_kw.node_name kw) (cpu_kw.node_selector kw)).

Module io_kw.
Record t : Type := {
  duration : option pyval;
  workers : option pyval;
  image : option pyval;
  namespace : option pyval;
  io_block_size : option pyval;
  io_write_bytes : option pyval;
  io_target_pod_folder : option pyval;
  io_target_pod_volume : pyval;
  node_name : pyval;
  node_selector : pyval;
  number_of_nodes : option pyval;
  taints : pyval
}.
Definition omitted : t :=
  {| duration := None; workers := None; image := None; namespace := None;
     io_block_size := None; io_write_bytes := None;
     io_target_pod_folder := None; io_target_pod_volume := VNone;
     node_name := VNone; node_selector := VNone; number_of_nodes := None;
     taints := VNone |}.
End io_kw.

Definition io_hog_data (kw : io_kw.t) : pydict :=
  dict_lit
    ([ ("duration", kwarg (VInt 30) (io_kw.duration kw));
       ("workers", kwarg (VStr EmptyString) (io_kw.workers kw));
       ("hog_type", VStr "io");
       ("image", kwarg (VStr "quay.io/krkn-chaos/krkn-hog") (io_kw.image kw));
       ("namespace", kwarg (VStr "default") (io_kw.namespace kw));
       ("io_block_size", kwarg (VStr "1m") (io_kw.io_block_size kw));
       ("io_write_bytes", kwarg (VStr "1g") (io_kw.io_write_bytes kw));
       ("io_target_pod_folder",
         kwarg (VStr "/hog-data") (io_kw.io_target_pod_folder kw));
       ("io_target_pod_volume",
         py_or (io_kw.io_target_pod_volume kw)
           (VDict [ ("name", VStr "node-volume");
                    ("hostPath", VDict [("path", VStr "/root")]) ]));
       ("number_of_nodes",
         kwarg (VStr EmptyString) (io_kw.number_of_nodes kw));
       ("taints", py_or (io_kw.taints kw) (VList [])) ]
     ++ _get_selector_config (io_kw.node_name kw) (io_kw.node_selector kw)).

Module memory_kw.
Record t : Type := {
  duration : option pyval;
  workers : option pyval;
  image : option pyval;
  namespace : option pyval;
  memory_vm_bytes : option pyval;
  node_name : pyval;
  node_selector : pyval;
  number_of_nodes : option pyval;
  taints : pyval
}.
Definition omitted : t :=
  {| duration := None; workers := None; image := None; namespace := None;
     memory_vm_bytes := None; node_name := VNone; node_selector := VNone;
     number_of_nodes := None; taints := VNone |}.
End memory_kw.

Definition memory_hog_data (kw : memory_kw.t) : pydict :=
  dict_lit
    ([ ("duration", kwarg (VInt 60) (memory_kw.duration kw));
       ("workers", kwarg (VStr EmptyString) (memory_kw.workers kw));
       ("hog_type", VStr "memory");
       ("image",
         kwarg (VStr "quay.io/krkn-chaos/krkn-hog") (memory_kw.image kw));
       ("namespace", kwarg (VStr "default") (memory_kw.namespace kw));
       ("memory_vm_bytes", kwarg (VStr "90%") (memory_kw.memory_vm_bytes kw));
       ("number_of_nodes",
         kwarg (VStr EmptyString) (memory_kw.number_of_nodes kw));
       ("taints", py_or (memory_kw.taints kw) (VList [])) ]
     ++ _get_selector_config (memory_kw.node_name kw)
          (memory_kw.node_selector kw)).

Section Builders.
Context (env : environment).

Definition cpu_hog (scenario_dir : string) (kw : cpu_kw.t) : io string :=
  _create_hog env scenario_dir "cpu-hog.yml.j2" (cpu_hog_data kw)
    "cpu_hog.yaml".

Definition io_hog (scenario_dir : string) (kw : io_kw.t) : io string :=
  _create_hog env scenario_dir "io-hog.yml.j2" (io_hog_data kw)
    "io_hog.yaml".

Definition memory_hog (scenario_dir : string) (kw : memory_kw.t)
  : io string :=
  _create_hog env scenario_dir "memory-hog.yml.j2" (memory_hog_data kw)
    "memory_hog.yaml".
End Builders.

End HogScenarios.

(** ** Application outage *)

Module ApplicationOutageScenarios.

Module kw.
Record t : Type := {
  duration : option Z;
  namespace : option pyval;
  pod_selector : pyval;
  pod_selectors : pyval;
  block : pyval
}.
Definition omitted : t :=
  {| duration := None; namespace := None; pod_selector := VNone;
     pod_selectors := VNone; block := VNone |}.
End kw.

Definition application_outage_config (kw : kw.t) : pydict :=
  let config :=
    dict_lit
      [ ("duration", VInt (Z.min 300 (kwarg 300 (kw.duration kw))));
        ("namespace", kwarg (VStr "default") (kw.namespace kw));
        ("block",
          py_or (kw.block kw) (VList [VStr "Ingress"; VStr "Egress"])) ] in
  if truthy (kw.pod_selectors kw)
  then dict_set "pod_selectors" (kw.pod_selectors kw) config
  else dict_set "pod_selector" (py_or (kw.pod_selector kw) (VDict [])) config.

Section Builders.
Context (env : environment).

Definition application_outage (scenario_dir : string) (kw : kw.t)
  : io string :=
  let template_path :=
    os_path.join (os_path.join (KRKN_SCENARIO_TEMPLATE env) "openshift")
                 "app_outage.yml.j2" in
  let config := application_outage_config kw in
  writer <- TemplateWriter.init template_path ;;
  let writer := TemplateWriter.set_config writer config in
  TemplateWriter.write_to_file env writer
    (os_path.join scenario_dir "application_outage.yaml").
End Builders.

End ApplicationOutageScenarios.

(** ** Network outage and network chaos *)

Module NetworkOutageScenarios.

Section Create.
Context (env : environment).

Definition _create_network_scenario (scenario_dir template_name : string)
    (config : pydict) (output_name : string) : io string :=
  let template_path :=
    os_path.join (os_path.join (KRKN_SCENARIO_TEMPLATE env) "openshift")
                 template_name in
  writer <- TemplateWriter.init template_path ;;
  let writer := TemplateWriter.set_config writer config in
  TemplateWriter.write_to_file env writer
    (os_path.join scenario_dir output_name).
End Create.

(** The keyword arguments shared by [pod_egress_shaping] and
    [pod_ingress_shaping]. *)
Module shaping_kw.
Record t : Type := {
  label_selector : pyval;
  pod_name : pyval;
  network_params : pyval;
  execution_type : option pyval;
  instance_count : option pyval;
  wait_duration : option pyval;
  test_duration : option pyval
}.
Definition omitted : t :=
  {| label_selector := VNone; pod_name := VNone; network_params := VNone;
     execution_type := None; instance_count := None;
     wait_duration := None; test_duration := None |}.
End shaping_kw.

(** The configuration both shaping builders assemble; the selector is
    resolved last and may raise. *)
Definition shaping_config (namespace : pyval) (kw : shaping_kw.t)
  : result pydict :=
  rbind (_get_pod_selector_config (shaping_kw.pod_name kw)
           (shaping_kw.label_selector kw))
    (fun selector =>
       Ok (dict_lit
             ([ ("namespace", namespace);
                ("network_params",
                  py_or (shaping_kw.network_params kw)
                    (VDict [ ("latency", VStr "50ms");
                             ("loss", VStr "'0.02%'");
                             ("bandwidth", VStr "100mbit") ]));
                ("execution_type",
                  kwarg (VStr "parallel") (shaping_kw.execution_type kw));
                ("instance_count",
                  kwarg (VInt 1) (shaping_kw.instance_count kw));
                ("wait_duration",
                  kwarg (VInt 300) (shaping_kw.wait_duration kw));
                ("test_duration",
                  kwarg (VInt 120) (shaping_kw.test_duration kw)) ]
              ++ selector))).

Definition pod_egress_shaping_config := shaping_config.
Definition pod_ingress_shaping_config := shaping_config.

Module outage_kw.
Record t : Type := {
  direction : option (list string);
  ingress_ports : option (list Z);
  egress_ports : option (list Z);
  pod_name : pyval;
  label_selector : pyval;
  instance_count : option pyval;
  wait_duration : option pyval;
  test_duration : option pyval
}.
Definition omitted : t :=
  {| direction := None; ingress_ports := None; egress_ports := None;
     pod_name := VNone; label_selector := VNone; instance_count := None;
     wait_duration := None; test_duration := None |}.
End outage_kw.

(** [l or dflt] for an optional list. *)
Definition list_or {A : Type} (o : option (list A)) (dflt : list A) : list A :=
  match o with
  | Some (x :: r) => x :: r
  | _ => dflt
  end.

Definition val_of_strs (o : option (list string)) : pyval :=
  match o with Some l => VList (map VStr l) | None => VNone end.

Definition val_of_ints (o : option (list Z)) : pyval :=
  match o with Some l => VList (map VInt l) | None => VNone end.

(** What one port list adds to the file name; the source has this block
    twice, for [ingress] and for [egress]. *)
Definition ports_descriptor (tag : string) (ports : option (list Z)) : string :=
  match ports with
  | Some (p :: r) =>
      let ports := p :: r in
      if (20 <? List.length ports)%nat then
        let ports_hash :=
          MD5.hexdigest_prefix 8 (str_int_list (sorted_ints ports)) in
        "_" +:+ tag +:+ "_range_" +:+ PyStr.of_nat (List.length ports)
            +:+ "ports_" +:+ ports_hash
      else
        "_" +:+ tag +:+ "_"
            +:+ PyStr.join "-" (map PyStr.of_Z (sorted_ints ports))
  | _ => EmptyString
  end.

Definition direction_str (kw : outage_kw.t) : string :=
  PyStr.join "_"
    (sorted_strs (list_or (outage_kw.direction kw) ["egress"; "ingress"])).

Definition ports_str (kw : outage_kw.t) : string :=
  ports_descriptor "ingress" (outage_kw.ingress_ports kw)
    +:+ ports_descriptor "egress" (outage_kw.egress_ports kw).

Definition readable_base_filename (kw : outage_kw.t) : string :=
  "pod_network_outage_" +:+ direction_str kw +:+ ports_str kw.

Definition config_for_hash (kw : outage_kw.t) : pyval :=
  VDict (dict_lit
    [ ("direction", val_of_strs (outage_kw.direction kw));
      ("ingress_ports", val_of_ints (outage_kw.ingress_ports kw));
      ("egress_ports", val_of_ints (outage_kw.egress_ports kw));
      ("instance_count", kwarg (VInt 1) (outage_kw.instance_count kw));
      ("wait_duration", kwarg (VInt 300) (outage_kw.wait_duration kw));
      ("test_duration", kwarg (VInt 120) (outage_kw.test_duration kw)) ]).

Definition base_filename (kw : outage_kw.t) : string :=
  let base_filename := readable_base_filename kw in
  if (200 <? String.length base_filename)%nat then
    let config_hash :=
      MD5.hexdigest_prefix 12 (Json.dumps_sorted (config_for_hash kw)) in
    "pod_network_outage_" +:+ direction_str kw +:+ "_" +:+ config_hash
  else base_filename.

Definition pod_network_outage_filename (kw : outage_kw.t) : string :=
  base_filename kw +:+ ".yaml".

Definition pod_network_outage_config (namespace : pyval) (kw : outage_kw.t)
  : result pydict :=
  rbind (_get_pod_selector_config (outage_kw.pod_name kw)
           (outage_kw.label_selector kw))
    (fun selector =>
       Ok (dict_lit
             ([ ("namespace", namespace);
                ("direction",
                  VList (map VStr (list_or (outage_kw.direction kw)
                                     ["egress"; "ingress"])));
                ("ingress_ports",
                  VList (map VInt (list_or (outage_kw.ingress_ports kw) [])));
                ("egress_ports",
                  VList (map VInt (list_or (outage_kw.egress_ports kw) [])));
                ("instance_count",
                  kwarg (VInt 1) (outage_kw.instance_count kw));
                ("wait_duration",
                  kwarg (VInt 300) (outage_kw.wait_duration kw));
                ("test_duration",
                  kwarg (VInt 120) (outage_kw.test_duration kw)) ]
              ++ selector))).

Module chaos_kw.
Record t : Type := {
  duration : option pyval;
  node_name : pyval;
  label_selector : pyval;
  instance_count : option pyval;
  interfaces : pyval;
  execution : option pyval;
  egress : pyval;
  image : pyval
}.
Definition omitted : t :=
  {| duration := None; node_name := VNone; label_selector := VNone;
     instance_count := None; interfaces := VNone; execution := None;
     egress := VNone; image := VNone |}.
End chaos_kw.

Definition worker_selector : string := "node-role.kubernetes.io/worker".

Definition pod_network_chaos_config (kw : chaos_kw.t) : pydict :=
  let node_name := chaos_kw.node_name kw in
  let label_selector :=
    if negb (truthy node_name) && negb (truthy (chaos_kw.label_selector kw))
    then VStr worker_selector
    else chaos_kw.label_selector kw in
  let config :=
    dict_lit
      [ ("duration", kwarg (VInt 300) (chaos_kw.duration kw));
        ("instance_count", kwarg (VInt 1) (chaos_kw.instance_count kw));
        ("interfaces", py_or (chaos_kw.interfaces kw) (VList [VStr "ens192"]));
        ("execution", kwarg (VStr "serial") (chaos_kw.execution kw));
        ("egress",
          py_or (chaos_kw.egress kw)
            (VDict [("latency", VStr "25ms"); ("loss", VStr "1%")]));
        ("image",
          py_or (chaos_kw.image kw) (VStr "quay.io/krkn-chaos/krkn:tools")) ] in
  if truthy node_name then dict_set "node_name" node_name config
  else if truthy label_selector
       then dict_set "label_selector" label_selector config
       else config.

Definition pod_network_chaos_filename (kw : chaos_kw.t) : string :=
  let config_str := Json.dumps_sorted (VDict (pod_network_chaos_config kw)) in
  let config_hash := MD5.hexdigest_prefix 8 config_str in
  "network_chaos_" +:+ config_hash +:+ ".yaml".

Module ingress_kw.
Record t : Type := {
  node_interface_name : pyval;
  label_selector : pyval;
  instance_count : option pyval;
  kubeconfig_path : pyval;
  execution_type : option pyval;
  network_params : pyval;
  wait_duration : option pyval;
  test_duration : option pyval;
  kraken_config : pyval
}.
Definition omitted : t :=
  {| node_interface_name := VNone; label_selector := VNone;
     instance_count := None; kubeconfig_path := VNone;
     execution_type := None; network_params := VNone;
     wait_duration := None; test_duration := None;
     kraken_config := VNone |}.
End ingress_kw.

Definition network_chaos_ingress_config (kw : ingress_kw.t) : pydict :=
  let label_selector :=
    if negb (truthy (ingress_kw.node_interface_name kw))
       && negb (truthy (ingress_kw.label_selector kw))
    then VStr worker_selector
    else ingress_kw.label_selector kw in
  dict_lit
    [ ("node_interface_name", ingress_kw.node_interface_name kw);
      ("label_selector", label_selector);
      ("instance_count", kwarg (VInt 1) (ingress_kw.instance_count kw));
      ("kubeconfig_path", ingress_kw.kubeconfig_path kw);
      ("execution_type",
        kwarg (VStr "parallel") (ingress_kw.execution_type kw));
      ("network_params",
        py_or (ingress_kw.network_params kw)
          (VDict [("latency", VStr "50ms"); ("loss", VStr "5%")]));
      ("wait_duration", kwarg (VInt 300) (ingress_kw.wait_duration kw));
      ("test_duration", kwarg (VInt 120) (ingress_kw.test_duration kw));
      ("kraken_config", ingress_kw.kraken_config kw) ].

Section Builders.
Context (env : environment).

Definition pod_egress_shaping (scenario_dir : string) (namespace : pyval)
    (kw : shaping_kw.t) : io string :=
  config <- lift (pod_egress_shaping_config namespace kw) ;;
  _create_network_scenario env scenario_dir "pod_egress_shaping.yml.j2"
    config "pod_egress_shaping.yaml".

Definition pod_network_outage (scenario_dir : string) (namespace : pyval)
    (kw : outage_kw.t) : io string :=
  let filename := pod_network_outage_filename kw in
  config <- lift (pod_network_outage_config namespace kw) ;;
  _create_network_scenario env scenario_dir "pod_network_outage.yml.j2"
    config filename.

Definition pod_network_chaos (scenario_dir : string) (kw : chaos_kw.t)
  : io string :=
  let config := pod_network_chaos_config kw in
  let unique_filename := pod_network_chaos_filename kw in
  _create_network_scenario env scenario_dir "network_chaos.yml.j2"
    config unique_filename.

Definition network_chaos_ingress (scenario_dir : string)
    (kw : ingress_kw.t) : io string :=
  _create_network_scenario env scenario_dir "network_chaos_ingress.yml.j2"
    (network_chaos_ingress_config kw) "network_chaos_ingress.yaml".

Definition pod_ingress_shaping (scenario_dir : string) (namespace : pyval)
    (kw : shaping_kw.t) : io string :=
  config <- lift (pod_ingress_shaping_config namespace kw) ;;
  _create_network_scenario env scenario_dir "pod_ingress_shaping.yml.j2"
    config "pod_ingress_shaping.yaml".
End Builders.

End NetworkOutageScenarios.

(** ** Pod kill *)

Module PodScenarios.

Section Create.
Context (env : environment).

Definition _create_pod_scenario (scenario_dir template_name : string)
    (config : pydict) (filename : string) : io string :=
  let template_path :=
    os_path.join (KRKN_SCENARIO_TEMPLATE env) template_name in
  writer <- TemplateWriter.init template_path ;;
  let writer := TemplateWriter.set_config writer config in
  TemplateWriter.write_to_file env writer
    (os_path.join scenario_dir filename).
End Create.

Module kw.
Record t : Type := {
  namespace_pattern : option pyval;
  name_pattern : option pyval;
  kill : option pyval;
  krkn_pod_recovery_time : option pyval
}.
Definition omitted : t :=
  {| namespace_pattern := None; name_pattern := None; kill := None;
     krkn_pod_recovery_time := None |}.
End kw.

Definition regex_openshift_pod_kill_config (kw : kw.t) : pydict :=
  dict_lit
    [ ("namespace_pattern",
        kwarg (VStr "^openshift-storage$") (kw.namespace_pattern kw));
      ("name_pattern", kwarg (VStr ".*") (kw.name_pattern kw));
      ("kill", kwarg (VInt 3) (kw.kill kw));
      ("krkn_pod_recovery_time",
        kwarg (VInt 300) (kw.krkn_pod_recovery_time kw)) ].

Section Builders.
Context (env : environment).

Definition regex_openshift_pod_kill (scenario_dir : string) (kw : kw.t)
  : io string :=
  _create_pod_scenario env scenario_dir
    "openshift/regex_openshift_pod_kill.yml.j2"
    (regex_openshift_pod_kill_config kw) "regex_openshift_pod_kill.yaml".
End Builders.

End PodScenarios.

(** ** Container kill and container pause *)

Module ContainerScenarios.

Section Create.
Context (env : environment).

Definition _create_container_scenario (scenario_dir template_name : string)
    (config : pydict) (filename : string) : io string :=
  let template_path :=
    os_path.join (KRKN_SCENARIO_TEMPLATE env) template_name in
  writer <- TemplateWriter.init template_path ;;
  let writer := TemplateWriter.set_config writer config in
  TemplateWriter.write_to_file env writer
    (os_path.join scenario_dir filename).
End Create.

Module kill_kw.
Record t : Type := {
  namespace : pyval;
  label_selector : pyval;
  pod_name : pyval;
  container_name : option pyval;
  kill_signal : option string;
  instance_count : option pyval;
  wait_duration : option Z;
  scenarios : option (list pyval)
}.
Definition omitted : t :=
  {| namespace := VNone; label_selector := VNone; pod_name := VNone;
     container_name := None; kill_signal := None; instance_count := None;
     wait_duration := None; scenarios := None |}.
End kill_kw.

(** One entry of the built-in list; the source writes the eight
    dictionaries out, alike but for the name, the label and the
    description. *)
Definition default_scenario (kw : kill_kw.t) (component label description : string)
  : pyval :=
  let kill_signal := kwarg "SIGKILL" (kill_kw.kill_signal kw) in
  let default_namespace :=
    py_or (kill_kw.namespace kw) (VStr "openshift-storage") in
  VDict (dict_lit
    [ ("name", VStr (component +:+ "_" +:+ PyStr.lower kill_signal +:+ "_kill"));
      ("namespace", default_namespace);
      ("label_selector", VStr label);
      ("container_name",
        kwarg (VStr EmptyString) (kill_kw.container_name kw));
      ("kill_signal", VStr kill_signal);
      ("count", kwarg (VInt 1) (kill_kw.instance_count kw));
      ("expected_recovery_time",
        VInt (kwarg 300 (kill_kw.wait_duration kw) / 2));
      ("description", VStr description) ]).

Definition default_scenarios (kw : kill_kw.t) : list pyval :=
  [ default_scenario kw "nodeplugin"
      "app=openshift-storage.cephfs.csi.ceph.com-nodeplugin"
      "CephFS Node Plugin";
    default_scenario kw "mgr" "app=rook-ceph-mgr" "MGR";
    default_scenario kw "rbd_nodeplugin"
      "app=openshift-storage.rbd.csi.ceph.com-nodeplugin" "RBD Node Plugin";
    default_scenario kw "rgw" "app=rook-ceph-rgw" "RGW (RADOS Gateway)";
    default_scenario kw "noobaa" "app=noobaa" "NooBaa";
    default_scenario kw "cephfs_ctrlplugin"
      "app=openshift-storage.cephfs.csi.ceph.com-ctrlplugin"
      "CephFS Control Plugin";
    default_scenario kw "rbd_ctrlplugin"
      "app=openshift-storage.rbd.csi.ceph.com-ctrlplugin"
      "RBD Control Plugin";
    default_scenario kw "osd" "app=rook-ceph-osd" "OSD" ].

Definition single_scenario_message : string :=
  "Either pod_name or label_selector must be provided for single scenario".

Definition namespace_message : string :=
  "namespace is required for single scenario".

Definition container_kill_config (kw : kill_kw.t) : result pydict :=
  match kill_kw.scenarios kw with
  | Some scenarios =>
      let scenarios :=
        match scenarios with
        | [] => default_scenarios kw
        | _ => scenarios
        end in
      Ok (dict_lit [("scenarios", VList scenarios)])
  | None =>
      if negb (truthy (kill_kw.namespace kw))
      then Raise (ValueError namespace_message)
      else if negb (truthy (kill_kw.pod_name kw))
              && negb (truthy (kill_kw.label_selector kw))
      then Raise (ValueError single_scenario_message)
      else
        rbind (_get_pod_selector_config (kill_kw.pod_name kw)
                 (kill_kw.label_selector kw))
          (fun selector =>
             Ok (dict_lit
                   ([ ("namespace", kill_kw.namespace kw);
                      ("container_name",
                        kwarg (VStr EmptyString) (kill_kw.container_name kw));
                      ("kill_signal",
                        VStr (kwarg "SIGKILL" (kill_kw.kill_signal kw)));
                      ("instance_count",
                        kwarg (VInt 1) (kill_kw.instance_count kw));
                      ("wait_duration",
                        VInt (kwarg 300 (kill_kw.wait_duration kw))) ]
                    ++ selector)))
  end.

Module pause_kw.
Record t : Type := {
  label_selector : option string;
  pod_name : option string;
  container_name : option pyval;
  pause_seconds : option Z;
  instance_count : option pyval;
  wait_duration : option Z;
  scenario_name : option string;
  expected_recovery_time : option Z
}.
Definition omitted : t :=
  {| label_selector := None; pod_name := None; container_name := None;
     pause_seconds := None; instance_count := None; wait_duration := None;
     scenario_name := None; expected_recovery_time := None |}.
End pause_kw.

Definition equals_sign : ascii := ascii_of_nat 61.

(** The part of the selector the generated name carries. *)
Definition component_of (label_selector : option string) : string :=
  match label_selector with
  | Some s =>
      if PyStr.contains_char equals_sign s
      then PyStr.split_last equals_sign s
      else "container"
  | None => "container"
  end.

Definition container_pause_config (namespace : pyval) (kw : pause_kw.t)
  : result pydict :=
  let pod_name := pause_kw.pod_name kw in
  let label_selector := pause_kw.label_selector kw in
  let pause_seconds := kwarg 60 (pause_kw.pause_seconds kw) in
  let wait_duration := kwarg 300 (pause_kw.wait_duration kw) in
  if negb (truthy (of_opt_str pod_name))
     && negb (truthy (of_opt_str label_selector))
  then Raise (ValueError pod_selector_message)
  else
    let label_selector :=
      match pod_name with
      | Some p =>
          if truthy (VStr p) && negb (truthy (of_opt_str label_selector))
          then Some ("metadata.name=" +:+ p)
          else label_selector
      | None => label_selector
      end in
    let scenario_name :=
      if negb (truthy (of_opt_str (pause_kw.scenario_name kw)))
      then "container_pause_" +:+ component_of label_selector +:+ "_"
             +:+ PyStr.of_Z pause_seconds +:+ "s"
      else kwarg EmptyString (pause_kw.scenario_name kw) in
    let expected_recovery_time :=
      match pause_kw.expected_recovery_time kw with
      | None => if negb (wait_duration =? 300) then wait_duration else 120
      | Some t => t
      end in
    Ok (dict_lit
          [ ("scenario_name", VStr scenario_name);
            ("namespace", namespace);
            ("label_selector", of_opt_str label_selector);
            ("container_name",
              kwarg (VStr EmptyString) (pause_kw.container_name kw));
            ("pause_seconds", VInt pause_seconds);
            ("count", kwarg (VInt 1) (pause_kw.instance_count kw));
            ("expected_recovery_time", VInt expected_recovery_time) ]).

Section Builders.
Context (env : environment).

Definition container_kill (scenario_dir : string) (kw : kill_kw.t)
  : io string :=
  config <- lift (container_kill_config kw) ;;
  _create_container_scenario env scenario_dir
    "openshift/container_kill.yml.j2" config "container_kill.yaml".

Definition container_pause (scenario_dir : string) (namespace : pyval)
    (kw : pause_kw.t) : io string :=
  config <- lift (container_pause_config namespace kw) ;;
  _create_container_scenario env scenario_dir
    "openshift/container_pause.yml.j2" config "container_pause.yaml".
End Builders.

End ContainerScenarios.

(** A computation that does not raise [ValueError]. *)
Definition no_value_error {A : Type} (m : io A) : Prop :=
  forall fs fs' msg, m fs <> (Raise (ValueError msg), fs').

(** ** Calls used in the statements *)

(** [application_outage] called with [duration=d], the other arguments as
    in [kw]. *)
Definition with_duration (d : Z) (kw : ApplicationOutageScenarios.kw.t)
  : ApplicationOutageScenarios.kw.t :=
  {| ApplicationOutageScenarios.kw.duration := Some d;
     ApplicationOutageScenarios.kw.namespace :=
       ApplicationOutageScenarios.kw.namespace kw;
     ApplicationOutageScenarios.kw.pod_selector :=
       ApplicationOutageScenarios.kw.pod_selector kw;
     ApplicationOutageScenarios.kw.pod_selectors :=
       ApplicationOutageScenarios.kw.pod_selectors kw;
     ApplicationOutageScenarios.kw.block :=
       ApplicationOutageScenarios.kw.block kw |}.

(** A call with the given pod name and label selector, the other arguments
    as in [kw]; one definition for each record of keyword arguments. *)
Definition shaping_with_selectors (pod_name label_selector : pyval)
    (kw : NetworkOutageScenarios.shaping_kw.t)
  : NetworkOutageScenarios.shaping_kw.t :=
  {| NetworkOutageScenarios.shaping_kw.label_selector := label_selector;
     NetworkOutageScenarios.shaping_kw.pod_name := pod_name;
     NetworkOutageScenarios.shaping_kw.network_params :=
       NetworkOutageScenarios.shaping_kw.network_params kw;
     NetworkOutageScenarios.shaping_kw.execution_type :=
       NetworkOutageScenarios.shaping_kw.execution_type kw;
     NetworkOutageScenarios.shaping_kw.instance_count :=
       NetworkOutageScenarios.shaping_kw.instance_count kw;
     NetworkOutageScenarios.shaping_kw.wait_duration :=
       NetworkOutageScenarios.shaping_kw.wait_duration kw;
     NetworkOutageScenarios.shaping_kw.test_duration :=
       NetworkOutageScenarios.shaping_kw.test_duration kw |}.

Definition outage_with_selectors (pod_name label_selector : pyval)
    (kw : NetworkOutageScenarios.outage_kw.t)
  : NetworkOutageScenarios.outage_kw.t :=
  {| NetworkOutageScenarios.outage_kw.direction :=
       NetworkOutageScenarios.outage_kw.direction kw;
     NetworkOutageScenarios.outage_kw.ingress_ports :=
       NetworkOutageScenarios.outage_kw.ingress_ports kw;
     NetworkOutageScenarios.outage_kw.egress_ports :=
       NetworkOutageScenarios.outage_kw.egress_ports kw;
     NetworkOutageScenarios.outage_kw.pod_name := pod_name;
     NetworkOutageScenarios.outage_kw.label_selector := label_selector;
     NetworkOutageScenarios.outage_kw.instance_count :=
       NetworkOutageScenarios.outage_kw.instance_count kw;
     NetworkOutageScenarios.outage_kw.wait_duration :=
       NetworkOutageScenarios.outage_kw.wait_duration kw;
     NetworkOutageScenarios.outage_kw.test_duration :=
       NetworkOutageScenarios.outage_kw.test_duration kw |}.

Definition kill_with_selectors (pod_name label_selector : pyval)
    (kw : ContainerScenarios.kill_kw.t) : ContainerScenarios.kill_kw.t :=
  {| ContainerScenarios.kill_kw.namespace :=
       ContainerScenarios.kill_kw.namespace kw;
     ContainerScenarios.kill_kw.label_selector := label_selector;
     ContainerScenarios.kill_kw.pod_name := pod_name;
     ContainerScenarios.kill_kw.container_name :=
       ContainerScenarios.kill_kw.container_name kw;
     ContainerScenarios.kill_kw.kill_signal :=
       ContainerScenarios.kill_kw.kill_signal kw;
     ContainerScenarios.kill_kw.instance_count :=
       ContainerScenarios.kill_kw.instance_count kw;
     ContainerScenarios.kill_kw.wait_duration :=
       ContainerScenarios.kill_kw.wait_duration kw;
     ContainerScenarios.kill_kw.scenarios :=
       ContainerScenarios.kill_kw.scenarios kw |}.

Definition pause_with_selectors (pod_name label_selector : option string)
    (kw : ContainerScenarios.pause_kw.t) : ContainerScenarios.pause_kw.t :=
  {| ContainerScenarios.pause_kw.label_selector := label_selector;
     ContainerScenarios.pause_kw.pod_name := pod_name;
     ContainerScenarios.pause_kw.container_name :=
       ContainerScenarios.pause_kw.container_name kw;
     ContainerScenarios.pause_kw.pause_seconds :=
       ContainerScenarios.pause_kw.pause_seconds kw;
     ContainerScenarios.pause_kw.instance_count :=
       ContainerScenarios.pause_kw.instance_count kw;
     ContainerScenarios.pause_kw.wait_duration :=
       ContainerScenarios.pause_kw.wait_duration kw;
     ContainerScenarios.pause_kw.scenario_name :=
       ContainerScenarios.pause_kw.scenario_name kw;
     ContainerScenarios.pause_kw.expected_recovery_time :=
       ContainerScenarios.pause_kw.expected_recovery_time kw |}.

(** ** The builders as one family *)

(** A call of any of the twelve builders, with its arguments. *)
Inductive builder_call : Type :=
| call_cpu_hog (kw : HogScenarios.cpu_kw.t)
| call_io_hog (kw : HogScenarios.io_kw.t)
| call_memory_hog (kw : HogScenarios.memory_kw.t)
| call_application_outage (kw : ApplicationOutageScenarios.kw.t)
| call_pod_egress_shaping (namespace : pyval)
    (kw : NetworkOutageScenarios.shaping_kw.t)
| call_pod_network_outage (namespace : pyval)
    (kw : NetworkOutageScenarios.outage_kw.t)
| call_pod_network_chaos (kw : NetworkOutageScenarios.chaos_kw.t)
| call_network_chaos_ingress (kw : NetworkOutageScenarios.ingress_kw.t)
| call_pod_ingress_shaping (namespace : pyval)
    (kw : NetworkOutageScenarios.shaping_kw.t)
| call_regex_openshift_pod_kill (kw : PodScenarios.kw.t)
| call_container_kill (kw : ContainerScenarios.kill_kw.t)
| call_container_pause (namespace : pyval)
    (kw : ContainerScenarios.pause_kw.t).

Definition run_builder (env : environment) (scenario_dir : string)
    (call : builder_call) : io string :=
  match call with
  | call_cpu_hog kw => HogScenarios.cpu_hog env scenario_dir kw
  | call_io_hog kw => HogScenarios.io_hog env scenario_dir kw
  | call_memory_hog kw => HogScenarios.memory_hog env scenario_dir kw
  | call_application_outage kw =>
      ApplicationOutageScenarios.application_outage env scenario_dir kw
  | call_pod_egress_shaping namespace kw =>
      NetworkOutageScenarios.pod_egress_shaping env scenario_dir namespace kw
  | call_pod_network_outage namespace kw =>
      NetworkOutageScenarios.pod_network_outage env scenario_dir namespace kw
  | call_pod_network_chaos kw =>
      NetworkOutageScenarios.pod_network_chaos env scenario_dir kw
  | call_network_chaos_ingress kw =>
      NetworkOutageScenarios.network_chaos_ingress env scenario_dir kw
  | call_pod_ingress_shaping namespace kw =>
      NetworkOutageScenarios.pod_ingress_shaping env scenario_dir namespace kw
  | call_regex_openshift_pod_kill kw =>
      PodScenarios.regex_openshift_pod_kill env scenario_dir kw
  | call_container_kill kw =>
      ContainerScenarios.container_kill env scenario_dir kw
  | call_container_pause namespace kw =>
      ContainerScenarios.container_pause env scenario_dir namespace kw
  end.

(** An environment and file systems to run examples in; the stand-in for
    the engine prints the configuration after the template text. *)
Definition example_env : environment :=
  {| KRKN_SCENARIO_TEMPLATE := "/templates";
     jinja_render :=
       fun template config => template +:+ Json.dumps (VDict config) |}.

Definition empty_fs : filesystem := {| files := ∅; dirs := ∅ |}.

Definition templates_fs : filesystem :=
  {| files :=
       {[ "/templates/kube/cpu-hog.yml.j2" := "# cpu hog: ";
          "/templates/openshift/app_outage.yml.j2" := "# application outage: " ]};
     dirs := {[ "/templates"; "/templates/kube"; "/templates/openshift" ]} |}.

(** [cpu_hog(duration=120, node_name="worker-1")]. *)
Definition cpu_hog_call : HogScenarios.cpu_kw.t :=
  {| HogScenarios.cpu_kw.duration := Some (VInt 120);
     HogScenarios.cpu_kw.workers := None;
     HogScenarios.cpu_kw.image := None;
     HogScenarios.cpu_kw.namespace := None;
     HogScenarios.cpu_kw.cpu_load_percentage := None;
     HogScenarios.cpu_kw.cpu_method := None;
     HogScenarios.cpu_kw.node_name := VStr "worker-1";
     HogScenarios.cpu_kw.node_selector := VNone;
     HogScenarios.cpu_kw.number_of_nodes := None;
     HogScenarios.cpu_kw.taints := VNone |}.

(** ** Words used for the file names of [pod_network_outage] *)

(** Two port lists that differ in exactly one port. *)
Definition differ_in_one_port (l1 l2 : list Z) : Prop :=
  exists before a b after,
    a <> b /\ l1 = (before ++ a :: after)%list
    /\ l2 = (before ++ b :: after)%list.

(** The eight-character digest the name of a long port list carries. *)
Definition ports_digest (ports : list Z) : string :=
  MD5.hexdigest_prefix 8 (str_int_list (sorted_ints ports)).

(** The readable name is kept: it has at most 200 characters. *)
Definition keeps_readable_name (kw : NetworkOutageScenarios.outage_kw.t) : Prop :=
  (String.length (NetworkOutageScenarios.readable_base_filename kw) <= 200)%nat.

Definition is_digit (c : ascii) : bool :=
  let n := nat_of_ascii c in ((48 <=? n) && (n <=? 57))%nat.

Fixpoint all_digits (s : string) : bool :=
  match s with
  | EmptyString => true
  | String c r => is_digit c && all_digits r
  end.

(** What may follow a number in a joined list: nothing, or a character
    that is no digit. *)
Definition stops (s : string) : bool :=
  match s with
  | EmptyString => true
  | String c _ => negb (is_digit c)
  end.

Definition sum_ints (l : list Z) : Z := fold_right Z.add 0 l.

(** [pod_network_outage] for the pod [rook-ceph-osd-0] with the given port
    lists, instance count and durations. *)
Definition outage_call (ingress_ports egress_ports : option (list Z))
    (instance_count wait_duration test_duration : option pyval)
  : NetworkOutageScenarios.outage_kw.t :=
  {| NetworkOutageScenarios.outage_kw.direction := None;
     NetworkOutageScenarios.outage_kw.ingress_ports := ingress_ports;
     NetworkOutageScenarios.outage_kw.egress_ports := egress_ports;
     NetworkOutageScenarios.outage_kw.pod_name := VStr "rook-ceph-osd-0";
     NetworkOutageScenarios.outage_kw.label_selector := VNone;
     NetworkOutageScenarios.outage_kw.instance_count := instance_count;
     NetworkOutageScenarios.outage_kw.wait_duration := wait_duration;
     NetworkOutageScenarios.outage_kw.test_duration := test_duration |}.

(** [list(range(first, first + 20))]. *)
Definition twenty_ports (first : Z) : list Z :=
  map (fun i => first + Z.of_nat i) (seq 0 20).

(** ** What a builder call asks the writer for *)

(** The steps every [_create_...] helper, and [application_outage] itself,
    takes once the configuration is there: load the template, assign the
    configuration, write the file. *)
Definition render_to (env : environment) (template_path : string)
    (config : pydict) (output_path : string) : io string :=
  writer <- TemplateWriter.init template_path ;;
  let writer := TemplateWriter.set_config writer config in
  TemplateWriter.write_to_file env writer output_path.

(** The file the loader of [TemplateWriter.__init__] reads. *)
Definition template_file (template_path : string) : string :=
  let d := os_path.dirname template_path in
  os_path.join (if String.eqb d EmptyString then "." else d)
    (os_path.basename template_path).

(** A template of the [kube] or the [openshift] directory. *)
Definition template_in (env : environment) (dir name : string) : string :=
  os_path.join (os_path.join (KRKN_SCENARIO_TEMPLATE env) dir) name.

(** The template a call renders. *)
Definition template_of (env : environment) (call : builder_call) : string :=
  match call with
  | call_cpu_hog _ => template_in env "kube" "cpu-hog.yml.j2"
  | call_io_hog _ => template_in env "kube" "io-hog.yml.j2"
  | call_memory_hog _ => template_in env "kube" "memory-hog.yml.j2"
  | call_application_outage _ => template_in env "openshift" "app_outage.yml.j2"
  | call_pod_egress_shaping _ _ =>
      template_in env "openshift" "pod_egress_shaping.yml.j2"
  | call_pod_network_outage _ _ =>
      template_in env "openshift" "pod_network_outage.yml.j2"
  | call_pod_network_chaos _ => template_in env "openshift" "network_chaos.yml.j2"
  | call_network_chaos_ingress _ =>
      template_in env "openshift" "network_chaos_ingress.yml.j2"
  | call_pod_ingress_shaping _ _ =>
      template_in env "openshift" "pod_ingress_shaping.yml.j2"
  | call_regex_openshift_pod_kill _ =>
      os_path.join (KRKN_SCENARIO_TEMPLATE env)
        "openshift/regex_openshift_pod_kill.yml.j2"
  | call_container_kill _ =>
      os_path.join (KRKN_SCENARIO_TEMPLATE env) "openshift/container_kill.yml.j2"
  | call_container_pause _ _ =>
      os_path.join (KRKN_SCENARIO_TEMPLATE env) "openshift/container_pause.yml.j2"
  end.

(** The configuration a call assembles, or the error it raises instead. *)
Definition config_of (call : builder_call) : result pydict :=
  match call with
  | call_cpu_hog kw => Ok (HogScenarios.cpu_hog_data kw)
  | call_io_hog kw => Ok (HogScenarios.io_hog_data kw)
  | call_memory_hog kw => Ok (HogScenarios.memory_hog_data kw)
  | call_application_outage kw =>
      Ok (ApplicationOutageScenarios.application_outage_config kw)
  | call_pod_egress_shaping namespace kw =>
      NetworkOutageScenarios.pod_egress_shaping_config namespace kw
  | call_pod_network_outage namespace kw =>
      NetworkOutageScenarios.pod_network_outage_config namespace kw
  | call_pod_network_chaos kw =>
      Ok (NetworkOutageScenarios.pod_network_chaos_config kw)
  | call_network_chaos_ingress kw =>
      Ok (NetworkOutageScenarios.network_chaos_ingress_config kw)
  | call_pod_ingress_shaping namespace kw =>
      NetworkOutageScenarios.pod_ingress_shaping_config namespace kw
  | call_regex_openshift_pod_kill kw =>
      Ok (PodScenarios.regex_openshift_pod_kill_config kw)
  | call_container_kill kw => ContainerScenarios.container_kill_config kw
  | call_container_pause namespace kw =>
      ContainerScenarios.container_pause_config namespace kw
  end.

(** The name of the file a call writes. *)
Definition filename_of (call : builder_call) : string :=
  match call with
  | call_cpu_hog _ => "cpu_hog.yaml"
  | call_io_hog _ => "io_hog.yaml"
  | call_memory_hog _ => "memory_hog.yaml"
  | call_application_outage _ => "application_outage.yaml"
  | call_pod_egress_shaping _ _ => "pod_egress_shaping.yaml"
  | call_pod_network_outage _ kw =>
      NetworkOutageScenarios.pod_network_outage_filename kw
  | call_pod_network_chaos kw =>
      NetworkOutageScenarios.pod_network_chaos_filename kw
  | call_network_chaos_ingress _ => "network_chaos_ingress.yaml"
  | call_pod_ingress_shaping _ _ => "pod_ingress_shaping.yaml"
  | call_regex_openshift_pod_kill _ => "regex_openshift_pod_kill.yaml"
  | call_container_kill _ => "container_kill.yaml"
  | call_container_pause _ _ => "container_pause.yaml"
  end.


(** What [run_builder] does, case by case. *)
Inductive outcome_of (env : environment) (scenario_dir : string)
    (call : builder_call) (fs : filesystem)
  : result string -> filesystem -> Prop :=
| outcome_config_error e :
    config_of call = Raise e ->
    outcome_of env scenario_dir call fs (Raise e) fs
| outcome_template_missing config :
    config_of call = Ok config ->
    files fs !! template_file (template_of env call) = None ->
    outcome_of env scenario_dir call fs
      (Raise (TemplateNotFound (os_path.basename (template_of env call)))) fs
| outcome_no_directory config text :
    config_of call = Ok config ->
    files fs !! template_file (template_of env call) = Some text ->
    os_path.dirname (os_path.join scenario_dir (filename_of call))
    = EmptyString ->
    outcome_of env scenario_dir call fs
      (Raise (FileNotFoundError EmptyString)) fs
| outcome_written config text :
    config_of call = Ok config ->
    files fs !! template_file (template_of env call) = Some text ->
    os_path.dirname (os_path.join scenario_dir (filename_of call))
    <> EmptyString ->
    let path := os_path.join scenario_dir (filename_of call) in
    outcome_of env scenario_dir call fs (Ok path)
      {| files := <[path := jinja_render env text config]> (files fs);
         dirs := list_to_set
                   (ancestors (S (String.length (os_path.dirname path)))
                      (os_path.dirname path))
                 ∪ dirs fs |}.

(** A file system with the templates of the container, shaping and outage
    builders. *)
Definition openshift_templates_fs : filesystem :=
  {| files :=
       {[ "/templates/openshift/container_kill.yml.j2" := "# container kill: ";
          "/templates/openshift/container_pause.yml.j2" := "# container pause: ";
          "/templates/openshift/pod_network_outage.yml.j2" := "# outage: " ]};
     dirs := {[ "/templates"; "/templates/openshift" ]} |}.

(** [container_kill(namespace="openshift-storage", pod_name="rook-ceph-osd-0")]
    and [container_kill(scenarios=[])]. *)
Definition kill_single_call : ContainerScenarios.kill_kw.t :=
  {| ContainerScenarios.kill_kw.namespace := VStr "openshift-storage";
     ContainerScenarios.kill_kw.label_selector := VNone;
     ContainerScenarios.kill_kw.pod_name := VStr "rook-ceph-osd-0";
     ContainerScenarios.kill_kw.container_name := None;
     ContainerScenarios.kill_kw.kill_signal := None;
     ContainerScenarios.kill_kw.instance_count := None;
     ContainerScenarios.kill_kw.wait_duration := None;
     ContainerScenarios.kill_kw.scenarios := None |}.

Definition kill_unified_call : ContainerScenarios.kill_kw.t :=
  {| ContainerScenarios.kill_kw.namespace := VNone;
     ContainerScenarios.kill_kw.label_selector := VNone;
     ContainerScenarios.kill_kw.pod_name := VNone;
     ContainerScenarios.kill_kw.container_name := None;
     ContainerScenarios.kill_kw.kill_signal := None;
     ContainerScenarios.kill_kw.instance_count := None;
     ContainerScenarios.kill_kw.wait_duration := None;
     ContainerScenarios.kill_kw.scenarios := Some [] |}.

(** ** Words used for the selectors in a configuration *)

(** The node targeting a configuration carries for a given node name and
    node selector: the name if there is one, else the selector if there is
    one, else neither key. *)
Definition node_targeting (node_name node_selector : pyval) (config : pydict)
  : Prop :=
  if truthy node_name then
    dict_get "node_name" config = Some node_name
    /\ has_key "node_selector" config = false
  else if truthy node_selector then
    dict_get "node_selector" config = Some node_selector
    /\ has_key "node_name" config = false
  else
    has_key "node_name" config = false
    /\ has_key "node_selector" config = false.

(** The pod targeting of a configuration: the name if there is one, else
    the label selector; never both keys. *)
Definition pod_targeting (pod_name label_selector : pyval) (config : pydict)
  : Prop :=
  if truthy pod_name then
    dict_get "pod_name" config = Some pod_name
    /\ has_key "label_selector" config = false
  else
    dict_get "label_selector" config = Some label_selector
    /\ truthy label_selector = true
    /\ has_key "pod_name" config = false.

(** The pod name and label selector of a call that resolves them through
    [_get_pod_selector_config], with the namespace it passes on. *)
Definition resolved_selectors (call : builder_call)
  : option (pyval * pyval * pyval) :=
  match call with
  | call_pod_egress_shaping namespace kw
  | call_pod_ingress_shaping namespace kw =>
      Some (namespace, NetworkOutageScenarios.shaping_kw.pod_name kw,
            NetworkOutageScenarios.shaping_kw.label_selector kw)
  | call_pod_network_outage namespace kw =>
      Some (namespace, NetworkOutageScenarios.outage_kw.pod_name kw,
            NetworkOutageScenarios.outage_kw.label_selector kw)
  | call_container_kill kw =>
      match ContainerScenarios.kill_kw.scenarios kw with
      | None =>
          Some (ContainerScenarios.kill_kw.namespace kw,
                ContainerScenarios.kill_kw.pod_name kw,
                ContainerScenarios.kill_kw.label_selector kw)
      | Some _ => None
      end
  | _ => None
  end.

Definition chaos_with_selectors (node_name label_selector : pyval)
    (kw : NetworkOutageScenarios.chaos_kw.t)
  : NetworkOutageScenarios.chaos_kw.t :=
  {| NetworkOutageScenarios.chaos_kw.duration :=
       NetworkOutageScenarios.chaos_kw.duration kw;
     NetworkOutageScenarios.chaos_kw.node_name := node_name;
     NetworkOutageScenarios.chaos_kw.label_selector := label_selector;
     NetworkOutageScenarios.chaos_kw.instance_count :=
       NetworkOutageScenarios.chaos_kw.instance_count kw;
     NetworkOutageScenarios.chaos_kw.interfaces :=
       NetworkOutageScenarios.chaos_kw.interfaces kw;
     NetworkOutageScenarios.chaos_kw.execution :=
       NetworkOutageScenarios.chaos_kw.execution kw;
     NetworkOutageScenarios.chaos_kw.egress :=
       NetworkOutageScenarios.chaos_kw.egress kw;
     NetworkOutageScenarios.chaos_kw.image :=
       NetworkOutageScenarios.chaos_kw.image kw |}.

(** An optional list with the empty list read as no list. *)
Definition nonempty_or_none {A : Type} (o : option (list A))
  : option (list A) :=
  match o with
  | Some (x :: r) => Some (x :: r)
  | _ => None
  end.

(** The outage call with its empty lists left out. *)
Definition without_empty_lists (kw : NetworkOutageScenarios.outage_kw.t)
  : NetworkOutageScenarios.outage_kw.t :=
  {| NetworkOutageScenarios.outage_kw.direction :=
       nonempty_or_none (NetworkOutageScenarios.outage_kw.direction kw);
     NetworkOutageScenarios.outage_kw.ingress_ports :=
       nonempty_or_none (NetworkOutageScenarios.outage_kw.ingress_ports kw);
     NetworkOutageScenarios.outage_kw.egress_ports :=
       nonempty_or_none (NetworkOutageScenarios.outage_kw.egress_ports kw);
     NetworkOutageScenarios.outage_kw.pod_name :=
       NetworkOutageScenarios.outage_kw.pod_name kw;
     NetworkOutageScenarios.outage_kw.label_selector :=
       NetworkOutageScenarios.outage_kw.label_selector kw;
     NetworkOutageScenarios.outage_kw.instance_count :=
       NetworkOutageScenarios.outage_kw.instance_count kw;
     NetworkOutageScenarios.outage_kw.wait_duration :=
       NetworkOutageScenarios.outage_kw.wait_duration kw;
     NetworkOutageScenarios.outage_kw.test_duration :=
       NetworkOutageScenarios.outage_kw.test_duration kw |}.

(** Two optional lists with the same elements, in whatever order. *)
Definition same_elements {A : Type} (o1 o2 : option (list A)) : Prop :=
  match o1, o2 with
  | Some l1, Some l2 => Permutation l1 l2
  | None, None => True
  | _, _ => False
  end.

(** The value under a key of a scenario entry. *)
Definition entry_get (k : string) (entry : pyval) : option pyval :=
  match entry with
  | VDict d => dict_get k d
  | _ => None
  end.

Definition chaos_with_egress (egress : pyval)
    (kw : NetworkOutageScenarios.chaos_kw.t)
  : NetworkOutageScenarios.chaos_kw.t :=
  {| NetworkOutageScenarios.chaos_kw.duration :=
       NetworkOutageScenarios.chaos_kw.duration kw;
     NetworkOutageScenarios.chaos_kw.node_name :=
       NetworkOutageScenarios.chaos_kw.node_name kw;
     NetworkOutageScenarios.chaos_kw.label_selector :=
       NetworkOutageScenarios.chaos_kw.label_selector kw;
     NetworkOutageScenarios.chaos_kw.instance_count :=
       NetworkOutageScenarios.chaos_kw.instance_count kw;
     NetworkOutageScenarios.chaos_kw.interfaces :=
       NetworkOutageScenarios.chaos_kw.interfaces kw;
     NetworkOutageScenarios.chaos_kw.execution :=
       NetworkOutageScenarios.chaos_kw.execution kw;
     NetworkOutageScenarios.chaos_kw.egress := egress;
     NetworkOutageScenarios.chaos_kw.image :=
       NetworkOutageScenarios.chaos_kw.image kw |}.

(** ** Workload validation ([conftest.py]) *)

(** [WorkloadOps.validate_and_cleanup] of
    [tests/cross_functional/krkn_chaos/conftest.py].  The workloads are
    objects of the cluster library; of each the model has the deployment
    name and how its three methods answer when called: by returning, by
    raising [UnexpectedBehaviour], or by raising something else. *)
Module WorkloadOps.

Inductive reply (A : Type) : Type :=
| Returns (a : A)
| RaisesUnexpectedBehaviour (msg : string)
| RaisesOther (exc : string).
Arguments Returns {A} a.
Arguments RaisesUnexpectedBehaviour {A} msg.
Arguments RaisesOther {A} exc.

Record workload : Type := {
  deployment_name : string;
  get_all_deployment_pod_logs : reply string;
  stop_workload : reply unit;
  cleanup_workload : reply unit
}.

(** What was done to the workloads. *)
Inductive action : Type :=
| Stopped (name : string)
| CleanedUp (name : string).

(** How the method ends. *)
Inductive verdict : Type :=
| Passed
| Failed (msg : string)
| Propagated (exc : string).

(** [pat in s]. *)
Fixpoint contains (pat s : string) : bool :=
  String.prefix pat s
  || match s with
     | EmptyString => false
     | String _ r => contains pat r
     end.

Definition no_logs_message (w : workload) : string :=
  "Workload " +:+ deployment_name w +:+ " returned no logs after network outage".

Definition failed_message (w : workload) : string :=
  "Workload " +:+ deployment_name w +:+ " failed after network outage".

Definition no_results_message (w : workload) (e : string) : string :=
  "Failed to get results for workload " +:+ deployment_name w +:+ ": " +:+ e.

(** The [if]/[elif] on the logs: what it appends to [validation_errors]. *)
Definition check_logs (w : workload) (result : string) : list string :=
  if negb (truthy (VStr result)) then [no_logs_message w]
  else if contains "error" (PyStr.lower result) then [failed_message w]
  else [].

(** The state of the loop: the errors collected and the actions taken. *)
Record loop_state : Type := {
  validation_errors : list string;
  actions : list action
}.

(** The body of the loop for one workload, with the exception that leaves
    the loop, if one does. *)
Definition visit (st : loop_state) (w : workload)
  : loop_state * option string :=
  match get_all_deployment_pod_logs w with
  | RaisesUnexpectedBehaviour e =>
      ({| validation_errors :=
            (validation_errors st ++ [no_results_message w e])%list;
          actions := actions st |}, None)
  | RaisesOther exc => (st, Some exc)
  | Returns result =>
      match stop_workload w with
      | RaisesUnexpectedBehaviour e =>
          ({| validation_errors :=
                (validation_errors st ++ [no_results_message w e])%list;
              actions := actions st |}, None)
      | RaisesOther exc => (st, Some exc)
      | Returns _ =>
          let errors := (validation_errors st ++ check_logs w result)%list in
          let done := (actions st ++ [Stopped (deployment_name w)])%list in
          match cleanup_workload w with
          | Returns _ =>
              ({| validation_errors := errors;
                  actions := (done ++ [CleanedUp (deployment_name w)])%list |},
               None)
          | RaisesUnexpectedBehaviour e =>
              ({| validation_errors :=
                    (errors ++ [no_results_message w e])%list;
                  actions := done |}, None)
          | RaisesOther exc =>
              ({| validation_errors := errors; actions := done |}, Some exc)
          end
      end
  end.

Fixpoint loop (st : loop_state) (workloads : list workload)
  : loop_state * option string :=
  match workloads with
  | [] => (st, None)
  | w :: rest =>
      match visit st w with
      | (st', None) => loop st' rest
      | (st', Some exc) => (st', Some exc)
      end
  end.

(** The method: how it ends, and what it did to the workloads. *)
Definition validate_and_cleanup (workloads : list workload)
  : verdict * list action :=
  match loop {| validation_errors := []; actions := [] |} workloads with
  | (st, None) =>
      (match validation_errors st with
       | [] => Passed
       | _ => Failed "Workload validation failed."
       end,
       actions st)
  | (st, Some exc) => (Propagated exc, actions st)
  end.

(** What the method does to one workload when nothing leaves the loop. *)
Definition actions_for (w : workload) : list action :=
  match get_all_deployment_pod_logs w, stop_workload w with
  | Returns _, Returns _ =>
      match cleanup_workload w with
      | Returns _ => [Stopped (deployment_name w); CleanedUp (deployment_name w)]
      | _ => [Stopped (deployment_name w)]
      end
  | _, _ => []
  end.

(** The workload answers every call without leaving the [try]. *)
Definition contained (w : workload) : Prop :=
  (forall exc, get_all_deployment_pod_logs w <> RaisesOther exc)
  /\ (forall exc, stop_workload w <> RaisesOther exc)
  /\ (forall exc, cleanup_workload w <> RaisesOther exc).

(** The workload gives no reason to fail the validation: its logs are
    there and have no [error] in them, and stopping and cleaning up
    return. *)
Definition healthy (w : workload) : Prop :=
  exists result,
    get_all_deployment_pod_logs w = Returns result
    /\ result <> EmptyString
    /\ contains "error" (PyStr.lower result) = false
    /\ stop_workload w = Returns tt
    /\ cleanup_workload w = Returns tt.

End WorkloadOps.

(** Workloads for the examples: one that ran well, one with an error in
    its logs, one whose logs cannot be fetched, and one whose log call
    times out. *)
Definition workload_fine : WorkloadOps.workload :=
  {| WorkloadOps.deployment_name := "vdbench-cephfs";
     WorkloadOps.get_all_deployment_pod_logs :=
       WorkloadOps.Returns "vdbench run completed";
     WorkloadOps.stop_workload := WorkloadOps.Returns tt;
     WorkloadOps.cleanup_workload := WorkloadOps.Returns tt |}.

Definition workload_with_errors : WorkloadOps.workload :=
  {| WorkloadOps.deployment_name := "vdbench-rbd";
     WorkloadOps.get_all_deployment_pod_logs :=
       WorkloadOps.Returns "I/O ERROR on /dev/rbd0";
     WorkloadOps.stop_workload := WorkloadOps.Returns tt;
     WorkloadOps.cleanup_workload := WorkloadOps.Returns tt |}.

Definition workload_unreachable : WorkloadOps.workload :=
  {| WorkloadOps.deployment_name := "vdbench-block";
     WorkloadOps.get_all_deployment_pod_logs :=
       WorkloadOps.RaisesUnexpectedBehaviour "no pods found";
     WorkloadOps.stop_workload := WorkloadOps.Returns tt;
     WorkloadOps.cleanup_workload := WorkloadOps.Returns tt |}.

Definition workload_timing_out : WorkloadOps.workload :=
  {| WorkloadOps.deployment_name := "vdbench-fs";
     WorkloadOps.get_all_deployment_pod_logs :=
       WorkloadOps.RaisesOther "TimeoutExpired";
     WorkloadOps.stop_workload := WorkloadOps.Returns tt;
     WorkloadOps.cleanup_workload := WorkloadOps.Returns tt |}.

(** * Properties *)

(** ** The digest function on known inputs *)

(** The test suite of RFC 1321, section A.5. *)
Example md5_empty : MD5.hexdigest EmptyString = "d41d8cd98f00b204e9800998ecf8427e".
Proof. vm_compute. reflexivity. Qed.

Example md5_abc : MD5.hexdigest "abc" = "900150983cd24fb0d6963f7d28e17f72".
Proof. vm_compute. reflexivity. Qed.

Example md5_alphabet :
  MD5.hexdigest "abcdefghijklmnopqrstuvwxyz" = "c3fcd3d76192e4007dfb496cca67e13b".
Proof. vm_compute. reflexivity. Qed.

Example md5_two_blocks :
  MD5.hexdigest
    "12345678901234567890123456789012345678901234567890123456789012345678901234567890"
  = "57edf4a22be3c955ac49da2e2107b67a".
Proof. vm_compute. reflexivity. Qed.

(** ** What rendering can raise *)

(** Loading a template and writing the rendered file raises
    [TemplateNotFound] or [FileNotFoundError], if anything. *)
Lemma render_no_value_error env template_path config output_path :
  no_value_error
    (writer <- TemplateWriter.init template_path ;;
     TemplateWriter.write_to_file env
       (TemplateWriter.set_config writer config) output_path).
Proof.
  intros fs fs' msg. unfold bind, TemplateWriter.init.
  destruct (files fs !! _) as [text|]; [|discriminate].
  unfold TemplateWriter.write_to_file, bind, makedirs.
  destruct (String.eqb (os_path.dirname output_path) EmptyString);
    discriminate.
Qed.

(** A configuration that raises stops the builder where the file system
    stands; one that is built hands over to rendering. *)
Lemma config_then_render {A : Type} (r : result pydict) (k : pydict -> io A)
    fs fs' msg :
  (forall c, no_value_error (k c)) ->
  (c <- lift r ;; k c) fs = (Raise (ValueError msg), fs') <->
  r = Raise (ValueError msg) /\ fs' = fs.
Proof.
  intros Hk. unfold bind, lift. destruct r as [c|e].
  - split; [intros H; destruct (Hk c _ _ _ H) | intros [H _]; discriminate].
  - split; [intros H; inversion H; subst; auto
           | intros [H ->]; inversion H; reflexivity].
Qed.

Lemma _create_hog_no_value_error env d t c o :
  no_value_error (HogScenarios._create_hog env d t c o).
Proof. apply render_no_value_error. Qed.

Lemma _create_network_scenario_no_value_error env d t c o :
  no_value_error (NetworkOutageScenarios._create_network_scenario env d t c o).
Proof. apply render_no_value_error. Qed.

Lemma _create_pod_scenario_no_value_error env d t c o :
  no_value_error (PodScenarios._create_pod_scenario env d t c o).
Proof. apply render_no_value_error. Qed.

Lemma _create_container_scenario_no_value_error env d t c o :
  no_value_error (ContainerScenarios._create_container_scenario env d t c o).
Proof. apply render_no_value_error. Qed.

(** ** The resolvers *)

Lemma pod_selector_raises_iff pod_name label_selector msg :
  _get_pod_selector_config pod_name label_selector = Raise (ValueError msg) <->
  msg = pod_selector_message
  /\ truthy pod_name = false /\ truthy label_selector = false.
Proof.
  unfold _get_pod_selector_config.
  destruct (truthy pod_name), (truthy label_selector); simpl;
    (split; [intros H; try discriminate; injection H as <-; auto
            | intros (-> & H1 & H2); try discriminate; reflexivity]).
Qed.

Lemma pod_selector_by_name pod_name label_selector :
  truthy pod_name = true ->
  _get_pod_selector_config pod_name label_selector
  = Ok [("pod_name", pod_name)].
Proof. unfold _get_pod_selector_config. intros ->. reflexivity. Qed.

Lemma pod_selector_by_label pod_name label_selector :
  truthy pod_name = false -> truthy label_selector = true ->
  _get_pod_selector_config pod_name label_selector
  = Ok [("label_selector", label_selector)].
Proof. unfold _get_pod_selector_config. intros -> ->. reflexivity. Qed.

(** ** Resource hogs: the defaults *)

(** C2.  With every optional parameter left out, each hog builder assembles
    the documented defaults: [cpu_hog] has [duration = 60],
    [cpu_load_percentage = 90], [cpu_method = "all"] and
    [namespace = "default"]; [io_hog] has [duration = 30],
    [io_block_size = "1m"], [io_write_bytes = "1g"] and
    [io_target_pod_folder = "/hog-data"]; [memory_hog] has [duration = 60]
    and [memory_vm_bytes = "90%"].  The whole mappings are listed, and they
    are what the builders hand to the writer. *)
Theorem hog_defaults_when_omitted :
  let cpu := HogScenarios.cpu_hog_data HogScenarios.cpu_kw.omitted in
  let io := HogScenarios.io_hog_data HogScenarios.io_kw.omitted in
  let memory := HogScenarios.memory_hog_data HogScenarios.memory_kw.omitted in
  (dict_get "duration" cpu = Some (VInt 60)
   /\ dict_get "cpu_load_percentage" cpu = Some (VInt 90)
   /\ dict_get "cpu_method" cpu = Some (VStr "all")
   /\ dict_get "namespace" cpu = Some (VStr "default"))
  /\ (dict_get "duration" io = Some (VInt 30)
      /\ dict_get "io_block_size" io = Some (VStr "1m")
      /\ dict_get "io_write_bytes" io = Some (VStr "1g")
      /\ dict_get "io_target_pod_folder" io = Some (VStr "/hog-data"))
  /\ (dict_get "duration" memory = Some (VInt 60)
      /\ dict_get "memory_vm_bytes" memory = Some (VStr "90%"))
  /\ cpu = [ ("duration", VInt 60); ("workers", VStr EmptyString);
             ("hog_type", VStr "cpu");
             ("image", VStr "quay.io/krkn-chaos/krkn-hog");
             ("namespace", VStr "default"); ("cpu_load_percentage", VInt 90);
             ("cpu_method", VStr "all");
             ("number_of_nodes", VStr EmptyString); ("taints", VList []) ]
  /\ io = [ ("duration", VInt 30); ("workers", VStr EmptyString);
            ("hog_type", VStr "io");
            ("image", VStr "quay.io/krkn-chaos/krkn-hog");
            ("namespace", VStr "default"); ("io_block_size", VStr "1m");
            ("io_write_bytes", VStr "1g");
            ("io_target_pod_folder", VStr "/hog-data");
            ("io_target_pod_volume",
              VDict [ ("name", VStr "node-volume");
                      ("hostPath", VDict [("path", VStr "/root")]) ]);
            ("number_of_nodes", VStr EmptyString); ("taints", VList []) ]
  /\ memory = [ ("duration", VInt 60); ("workers", VStr EmptyString);
                ("hog_type", VStr "memory");
                ("image", VStr "quay.io/krkn-chaos/krkn-hog");
                ("namespace", VStr "default"); ("memory_vm_bytes", VStr "90%");
                ("number_of_nodes", VStr EmptyString); ("taints", VList []) ]
  /\ (forall env scenario_dir,
        HogScenarios.cpu_hog env scenario_dir HogScenarios.cpu_kw.omitted
        = HogScenarios._create_hog env scenario_dir "cpu-hog.yml.j2" cpu
            "cpu_hog.yaml"
        /\ HogScenarios.io_hog env scenario_dir HogScenarios.io_kw.omitted
           = HogScenarios._create_hog env scenario_dir "io-hog.yml.j2" io
               "io_hog.yaml"
        /\ HogScenarios.memory_hog env scenario_dir
             HogScenarios.memory_kw.omitted
           = HogScenarios._create_hog env scenario_dir "memory-hog.yml.j2"
               memory "memory_hog.yaml").
Proof.
  cbv zeta. repeat split; reflexivity.
Qed.

(** ** Node-level network chaos: the selector *)

Lemma has_key_dict_set k k' v d :
  has_key k (dict_set k' v d) = String.eqb k k' || has_key k d.
Proof.
  unfold has_key. induction d as [|[k0 v0] d IH]; simpl.
  - destruct (String.eqb k k'); reflexivity.
  - destruct (String.eqb k' k0) eqn:E'; simpl.
    + apply String.eqb_eq in E' as <-.
      destruct (String.eqb k k'); reflexivity.
    + destruct (String.eqb k k0); [symmetry; apply orb_true_r | exact IH].
Qed.

Lemma dict_get_dict_set_eq k v d : dict_get k (dict_set k v d) = Some v.
Proof.
  induction d as [|[k0 v0] d IH]; simpl.
  - rewrite String.eqb_refl. reflexivity.
  - destruct (String.eqb k k0) eqn:E; simpl.
    + rewrite String.eqb_refl. reflexivity.
    + rewrite E. exact IH.
Qed.

(** C5.  [pod_network_chaos] puts the worker-node selector
    ["node-role.kubernetes.io/worker"] under [label_selector] when neither
    a node name nor a label selector is given (absent or empty), and for
    all inputs the configuration never has both the [node_name] and the
    [label_selector] key. *)
Theorem network_chaos_selector (kw : NetworkOutageScenarios.chaos_kw.t) :
  let config := NetworkOutageScenarios.pod_network_chaos_config kw in
  (truthy (NetworkOutageScenarios.chaos_kw.node_name kw) = false ->
   truthy (NetworkOutageScenarios.chaos_kw.label_selector kw) = false ->
   dict_get "label_selector" config
   = Some (VStr "node-role.kubernetes.io/worker"))
  /\ has_key "node_name" config && has_key "label_selector" config = false.
Proof.
  cbv zeta. unfold NetworkOutageScenarios.pod_network_chaos_config.
  set (config := dict_lit _).
  assert (Hk : has_key "node_name" config = false
               /\ has_key "label_selector" config = false)
    by (split; reflexivity).
  destruct Hk as [Hk1 Hk2].
  destruct (truthy (NetworkOutageScenarios.chaos_kw.node_name kw)) eqn:Hn;
    cbn [negb andb].
  - split; [discriminate|].
    rewrite !has_key_dict_set, Hk1, Hk2. reflexivity.
  - destruct (truthy (NetworkOutageScenarios.chaos_kw.label_selector kw))
      eqn:Hl; cbn [negb].
    + rewrite Hl. split; [discriminate|].
      rewrite !has_key_dict_set, Hk1, Hk2. reflexivity.
    + change (truthy (VStr NetworkOutageScenarios.worker_selector)) with true.
      cbv iota.
      split; [intros _ _; apply dict_get_dict_set_eq|].
      rewrite !has_key_dict_set, Hk1, Hk2. reflexivity.
Qed.

Lemma network_chaos_selector_witness :
  dict_get "label_selector"
    (NetworkOutageScenarios.pod_network_chaos_config
       NetworkOutageScenarios.chaos_kw.omitted)
  = Some (VStr "node-role.kubernetes.io/worker").
Proof.
  apply (proj1 (network_chaos_selector NetworkOutageScenarios.chaos_kw.omitted));
    reflexivity.
Defined.

(** ** Container kill: the built-in list *)

(** C6.  [container_kill] called in unified mode with an empty scenario list
    yields a configuration whose [scenarios] list is the built-in one: it
    has exactly eight entries and the OSD entry (label [app=rook-ceph-osd])
    is the last of them. *)
Theorem container_kill_empty_list_catalog (kw : ContainerScenarios.kill_kw.t) :
  ContainerScenarios.kill_kw.scenarios kw = Some [] ->
  exists entries osd,
    ContainerScenarios.container_kill_config kw
    = Ok [("scenarios", VList entries)]
    /\ List.length entries = 8%nat
    /\ List.last entries VNone = VDict osd
    /\ dict_get "label_selector" osd = Some (VStr "app=rook-ceph-osd")
    /\ dict_get "description" osd = Some (VStr "OSD")
    /\ dict_get "name" osd
       = Some (VStr ("osd_" +:+
                     PyStr.lower
                       (kwarg "SIGKILL" (ContainerScenarios.kill_kw.kill_signal kw))
                     +:+ "_kill")).
Proof.
  intros Hs. unfold ContainerScenarios.container_kill_config. rewrite Hs.
  eexists. eexists. split; [reflexivity|].
  split; [reflexivity|]. split; [reflexivity|].
  repeat split; reflexivity.
Qed.

Lemma container_kill_empty_list_catalog_witness :
  exists entries osd,
    ContainerScenarios.container_kill_config
      {| ContainerScenarios.kill_kw.namespace := VNone;
         ContainerScenarios.kill_kw.label_selector := VNone;
         ContainerScenarios.kill_kw.pod_name := VNone;
         ContainerScenarios.kill_kw.container_name := None;
         ContainerScenarios.kill_kw.kill_signal := None;
         ContainerScenarios.kill_kw.instance_count := None;
         ContainerScenarios.kill_kw.wait_duration := None;
         ContainerScenarios.kill_kw.scenarios := Some [] |}
    = Ok [("scenarios", VList entries)]
    /\ List.length entries = 8%nat
    /\ List.last entries VNone = VDict osd
    /\ dict_get "label_selector" osd = Some (VStr "app=rook-ceph-osd")
    /\ dict_get "description" osd = Some (VStr "OSD")
    /\ dict_get "name" osd = Some (VStr "osd_sigkill_kill").
Proof.
  apply (container_kill_empty_list_catalog
           {| ContainerScenarios.kill_kw.namespace := VNone;
              ContainerScenarios.kill_kw.label_selector := VNone;
              ContainerScenarios.kill_kw.pod_name := VNone;
              ContainerScenarios.kill_kw.container_name := None;
              ContainerScenarios.kill_kw.kill_signal := None;
              ContainerScenarios.kill_kw.instance_count := None;
              ContainerScenarios.kill_kw.wait_duration := None;
              ContainerScenarios.kill_kw.scenarios := Some [] |}).
  reflexivity.
Defined.

(** ** Application outage: the duration *)

Lemma dict_get_dict_set_ne k k' v d :
  String.eqb k k' = false -> dict_get k (dict_set k' v d) = dict_get k d.
Proof.
  intros Hne. induction d as [|[k0 v0] d IH]; simpl.
  - rewrite Hne. reflexivity.
  - destruct (String.eqb k' k0) eqn:E'; simpl.
    + apply String.eqb_eq in E' as <-. rewrite Hne. reflexivity.
    + destruct (String.eqb k k0); [reflexivity | exact IH].
Qed.

Lemma application_outage_duration (kw : ApplicationOutageScenarios.kw.t) :
  dict_get "duration" (ApplicationOutageScenarios.application_outage_config kw)
  = Some (VInt (Z.min 300
                  (kwarg 300 (ApplicationOutageScenarios.kw.duration kw)))).
Proof.
  unfold ApplicationOutageScenarios.application_outage_config.
  destruct (truthy (ApplicationOutageScenarios.kw.pod_selectors kw));
    (rewrite dict_get_dict_set_ne; reflexivity).
Qed.

(** C7.  The [duration] field [application_outage] emits is
    [min(300, duration)]: 400 gives 300 and 100 gives 100.  A request over
    the limit is capped silently: the call does exactly what the call with
    the capped duration does, it never raises [ValueError], and it returns
    the path of the file whenever its template loads and the output
    directory has a name. *)
Theorem application_outage_duration_clamped
    (kw : ApplicationOutageScenarios.kw.t) (d : Z) :
  dict_get "duration"
    (ApplicationOutageScenarios.application_outage_config (with_duration d kw))
  = Some (VInt (Z.min 300 d))
  /\ dict_get "duration"
       (ApplicationOutageScenarios.application_outage_config
          (with_duration 400 kw))
     = Some (VInt 300)
  /\ dict_get "duration"
       (ApplicationOutageScenarios.application_outage_config
          (with_duration 100 kw))
     = Some (VInt 100)
  /\ (forall env scenario_dir,
        ApplicationOutageScenarios.application_outage env scenario_dir
          (with_duration d kw)
        = ApplicationOutageScenarios.application_outage env scenario_dir
            (with_duration (Z.min 300 d) kw))
  /\ (forall env scenario_dir,
        no_value_error
          (ApplicationOutageScenarios.application_outage env scenario_dir
             (with_duration d kw)))
  /\ (forall env scenario_dir fs writer,
        TemplateWriter.init
          (os_path.join (os_path.join (KRKN_SCENARIO_TEMPLATE env) "openshift")
             "app_outage.yml.j2") fs
        = (Ok writer, fs) ->
        os_path.dirname (os_path.join scenario_dir "application_outage.yaml")
        <> EmptyString ->
        exists fs',
          ApplicationOutageScenarios.application_outage env scenario_dir
            (with_duration d kw) fs
          = (Ok (os_path.join scenario_dir "application_outage.yaml"), fs')).
Proof.
  split; [|split; [|split; [|split; [|split]]]];
    try apply application_outage_duration.
  - intros env scenario_dir.
    unfold ApplicationOutageScenarios.application_outage,
      ApplicationOutageScenarios.application_outage_config.
    cbn [with_duration ApplicationOutageScenarios.kw.duration
         ApplicationOutageScenarios.kw.namespace
         ApplicationOutageScenarios.kw.pod_selector
         ApplicationOutageScenarios.kw.pod_selectors
         ApplicationOutageScenarios.kw.block kwarg].
    replace (Z.min 300 (Z.min 300 d)) with (Z.min 300 d) by lia.
    reflexivity.
  - intros env scenario_dir. apply render_no_value_error.
  - intros env scenario_dir fs writer Hinit Hdir.
    unfold ApplicationOutageScenarios.application_outage, bind.
    rewrite Hinit.
    unfold TemplateWriter.write_to_file, bind, makedirs, write_text, ret.
    destruct (String.eqb_spec
                (os_path.dirname
                   (os_path.join scenario_dir "application_outage.yaml"))
                EmptyString) as [E|_]; [contradiction|].
    eexists. reflexivity.
Qed.

Lemma application_outage_duration_clamped_witness :
  exists fs',
    ApplicationOutageScenarios.application_outage example_env "/tmp/scenarios"
      (with_duration 400 ApplicationOutageScenarios.kw.omitted) templates_fs
    = (Ok "/tmp/scenarios/application_outage.yaml", fs').
Proof.
  refine (proj2 (proj2 (proj2 (proj2 (proj2
            (application_outage_duration_clamped
               ApplicationOutageScenarios.kw.omitted 400)))))
          example_env "/tmp/scenarios" templates_fs
          {| TemplateWriter.template := "# application outage: ";
             TemplateWriter.config := [] |} _ _).
  - vm_compute. reflexivity.
  - discriminate.
Defined.

(** ** Container pause *)

Lemma contains_char_append c s t :
  PyStr.contains_char c (s +:+ t)
  = PyStr.contains_char c s || PyStr.contains_char c t.
Proof.
  induction s as [|a s IH]; simpl; [reflexivity|].
  destruct (Ascii.eqb a c); [reflexivity | exact IH].
Qed.

Lemma split_last_no_char c s :
  PyStr.contains_char c s = false -> PyStr.split_last c s = s.
Proof.
  destruct s as [|a s]; simpl; [reflexivity|].
  destruct (Ascii.eqb a c); [discriminate|]. intros ->. reflexivity.
Qed.

(** After a prefix that ends in the separator, a piece without the
    separator is the last piece. *)
Lemma split_last_after c s t :
  PyStr.contains_char c t = false ->
  PyStr.split_last c (s +:+ String c t) = t.
Proof.
  intros Ht. induction s as [|a s IH]; simpl.
  - rewrite Ht, Ascii.eqb_refl. reflexivity.
  - rewrite contains_char_append. simpl. rewrite Ascii.eqb_refl, orb_true_r.
    exact IH.
Qed.

(** C8.  [container_pause] called with a pod name [p] and no label
    selector rewrites the selector into ["metadata.name=" + p]; the
    configuration has no [pod_name] key; with no scenario name given, the
    name is made of the part of the selector after its last [=] (which is
    [p] when [p] has no [=]) and the pause duration.  And in every call
    that builds a configuration without [expected_recovery_time], the field
    is [wait_duration] when that differs from 300 and 120 when it is 300. *)
Theorem container_pause_pod_name_only (namespace : pyval)
    (kw : ContainerScenarios.pause_kw.t) (p : string) :
  ContainerScenarios.pause_kw.pod_name kw = Some p ->
  p <> EmptyString ->
  ContainerScenarios.pause_kw.label_selector kw = None ->
  (exists config,
     ContainerScenarios.container_pause_config namespace kw = Ok config
     /\ dict_get "label_selector" config
        = Some (VStr ("metadata.name=" +:+ p))
     /\ has_key "pod_name" config = false
     /\ (ContainerScenarios.pause_kw.scenario_name kw = None ->
         dict_get "scenario_name" config
         = Some (VStr ("container_pause_"
                       +:+ PyStr.split_last ContainerScenarios.equals_sign
                             ("metadata.name=" +:+ p)
                       +:+ "_"
                       +:+ PyStr.of_Z
                             (kwarg 60 (ContainerScenarios.pause_kw.pause_seconds kw))
                       +:+ "s")))
     /\ (PyStr.contains_char ContainerScenarios.equals_sign p = false ->
         PyStr.split_last ContainerScenarios.equals_sign ("metadata.name=" +:+ p)
         = p))
  /\ (forall namespace' kw' config',
        ContainerScenarios.container_pause_config namespace' kw' = Ok config' ->
        ContainerScenarios.pause_kw.expected_recovery_time kw' = None ->
        let wait_duration :=
          kwarg 300 (ContainerScenarios.pause_kw.wait_duration kw') in
        dict_get "expected_recovery_time" config'
        = Some (VInt (if wait_duration =? 300 then 120 else wait_duration))).
Proof.
  intros Hp Hne Hl. split.
  - unfold ContainerScenarios.container_pause_config. rewrite Hp, Hl.
    assert (Ht : truthy (VStr p) = true).
    { simpl. destruct (String.eqb_spec p EmptyString); [contradiction|reflexivity]. }
    cbn [of_opt_str]. rewrite Ht. cbn [negb andb truthy].
    eexists. split; [reflexivity|].
    split; [reflexivity|]. split; [reflexivity|]. split.
    + intros ->. cbn [of_opt_str truthy negb ContainerScenarios.component_of].
      change (PyStr.contains_char ContainerScenarios.equals_sign
                ("metadata.name=" +:+ p)) with true.
      reflexivity.
    + intros Hc.
      apply (split_last_after ContainerScenarios.equals_sign "metadata.name" p Hc).
  - intros namespace' kw' config'.
    unfold ContainerScenarios.container_pause_config.
    destruct (negb (truthy (of_opt_str (ContainerScenarios.pause_kw.pod_name kw')))
              && negb (truthy (of_opt_str
                         (ContainerScenarios.pause_kw.label_selector kw'))));
      [discriminate|].
    intros H Hr. injection H as <-. rewrite Hr. cbv zeta.
    destruct (kwarg 300 (ContainerScenarios.pause_kw.wait_duration kw') =? 300);
      reflexivity.
Qed.

Lemma container_pause_pod_name_only_witness :
  exists config,
    ContainerScenarios.container_pause_config (VStr "openshift-storage")
      (pause_with_selectors (Some "p1") None ContainerScenarios.pause_kw.omitted)
    = Ok config
    /\ dict_get "label_selector" config = Some (VStr "metadata.name=p1")
    /\ has_key "pod_name" config = false
    /\ dict_get "scenario_name" config = Some (VStr "container_pause_p1_60s")
    /\ dict_get "expected_recovery_time" config = Some (VInt 120).
Proof.
  destruct (container_pause_pod_name_only (VStr "openshift-storage")
              (pause_with_selectors (Some "p1") None
                 ContainerScenarios.pause_kw.omitted) "p1")
    as [(config & Hc & Hl & Hk & Hs & _) Hr];
    [reflexivity | discriminate | reflexivity |].
  exists config. split; [exact Hc|]. split; [exact Hl|]. split; [exact Hk|].
  split; [exact (Hs eq_refl)|].
  exact (Hr _ _ _ Hc eq_refl).
Defined.

(** ** Empty selectors *)

(** C10.  An empty pod name with an empty label mapping is treated as no
    selector at all: the pod resolver raises as it does when both are left
    out, so does every pod-targeting builder (with the same outcome as the
    call that omits both; for [container_pause], whose selector is a
    string, with the empty string), and the node resolver given an empty
    node name and an empty mapping returns the empty fragment. *)
Theorem empty_selectors_are_absent :
  _get_pod_selector_config (VStr EmptyString) (VDict [])
  = Raise (ValueError "Either pod_name or label_selector must be provided")
  /\ _get_pod_selector_config (VStr EmptyString) (VDict [])
     = _get_pod_selector_config VNone VNone
  /\ _get_selector_config (VStr EmptyString) (VDict []) = []
  /\ (forall env scenario_dir namespace kw fs,
        NetworkOutageScenarios.pod_egress_shaping env scenario_dir namespace
          (shaping_with_selectors (VStr EmptyString) (VDict []) kw) fs
        = (Raise (ValueError pod_selector_message), fs)
        /\ NetworkOutageScenarios.pod_egress_shaping env scenario_dir namespace
             (shaping_with_selectors VNone VNone kw) fs
           = (Raise (ValueError pod_selector_message), fs))
  /\ (forall env scenario_dir namespace kw fs,
        NetworkOutageScenarios.pod_ingress_shaping env scenario_dir namespace
          (shaping_with_selectors (VStr EmptyString) (VDict []) kw) fs
        = (Raise (ValueError pod_selector_message), fs)
        /\ NetworkOutageScenarios.pod_ingress_shaping env scenario_dir namespace
             (shaping_with_selectors VNone VNone kw) fs
           = (Raise (ValueError pod_selector_message), fs))
  /\ (forall env scenario_dir namespace kw fs,
        NetworkOutageScenarios.pod_network_outage env scenario_dir namespace
          (outage_with_selectors (VStr EmptyString) (VDict []) kw) fs
        = (Raise (ValueError pod_selector_message), fs)
        /\ NetworkOutageScenarios.pod_network_outage env scenario_dir namespace
             (outage_with_selectors VNone VNone kw) fs
           = (Raise (ValueError pod_selector_message), fs))
  /\ (forall env scenario_dir kw fs,
        ContainerScenarios.kill_kw.scenarios kw = None ->
        (exists msg,
           ContainerScenarios.container_kill env scenario_dir
             (kill_with_selectors (VStr EmptyString) (VDict []) kw) fs
           = (Raise (ValueError msg), fs))
        /\ ContainerScenarios.container_kill env scenario_dir
             (kill_with_selectors (VStr EmptyString) (VDict []) kw) fs
           = ContainerScenarios.container_kill env scenario_dir
               (kill_with_selectors VNone VNone kw) fs)
  /\ (forall env scenario_dir namespace kw fs,
        ContainerScenarios.container_pause env scenario_dir namespace
          (pause_with_selectors (Some EmptyString) (Some EmptyString) kw) fs
        = (Raise (ValueError pod_selector_message), fs)
        /\ ContainerScenarios.container_pause env scenario_dir namespace
             (pause_with_selectors None None kw) fs
           = (Raise (ValueError pod_selector_message), fs)).
Proof.
  repeat match goal with |- _ /\ _ => split end; try reflexivity.
  - intros; split; reflexivity.
  - intros; split; reflexivity.
  - intros; split; reflexivity.
  - intros env scenario_dir kw fs Hs.
    unfold ContainerScenarios.container_kill,
      ContainerScenarios.container_kill_config.
    cbn [kill_with_selectors ContainerScenarios.kill_kw.scenarios
         ContainerScenarios.kill_kw.namespace
         ContainerScenarios.kill_kw.pod_name
         ContainerScenarios.kill_kw.label_selector].
    rewrite Hs. split; [|reflexivity].
    destruct (truthy (ContainerScenarios.kill_kw.namespace kw));
      eexists; reflexivity.
  - intros; split; reflexivity.
Qed.

Lemma empty_selectors_are_absent_witness :
  exists msg,
    ContainerScenarios.container_kill example_env "/tmp/scenarios"
      (kill_with_selectors (VStr EmptyString) (VDict [])
         ContainerScenarios.kill_kw.omitted) empty_fs
    = (Raise (ValueError msg), empty_fs).
Proof.
  apply (proj1 (proj2 (proj2 (proj2 (proj2 (proj2 (proj2
           empty_selectors_are_absent))))))).
  reflexivity.
Defined.

(** ** Errors come before any write *)

(** A [ValueError] of a builder that assembles its configuration and then
    renders comes from the configuration. *)
Ltac raised_in_config H :=
  apply config_then_render in H;
  [ | intros; apply render_no_value_error ].

(** C9.  Whenever a builder raises [ValueError] -- no pod selector, or no
    namespace in a single-scenario container kill -- it has written
    nothing: the file system after the call is the file system before it. *)
Theorem value_error_before_any_write (env : environment)
    (scenario_dir : string) (call : builder_call)
    (fs fs' : filesystem) (msg : string) :
  run_builder env scenario_dir call fs = (Raise (ValueError msg), fs') ->
  fs' = fs.
Proof.
  destruct call; cbn [run_builder]; intros H;
    first [ exfalso; revert H; apply render_no_value_error
          | raised_in_config H; tauto ].
Qed.

Lemma value_error_before_any_write_witness :
  run_builder example_env "/tmp/scenarios"
    (call_container_kill ContainerScenarios.kill_kw.omitted) empty_fs
  = (Raise (ValueError "namespace is required for single scenario"), empty_fs)
  /\ empty_fs = empty_fs.
Proof.
  split; [reflexivity|].
  apply (value_error_before_any_write example_env "/tmp/scenarios"
           (call_container_kill ContainerScenarios.kill_kw.omitted)
           empty_fs empty_fs "namespace is required for single scenario").
  reflexivity.
Defined.

(** ** Pod selectors are required *)

Lemma container_pause_raises_iff namespace kw msg :
  ContainerScenarios.container_pause_config namespace kw
  = Raise (ValueError msg) <->
  msg = pod_selector_message
  /\ truthy (of_opt_str (ContainerScenarios.pause_kw.pod_name kw)) = false
  /\ truthy (of_opt_str (ContainerScenarios.pause_kw.label_selector kw)) = false.
Proof.
  unfold ContainerScenarios.container_pause_config.
  destruct (truthy (of_opt_str (ContainerScenarios.pause_kw.pod_name kw))),
    (truthy (of_opt_str (ContainerScenarios.pause_kw.label_selector kw)));
    cbn [negb andb];
    (split; [intros H; try discriminate; injection H as <-; auto
            | intros (-> & H1 & H2); try discriminate; reflexivity]).
Qed.

Lemma shaping_raises_iff namespace kw msg :
  NetworkOutageScenarios.shaping_config namespace kw = Raise (ValueError msg) <->
  msg = pod_selector_message
  /\ truthy (NetworkOutageScenarios.shaping_kw.pod_name kw) = false
  /\ truthy (NetworkOutageScenarios.shaping_kw.label_selector kw) = false.
Proof.
  rewrite <- pod_selector_raises_iff.
  unfold NetworkOutageScenarios.shaping_config.
  destruct (_get_pod_selector_config _ _); simpl;
    split; intros H; try discriminate; exact H.
Qed.

Lemma outage_raises_iff namespace kw msg :
  NetworkOutageScenarios.pod_network_outage_config namespace kw
  = Raise (ValueError msg) <->
  msg = pod_selector_message
  /\ truthy (NetworkOutageScenarios.outage_kw.pod_name kw) = false
  /\ truthy (NetworkOutageScenarios.outage_kw.label_selector kw) = false.
Proof.
  rewrite <- pod_selector_raises_iff.
  unfold NetworkOutageScenarios.pod_network_outage_config.
  destruct (_get_pod_selector_config _ _); simpl;
    split; intros H; try discriminate; exact H.
Qed.

Lemma container_kill_single_raises_iff kw msg :
  ContainerScenarios.kill_kw.scenarios kw = None ->
  truthy (ContainerScenarios.kill_kw.namespace kw) = true ->
  ContainerScenarios.container_kill_config kw = Raise (ValueError msg) <->
  msg = ContainerScenarios.single_scenario_message
  /\ truthy (ContainerScenarios.kill_kw.pod_name kw) = false
  /\ truthy (ContainerScenarios.kill_kw.label_selector kw) = false.
Proof.
  intros Hs Hn. unfold ContainerScenarios.container_kill_config,
    _get_pod_selector_config.
  rewrite Hs, Hn.
  destruct (truthy (ContainerScenarios.kill_kw.pod_name kw)),
    (truthy (ContainerScenarios.kill_kw.label_selector kw));
    cbn [negb andb rbind];
    (split; [intros H; try discriminate; injection H as <-; auto
            | intros (-> & H1 & H2); try discriminate; reflexivity]).
Qed.

(** C1, as the code has it.  [pod_egress_shaping], [pod_ingress_shaping],
    [pod_network_outage] and [container_pause] raise [ValueError], and then
    with the message "Either pod_name or label_selector must be provided",
    exactly when the pod name and the label selector are both absent or
    empty.  A single-scenario [container_kill] with a namespace raises under
    the same condition with its own message, which ends in
    "for single scenario", and without a namespace it raises
    "namespace is required for single scenario" whatever the selectors are.
    The resolver returns [{"pod_name": name}] for a non-empty name and
    [{"label_selector": criteria}] otherwise. *)
Theorem pod_selector_required (env : environment) (scenario_dir : string)
    (fs fs' : filesystem) (msg : string) :
  (forall namespace kw,
     NetworkOutageScenarios.pod_egress_shaping env scenario_dir namespace kw fs
     = (Raise (ValueError msg), fs') <->
     (msg = "Either pod_name or label_selector must be provided"
      /\ truthy (NetworkOutageScenarios.shaping_kw.pod_name kw) = false
      /\ truthy (NetworkOutageScenarios.shaping_kw.label_selector kw) = false)
     /\ fs' = fs)
  /\ (forall namespace kw,
        NetworkOutageScenarios.pod_ingress_shaping env scenario_dir namespace
          kw fs
        = (Raise (ValueError msg), fs') <->
        (msg = "Either pod_name or label_selector must be provided"
         /\ truthy (NetworkOutageScenarios.shaping_kw.pod_name kw) = false
         /\ truthy (NetworkOutageScenarios.shaping_kw.label_selector kw) = false)
        /\ fs' = fs)
  /\ (forall namespace kw,
        NetworkOutageScenarios.pod_network_outage env scenario_dir namespace
          kw fs
        = (Raise (ValueError msg), fs') <->
        (msg = "Either pod_name or label_selector must be provided"
         /\ truthy (NetworkOutageScenarios.outage_kw.pod_name kw) = false
         /\ truthy (NetworkOutageScenarios.outage_kw.label_selector kw) = false)
        /\ fs' = fs)
  /\ (forall namespace kw,
        ContainerScenarios.container_pause env scenario_dir namespace kw fs
        = (Raise (ValueError msg), fs') <->
        (msg = "Either pod_name or label_selector must be provided"
         /\ truthy (of_opt_str (ContainerScenarios.pause_kw.pod_name kw)) = false
         /\ truthy (of_opt_str (ContainerScenarios.pause_kw.label_selector kw))
            = false)
        /\ fs' = fs)
  /\ (forall kw,
        ContainerScenarios.kill_kw.scenarios kw = None ->
        truthy (ContainerScenarios.kill_kw.namespace kw) = true ->
        ContainerScenarios.container_kill env scenario_dir kw fs
        = (Raise (ValueError msg), fs') <->
        (msg = "Either pod_name or label_selector must be provided for single scenario"
         /\ truthy (ContainerScenarios.kill_kw.pod_name kw) = false
         /\ truthy (ContainerScenarios.kill_kw.label_selector kw) = false)
        /\ fs' = fs)
  /\ (forall kw,
        ContainerScenarios.kill_kw.scenarios kw = None ->
        truthy (ContainerScenarios.kill_kw.namespace kw) = false ->
        ContainerScenarios.container_kill env scenario_dir kw fs
        = (Raise (ValueError "namespace is required for single scenario"), fs))
  /\ (forall pod_name label_selector,
        truthy pod_name = true ->
        _get_pod_selector_config pod_name label_selector
        = Ok [("pod_name", pod_name)])
  /\ (forall pod_name label_selector,
        truthy pod_name = false -> truthy label_selector = true ->
        _get_pod_selector_config pod_name label_selector
        = Ok [("label_selector", label_selector)]).
Proof.
  repeat match goal with |- _ /\ _ => split end.
  - intros namespace kw.
    unfold NetworkOutageScenarios.pod_egress_shaping.
    rewrite config_then_render by (intros; apply render_no_value_error).
    unfold NetworkOutageScenarios.pod_egress_shaping_config.
    rewrite shaping_raises_iff. reflexivity.
  - intros namespace kw.
    unfold NetworkOutageScenarios.pod_ingress_shaping.
    rewrite config_then_render by (intros; apply render_no_value_error).
    unfold NetworkOutageScenarios.pod_ingress_shaping_config.
    rewrite shaping_raises_iff. reflexivity.
  - intros namespace kw.
    unfold NetworkOutageScenarios.pod_network_outage.
    rewrite config_then_render by (intros; apply render_no_value_error).
    rewrite outage_raises_iff. reflexivity.
  - intros namespace kw.
    unfold ContainerScenarios.container_pause.
    rewrite config_then_render by (intros; apply render_no_value_error).
    rewrite container_pause_raises_iff. reflexivity.
  - intros kw Hs Hn.
    unfold ContainerScenarios.container_kill.
    rewrite config_then_render by (intros; apply render_no_value_error).
    rewrite (container_kill_single_raises_iff kw msg Hs Hn). reflexivity.
  - intros kw Hs Hn.
    unfold ContainerScenarios.container_kill,
      ContainerScenarios.container_kill_config.
    rewrite Hs, Hn. reflexivity.
  - apply pod_selector_by_name.
  - apply pod_selector_by_label.
Qed.

Lemma pod_selector_required_witness :
  ContainerScenarios.container_kill example_env "/tmp/scenarios"
    ContainerScenarios.kill_kw.omitted empty_fs
  = (Raise (ValueError "namespace is required for single scenario"), empty_fs)
  /\ _get_pod_selector_config (VStr "rook-ceph-osd-0") VNone
     = Ok [("pod_name", VStr "rook-ceph-osd-0")]
  /\ _get_pod_selector_config VNone (VDict [("app", VStr "rook-ceph-osd")])
     = Ok [("label_selector", VDict [("app", VStr "rook-ceph-osd")])].
Proof.
  destruct (pod_selector_required example_env "/tmp/scenarios" empty_fs
              empty_fs EmptyString)
    as (_ & _ & _ & _ & _ & Hk & Hn & Hl).
  split; [apply Hk; reflexivity|].
  split; [apply Hn; reflexivity | apply Hl; reflexivity].
Defined.

(** C1, as stated, fails on [container_kill]: called in single-scenario
    mode with a namespace and neither a pod name nor a label selector, it
    raises [ValueError] with another message than the one the claim gives. *)
Lemma pod_selector_message_counterexample :
  let kw := ContainerScenarios.kill_kw.omitted in
  let call :=
    {| ContainerScenarios.kill_kw.namespace := VStr "openshift-storage";
       ContainerScenarios.kill_kw.label_selector :=
         ContainerScenarios.kill_kw.label_selector kw;
       ContainerScenarios.kill_kw.pod_name :=
         ContainerScenarios.kill_kw.pod_name kw;
       ContainerScenarios.kill_kw.container_name := None;
       ContainerScenarios.kill_kw.kill_signal := None;
       ContainerScenarios.kill_kw.instance_count := None;
       ContainerScenarios.kill_kw.wait_duration := None;
       ContainerScenarios.kill_kw.scenarios := None |} in
  ContainerScenarios.kill_kw.pod_name call = VNone
  /\ ContainerScenarios.kill_kw.label_selector call = VNone
  /\ ContainerScenarios.container_kill example_env "/tmp/scenarios" call
       empty_fs
     = (Raise (ValueError
                 "Either pod_name or label_selector must be provided for single scenario"),
        empty_fs)
  /\ ContainerScenarios.container_kill example_env "/tmp/scenarios" call
       empty_fs
     <> (Raise (ValueError "Either pod_name or label_selector must be provided"),
         empty_fs).
Proof.
  cbv zeta. repeat split; try reflexivity. discriminate.
Qed.

(** ** Strings: appending, numbers and joined lists *)

Section Strings.

Lemma append_cons c s t : String c s +:+ t = String c (s +:+ t).
Proof. reflexivity. Qed.

Lemma append_nil_l s : EmptyString +:+ s = s.
Proof. reflexivity. Qed.

Lemma append_nil_r s : s +:+ EmptyString = s.
Proof.
  induction s as [|c s IH]; [reflexivity|].
  rewrite append_cons, IH. reflexivity.
Qed.

Lemma append_assoc s t u : (s +:+ t) +:+ u = s +:+ (t +:+ u).
Proof.
  induction s as [|c s IH]; [reflexivity|].
  rewrite !append_cons, IH. reflexivity.
Qed.

Lemma length_append s t :
  String.length (s +:+ t) = (String.length s + String.length t)%nat.
Proof.
  induction s as [|c s IH]; [reflexivity|].
  rewrite append_cons. simpl. rewrite IH. reflexivity.
Qed.

Lemma append_inv_head s t u : s +:+ t = s +:+ u -> t = u.
Proof.
  induction s as [|c s IH]; intros H; [exact H|].
  rewrite !append_cons in H. injection H as H. auto.
Qed.

Lemma append_inv_tail s t u : s +:+ u = t +:+ u -> s = t.
Proof.
  intros H.
  assert (Hlen : String.length s = String.length t).
  { apply (f_equal String.length) in H. rewrite !length_append in H. lia. }
  revert t H Hlen. induction s as [|c s IH]; intros [|d t] H Hlen;
    try discriminate; [reflexivity|].
  rewrite !append_cons in H. simpl in Hlen.
  injection H as -> H. f_equal. apply IH; [exact H|lia].
Qed.

(** A run of digits ends where the digits end. *)
Lemma digits_split d1 d2 r1 r2 :
  all_digits d1 = true -> all_digits d2 = true ->
  stops r1 = true -> stops r2 = true ->
  d1 +:+ r1 = d2 +:+ r2 -> d1 = d2 /\ r1 = r2.
Proof.
  revert d2. induction d1 as [|c d1 IH]; intros [|c2 d2] H1 H2 S1 S2 H;
    rewrite ?append_cons, ?append_nil_l in H; simpl in H1, H2.
  - auto.
  - subst r1. simpl in S1. apply andb_prop in H2 as [H2 _].
    rewrite H2 in S1. discriminate.
  - subst r2. simpl in S2. apply andb_prop in H1 as [H1 _].
    rewrite H1 in S2. discriminate.
  - injection H as -> H.
    apply andb_prop in H1 as [_ H1]. apply andb_prop in H2 as [_ H2].
    destruct (IH d2 H1 H2 S1 S2 H) as [-> ->]. auto.
Qed.

Lemma string_of_uint_digits d :
  all_digits (NilEmpty.string_of_uint d) = true.
Proof. induction d; simpl; auto. Qed.

Lemma nilzero_digits d :
  all_digits (NilZero.string_of_uint d) = true
  /\ NilZero.string_of_uint d <> EmptyString.
Proof.
  destruct d; simpl; (split; [try apply string_of_uint_digits|discriminate]).
  reflexivity.
Qed.

(** [str(z)] is a sign, if [z] is negative, and then digits. *)
Lemma of_Z_shape z :
  exists ds,
    all_digits ds = true /\ ds <> EmptyString
    /\ PyStr.of_Z z = if z <? 0 then String "-" ds else ds.
Proof.
  unfold PyStr.of_Z. destruct z as [|p|p]; simpl.
  - exists "0". repeat split. discriminate.
  - exists (NilZero.string_of_uint (Pos.to_uint p)).
    destruct (nilzero_digits (Pos.to_uint p)). auto.
  - exists (NilZero.string_of_uint (Pos.to_uint p)).
    destruct (nilzero_digits (Pos.to_uint p)). auto.
Qed.

Lemma of_Z_inj a b : PyStr.of_Z a = PyStr.of_Z b -> a = b.
Proof.
  unfold PyStr.of_Z. intros H.
  assert (Hv : forall z, Z.to_int z <> Decimal.Pos Decimal.Nil
                         /\ Z.to_int z <> Decimal.Neg Decimal.Nil).
  { intros [|p|p]; simpl; split; try discriminate;
      intros E; injection E as E; exact (DecimalPos.Unsigned.to_uint_nonnil _ E). }
  apply (f_equal NilZero.int_of_string) in H.
  rewrite !NilZero.isi in H by apply Hv.
  injection H as H. apply DecimalZ.to_int_inj. exact H.
Qed.

End Strings.

(** ** Joined port lists *)

Lemma join_cons sep x r :
  PyStr.join sep (x :: r)
  = x +:+ match r with [] => EmptyString | _ => sep +:+ PyStr.join sep r end.
Proof. destruct r; simpl; [rewrite append_nil_r|]; reflexivity. Qed.

(** A number followed by nothing or by a dash-led rest is read back in one
    way only. *)
Lemma number_prefix_unique a b r1 r2 :
  stops r1 = true -> stops r2 = true ->
  PyStr.of_Z a +:+ r1 = PyStr.of_Z b +:+ r2 -> a = b /\ r1 = r2.
Proof.
  intros S1 S2 H.
  assert (Hs : PyStr.of_Z a = PyStr.of_Z b /\ r1 = r2).
  { destruct (of_Z_shape a) as (da & Da & Na & Ea).
    destruct (of_Z_shape b) as (db & Db & Nb & Eb).
    rewrite Ea, Eb in *.
    destruct (a <? 0), (b <? 0); rewrite ?append_cons in H.
    - injection H as H.
      destruct (digits_split _ _ _ _ Da Db S1 S2 H) as [-> ->]. auto.
    - destruct db as [|c db]; [contradiction|].
      rewrite append_cons in H. injection H as <- _.
      simpl in Db. discriminate.
    - destruct da as [|c da]; [contradiction|].
      rewrite append_cons in H. injection H as -> _.
      simpl in Da. discriminate.
    - destruct (digits_split _ _ _ _ Da Db S1 S2 H) as [-> ->]. auto. }
  destruct Hs as [Hs ->]. split; [apply of_Z_inj; exact Hs | reflexivity].
Qed.

Lemma of_Z_nonempty z : PyStr.of_Z z <> EmptyString.
Proof.
  destruct (of_Z_shape z) as (ds & _ & N & ->).
  destruct (z <? 0); [discriminate | exact N].
Qed.

(** ['-'.join(map(str, l))] determines [l]. *)
Lemma join_numbers_inj l1 l2 :
  PyStr.join "-" (map PyStr.of_Z l1) = PyStr.join "-" (map PyStr.of_Z l2) ->
  l1 = l2.
Proof.
  revert l2. induction l1 as [|a l1 IH]; intros [|b l2] H.
  - reflexivity.
  - exfalso. cbn [map] in H. rewrite join_cons in H.
    destruct (PyStr.of_Z b) eqn:E; [exact (of_Z_nonempty b E)|].
    rewrite append_cons in H. discriminate.
  - exfalso. cbn [map] in H. rewrite join_cons in H.
    destruct (PyStr.of_Z a) eqn:E; [exact (of_Z_nonempty a E)|].
    rewrite append_cons in H. discriminate.
  - cbn [map] in H. rewrite !join_cons in H.
    apply number_prefix_unique in H as [-> H].
    + f_equal. destruct l1 as [|a1 l1], l2 as [|b1 l2];
        cbn [map] in H; try discriminate; [reflexivity|].
      apply IH. cbn [map]. exact (append_inv_head "-" _ _ H).
    + destruct (map PyStr.of_Z l1); reflexivity.
    + destruct (map PyStr.of_Z l2); reflexivity.
Qed.

(** ** Sorting keeps the ports *)

Lemma sum_ints_insert x l :
  sum_ints (insert_sorted Z.leb x l) = x + sum_ints l.
Proof.
  induction l as [|y l IH]; simpl; [reflexivity|].
  destruct (x <=? y); simpl; [reflexivity|]. rewrite IH. lia.
Qed.

Lemma sum_ints_sorted l : sum_ints (sorted_ints l) = sum_ints l.
Proof.
  unfold sorted_ints, sorted. induction l as [|x l IH]; simpl; [reflexivity|].
  rewrite sum_ints_insert. f_equal. exact IH.
Qed.

Lemma sum_ints_app l r : sum_ints (l ++ r) = sum_ints l + sum_ints r.
Proof. induction l as [|x l IH]; simpl; [reflexivity|]. rewrite IH. lia. Qed.

Lemma differ_in_one_port_sorted l1 l2 :
  differ_in_one_port l1 l2 -> sorted_ints l1 <> sorted_ints l2.
Proof.
  intros (before & a & b & after & Hab & -> & ->) H.
  apply (f_equal sum_ints) in H. rewrite !sum_ints_sorted, !sum_ints_app in H.
  simpl in H. lia.
Qed.

Lemma differ_in_one_port_length l1 l2 :
  differ_in_one_port l1 l2 -> List.length l1 = List.length l2 /\ l1 <> [] /\ l2 <> [].
Proof.
  intros (before & a & b & after & Hab & -> & ->).
  rewrite !length_app. simpl. repeat split; destruct before; discriminate.
Qed.

(** ** What one port list adds to the name *)

Lemma ports_descriptor_some tag ports :
  ports <> [] ->
  NetworkOutageScenarios.ports_descriptor tag (Some ports)
  = if (20 <? List.length ports)%nat
    then "_" +:+ tag +:+ "_range_" +:+ PyStr.of_nat (List.length ports)
             +:+ "ports_" +:+ ports_digest ports
    else "_" +:+ tag +:+ "_"
             +:+ PyStr.join "-" (map PyStr.of_Z (sorted_ints ports)).
Proof. destruct ports; [contradiction | reflexivity]. Qed.

Lemma ports_descriptor_one_port tag l1 l2 :
  differ_in_one_port l1 l2 ->
  ((List.length l1 <= 20)%nat ->
   NetworkOutageScenarios.ports_descriptor tag (Some l1)
   <> NetworkOutageScenarios.ports_descriptor tag (Some l2))
  /\ ((20 < List.length l1)%nat ->
      NetworkOutageScenarios.ports_descriptor tag (Some l1)
      = NetworkOutageScenarios.ports_descriptor tag (Some l2)
      <-> ports_digest l1 = ports_digest l2).
Proof.
  intros Hd. destruct (differ_in_one_port_length _ _ Hd) as (Hlen & N1 & N2).
  rewrite !ports_descriptor_some by assumption. rewrite <- Hlen.
  split; intros Hn.
  - replace (20 <? List.length l1)%nat with false
      by (symmetry; apply Nat.ltb_ge; exact Hn).
    intros H. apply (differ_in_one_port_sorted _ _ Hd).
    apply join_numbers_inj.
    repeat (apply append_inv_head in H). exact H.
  - replace (20 <? List.length l1)%nat with true
      by (symmetry; apply Nat.ltb_lt; exact Hn).
    split; intros H.
    + repeat (apply append_inv_head in H). exact H.
    + rewrite H. reflexivity.
Qed.

(** ** File names of [pod_network_outage] *)

Lemma outage_filename_readable kw :
  keeps_readable_name kw ->
  NetworkOutageScenarios.pod_network_outage_filename kw
  = NetworkOutageScenarios.readable_base_filename kw +:+ ".yaml".
Proof.
  unfold keeps_readable_name, NetworkOutageScenarios.pod_network_outage_filename,
    NetworkOutageScenarios.base_filename.
  intros H. apply Nat.ltb_ge in H. rewrite H. reflexivity.
Qed.

Lemma outage_filename_hashed kw :
  (200 < String.length (NetworkOutageScenarios.readable_base_filename kw))%nat ->
  NetworkOutageScenarios.pod_network_outage_filename kw
  = "pod_network_outage_" +:+ NetworkOutageScenarios.direction_str kw +:+ "_"
      +:+ MD5.hexdigest_prefix 12
            (Json.dumps_sorted (NetworkOutageScenarios.config_for_hash kw))
      +:+ ".yaml".
Proof.
  unfold NetworkOutageScenarios.pod_network_outage_filename,
    NetworkOutageScenarios.base_filename.
  intros H. apply Nat.ltb_lt in H. rewrite H. rewrite !append_assoc.
  reflexivity.
Qed.

(** The name depends on the directions, the port lists, the instance count
    and the two durations, and on nothing else. *)
Lemma outage_filename_same_parameters kw1 kw2 :
  NetworkOutageScenarios.outage_kw.direction kw1
  = NetworkOutageScenarios.outage_kw.direction kw2 ->
  NetworkOutageScenarios.outage_kw.ingress_ports kw1
  = NetworkOutageScenarios.outage_kw.ingress_ports kw2 ->
  NetworkOutageScenarios.outage_kw.egress_ports kw1
  = NetworkOutageScenarios.outage_kw.egress_ports kw2 ->
  NetworkOutageScenarios.outage_kw.instance_count kw1
  = NetworkOutageScenarios.outage_kw.instance_count kw2 ->
  NetworkOutageScenarios.outage_kw.wait_duration kw1
  = NetworkOutageScenarios.outage_kw.wait_duration kw2 ->
  NetworkOutageScenarios.outage_kw.test_duration kw1
  = NetworkOutageScenarios.outage_kw.test_duration kw2 ->
  NetworkOutageScenarios.pod_network_outage_filename kw1
  = NetworkOutageScenarios.pod_network_outage_filename kw2.
Proof.
  intros Hd Hi He Hc Hw Ht.
  unfold NetworkOutageScenarios.pod_network_outage_filename,
    NetworkOutageScenarios.base_filename,
    NetworkOutageScenarios.readable_base_filename,
    NetworkOutageScenarios.config_for_hash,
    NetworkOutageScenarios.direction_str, NetworkOutageScenarios.ports_str.
  rewrite Hd, Hi, He, Hc, Hw, Ht. reflexivity.
Qed.

Lemma outage_filename_ingress kw1 kw2 :
  NetworkOutageScenarios.outage_kw.direction kw1
  = NetworkOutageScenarios.outage_kw.direction kw2 ->
  NetworkOutageScenarios.outage_kw.egress_ports kw1
  = NetworkOutageScenarios.outage_kw.egress_ports kw2 ->
  keeps_readable_name kw1 -> keeps_readable_name kw2 ->
  NetworkOutageScenarios.pod_network_outage_filename kw1
  = NetworkOutageScenarios.pod_network_outage_filename kw2
  <-> NetworkOutageScenarios.ports_descriptor "ingress"
        (NetworkOutageScenarios.outage_kw.ingress_ports kw1)
      = NetworkOutageScenarios.ports_descriptor "ingress"
          (NetworkOutageScenarios.outage_kw.ingress_ports kw2).
Proof.
  intros Hd He K1 K2. rewrite !outage_filename_readable by assumption.
  unfold NetworkOutageScenarios.readable_base_filename,
    NetworkOutageScenarios.direction_str, NetworkOutageScenarios.ports_str.
  rewrite Hd, He. split; intros H.
  - apply append_inv_tail in H. do 2 apply append_inv_head in H.
    apply append_inv_tail in H. exact H.
  - rewrite H. reflexivity.
Qed.

Lemma outage_filename_egress kw1 kw2 :
  NetworkOutageScenarios.outage_kw.direction kw1
  = NetworkOutageScenarios.outage_kw.direction kw2 ->
  NetworkOutageScenarios.outage_kw.ingress_ports kw1
  = NetworkOutageScenarios.outage_kw.ingress_ports kw2 ->
  keeps_readable_name kw1 -> keeps_readable_name kw2 ->
  NetworkOutageScenarios.pod_network_outage_filename kw1
  = NetworkOutageScenarios.pod_network_outage_filename kw2
  <-> NetworkOutageScenarios.ports_descriptor "egress"
        (NetworkOutageScenarios.outage_kw.egress_ports kw1)
      = NetworkOutageScenarios.ports_descriptor "egress"
          (NetworkOutageScenarios.outage_kw.egress_ports kw2).
Proof.
  intros Hd Hi K1 K2. rewrite !outage_filename_readable by assumption.
  unfold NetworkOutageScenarios.readable_base_filename,
    NetworkOutageScenarios.direction_str, NetworkOutageScenarios.ports_str.
  rewrite Hd, Hi. split; intros H.
  - apply append_inv_tail in H. do 3 apply append_inv_head in H. exact H.
  - rewrite H. reflexivity.
Qed.

(** C4, as the code has it.  Calls with the same directions, port lists,
    instance count and durations get the same file name.  For two calls
    with the same directions that differ in exactly one port of one list,
    and whose readable names have at most 200 characters: when the list has
    at most 20 ports the names differ; when it has more, the names carry
    the eight-character digest of the sorted list and differ exactly when
    the two digests differ. *)
Theorem outage_filename_determinism
    (kw1 kw2 : NetworkOutageScenarios.outage_kw.t) :
  NetworkOutageScenarios.outage_kw.direction kw1
  = NetworkOutageScenarios.outage_kw.direction kw2 ->
  (NetworkOutageScenarios.outage_kw.ingress_ports kw1
   = NetworkOutageScenarios.outage_kw.ingress_ports kw2 ->
   NetworkOutageScenarios.outage_kw.egress_ports kw1
   = NetworkOutageScenarios.outage_kw.egress_ports kw2 ->
   NetworkOutageScenarios.outage_kw.instance_count kw1
   = NetworkOutageScenarios.outage_kw.instance_count kw2 ->
   NetworkOutageScenarios.outage_kw.wait_duration kw1
   = NetworkOutageScenarios.outage_kw.wait_duration kw2 ->
   NetworkOutageScenarios.outage_kw.test_duration kw1
   = NetworkOutageScenarios.outage_kw.test_duration kw2 ->
   NetworkOutageScenarios.pod_network_outage_filename kw1
   = NetworkOutageScenarios.pod_network_outage_filename kw2)
  /\ (forall l1 l2,
        NetworkOutageScenarios.outage_kw.ingress_ports kw1 = Some l1 ->
        NetworkOutageScenarios.outage_kw.ingress_ports kw2 = Some l2 ->
        NetworkOutageScenarios.outage_kw.egress_ports kw1
        = NetworkOutageScenarios.outage_kw.egress_ports kw2 ->
        differ_in_one_port l1 l2 ->
        keeps_readable_name kw1 -> keeps_readable_name kw2 ->
        ((List.length l1 <= 20)%nat ->
         NetworkOutageScenarios.pod_network_outage_filename kw1
         <> NetworkOutageScenarios.pod_network_outage_filename kw2)
        /\ ((20 < List.length l1)%nat ->
            NetworkOutageScenarios.pod_network_outage_filename kw1
            = NetworkOutageScenarios.pod_network_outage_filename kw2
            <-> ports_digest l1 = ports_digest l2))
  /\ (forall l1 l2,
        NetworkOutageScenarios.outage_kw.egress_ports kw1 = Some l1 ->
        NetworkOutageScenarios.outage_kw.egress_ports kw2 = Some l2 ->
        NetworkOutageScenarios.outage_kw.ingress_ports kw1
        = NetworkOutageScenarios.outage_kw.ingress_ports kw2 ->
        differ_in_one_port l1 l2 ->
        keeps_readable_name kw1 -> keeps_readable_name kw2 ->
        ((List.length l1 <= 20)%nat ->
         NetworkOutageScenarios.pod_network_outage_filename kw1
         <> NetworkOutageScenarios.pod_network_outage_filename kw2)
        /\ ((20 < List.length l1)%nat ->
            NetworkOutageScenarios.pod_network_outage_filename kw1
            = NetworkOutageScenarios.pod_network_outage_filename kw2
            <-> ports_digest l1 = ports_digest l2)).
Proof.
  intros Hd. split; [|split].
  - apply outage_filename_same_parameters; exact Hd.
  - intros l1 l2 H1 H2 He Hp K1 K2.
    rewrite (outage_filename_ingress kw1 kw2 Hd He K1 K2), H1, H2.
    apply ports_descriptor_one_port; exact Hp.
  - intros l1 l2 H1 H2 Hi Hp K1 K2.
    rewrite (outage_filename_egress kw1 kw2 Hd Hi K1 K2), H1, H2.
    apply ports_descriptor_one_port; exact Hp.
Qed.

Lemma outage_filename_determinism_witness :
  NetworkOutageScenarios.pod_network_outage_filename
    (outage_call (Some [80; 443]) None None None None)
  <> NetworkOutageScenarios.pod_network_outage_filename
       (outage_call (Some [80; 8443]) None None None None).
Proof.
  refine (proj1 (proj1 (proj2 (outage_filename_determinism
            (outage_call (Some [80; 443]) None None None None)
            (outage_call (Some [80; 8443]) None None None None) eq_refl))
          [80; 443] [80; 8443] eq_refl eq_refl eq_refl _ _ _) _).
  - exists [80], 443, 8443, []. repeat split. discriminate.
  - apply Nat.leb_le. reflexivity.
  - apply Nat.leb_le. reflexivity.
  - simpl. lia.
Defined.

(** C4, as stated, fails over the 20-port threshold: two calls whose 21
    ingress ports differ in one port only (36117 against 46813) have the
    same eight-character digest and so the same file name. *)
Lemma outage_filename_counterexample :
  let ports1 := (twenty_ports 8000 ++ [36117])%list in
  let ports2 := (twenty_ports 8000 ++ [46813])%list in
  differ_in_one_port ports1 ports2
  /\ List.length ports1 = 21%nat
  /\ NetworkOutageScenarios.pod_network_outage_filename
       (outage_call (Some ports1) None None None None)
     = "pod_network_outage_egress_ingress_ingress_range_21ports_d658dedb.yaml"
  /\ NetworkOutageScenarios.pod_network_outage_filename
       (outage_call (Some ports2) None None None None)
     = "pod_network_outage_egress_ingress_ingress_range_21ports_d658dedb.yaml".
Proof.
  cbv zeta. split; [|split; [reflexivity|split; vm_compute; reflexivity]].
  exists (twenty_ports 8000), 36117, 46813, []. repeat split. discriminate.
Qed.

(** ** The digest has 32 characters *)

Lemma length_le_bytes k n : List.length (MD5.le_bytes k n) = k.
Proof.
  revert n. induction k as [|k IH]; intros n; simpl; [|rewrite IH]; reflexivity.
Qed.

Lemma length_digest msg : List.length (MD5.digest msg) = 16%nat.
Proof.
  unfold MD5.digest.
  destruct (fold_left MD5.process_block _ MD5.init) as [[[a b] c] d].
  rewrite !length_app, !length_le_bytes. reflexivity.
Qed.

Lemma length_concat_hex l :
  String.length (String.concat EmptyString (map MD5.hex_byte l))
  = (2 * List.length l)%nat.
Proof.
  induction l as [|x l IH]; [reflexivity|].
  destruct l as [|y l]; [reflexivity|].
  change (String.length
            (MD5.hex_byte x +:+ EmptyString
               +:+ String.concat EmptyString (map MD5.hex_byte (y :: l)))
          = (2 * S (List.length (y :: l)))%nat).
  rewrite !length_append, IH. simpl. lia.
Qed.

Lemma length_hexdigest s : String.length (MD5.hexdigest s) = 32%nat.
Proof.
  unfold MD5.hexdigest. rewrite length_concat_hex, length_digest. reflexivity.
Qed.

Lemma length_substring_0 m s :
  (m <= String.length s)%nat -> String.length (String.substring 0 m s) = m.
Proof.
  revert s. induction m as [|m IH]; intros [|c s] H; simpl in *;
    try reflexivity; try lia.
  rewrite IH by lia. reflexivity.
Qed.

Lemma length_hexdigest_prefix n s :
  (n <= 32)%nat -> String.length (MD5.hexdigest_prefix n s) = n.
Proof.
  intros H. unfold MD5.hexdigest_prefix. apply length_substring_0.
  rewrite length_hexdigest. exact H.
Qed.

(** ** The name of a configuration too long to spell out *)

Lemma outage_path env scenario_dir namespace kw fs path fs' :
  NetworkOutageScenarios.pod_network_outage env scenario_dir namespace kw fs
  = (Ok path, fs') ->
  path = os_path.join scenario_dir
           (NetworkOutageScenarios.pod_network_outage_filename kw).
Proof.
  unfold NetworkOutageScenarios.pod_network_outage,
    NetworkOutageScenarios._create_network_scenario,
    TemplateWriter.write_to_file, TemplateWriter.init, bind, lift, ret,
    makedirs, write_text.
  destruct (NetworkOutageScenarios.pod_network_outage_config namespace kw);
    [|discriminate].
  destruct (files fs !! _); [|discriminate].
  destruct (String.eqb _ EmptyString); [discriminate|].
  intros H. injection H as <- _. reflexivity.
Qed.

(** C3, as the code has it.  When the readable base name has more than 200
    characters, the file name is ["pod_network_outage_"], the direction
    tags, an underscore, the first 12 hexadecimal digits of the MD5 of the
    JSON text (keys sorted) of the six parameters [direction],
    [ingress_ports], [egress_ports], [instance_count], [wait_duration] and
    [test_duration], and [".yaml"].  The name is a function of these six
    parameters: calls that agree on them get the same name, whatever the
    namespace and the pod selector are, and the file is written under that
    name. *)
Theorem outage_long_name_is_config_hash
    (kw : NetworkOutageScenarios.outage_kw.t) :
  (200 < String.length (NetworkOutageScenarios.readable_base_filename kw))%nat ->
  let config_hash :=
    MD5.hexdigest_prefix 12
      (Json.dumps_sorted (NetworkOutageScenarios.config_for_hash kw)) in
  NetworkOutageScenarios.pod_network_outage_filename kw
  = "pod_network_outage_" +:+ NetworkOutageScenarios.direction_str kw +:+ "_"
      +:+ config_hash +:+ ".yaml"
  /\ String.length config_hash = 12%nat
  /\ dict_keys
       (match NetworkOutageScenarios.config_for_hash kw with
        | VDict d => d
        | _ => []
        end)
     = [ "direction"; "ingress_ports"; "egress_ports"; "instance_count";
         "wait_duration"; "test_duration" ]
  /\ (forall kw',
        NetworkOutageScenarios.outage_kw.direction kw'
        = NetworkOutageScenarios.outage_kw.direction kw ->
        NetworkOutageScenarios.outage_kw.ingress_ports kw'
        = NetworkOutageScenarios.outage_kw.ingress_ports kw ->
        NetworkOutageScenarios.outage_kw.egress_ports kw'
        = NetworkOutageScenarios.outage_kw.egress_ports kw ->
        NetworkOutageScenarios.outage_kw.instance_count kw'
        = NetworkOutageScenarios.outage_kw.instance_count kw ->
        NetworkOutageScenarios.outage_kw.wait_duration kw'
        = NetworkOutageScenarios.outage_kw.wait_duration kw ->
        NetworkOutageScenarios.outage_kw.test_duration kw'
        = NetworkOutageScenarios.outage_kw.test_duration kw ->
        NetworkOutageScenarios.pod_network_outage_filename kw'
        = NetworkOutageScenarios.pod_network_outage_filename kw)
  /\ (forall env scenario_dir namespace pod_name label_selector fs path fs',
        NetworkOutageScenarios.pod_network_outage env scenario_dir namespace
          (outage_with_selectors pod_name label_selector kw) fs
        = (Ok path, fs') ->
        path = os_path.join scenario_dir
                 (NetworkOutageScenarios.pod_network_outage_filename kw)).
Proof.
  intros Hlong. cbv zeta. split; [|split; [|split; [|split]]].
  - apply outage_filename_hashed. exact Hlong.
  - apply length_hexdigest_prefix. lia.
  - reflexivity.
  - intros kw'. apply outage_filename_same_parameters.
  - intros env scenario_dir namespace pod_name label_selector fs path fs' H.
    apply outage_path in H. rewrite H. reflexivity.
Qed.

Lemma outage_long_name_is_config_hash_witness :
  NetworkOutageScenarios.pod_network_outage_filename
    (outage_call (Some (twenty_ports 10000)) (Some (twenty_ports 20000))
       None None None)
  = "pod_network_outage_egress_ingress_69eb03a5205e.yaml".
Proof.
  refine (eq_trans
            (proj1 (outage_long_name_is_config_hash
                      (outage_call (Some (twenty_ports 10000))
                         (Some (twenty_ports 20000)) None None None) _)) _).
  - apply Nat.ltb_lt. vm_compute. reflexivity.
  - vm_compute. reflexivity.
Defined.

(** C3, as stated, fails: two calls whose configurations differ in the
    instance count and in both durations, each with a readable name of
    more than 200 characters, get the same 12-character hash and so the
    same file name. *)
Lemma outage_config_hash_counterexample :
  let call1 :=
    outage_call (Some (twenty_ports 10000)) (Some (twenty_ports 20000))
      (Some (VInt 127)) (Some (VInt 240)) (Some (VInt 158)) in
  let call2 :=
    outage_call (Some (twenty_ports 10000)) (Some (twenty_ports 20000))
      (Some (VInt 167)) (Some (VInt 248)) (Some (VInt 205)) in
  String.length (NetworkOutageScenarios.readable_base_filename call1) = 288%nat
  /\ String.length (NetworkOutageScenarios.readable_base_filename call2)
     = 288%nat
  /\ NetworkOutageScenarios.config_for_hash call1
     <> NetworkOutageScenarios.config_for_hash call2
  /\ NetworkOutageScenarios.pod_network_outage_config (VStr "openshift-storage")
       call1
     <> NetworkOutageScenarios.pod_network_outage_config
          (VStr "openshift-storage") call2
  /\ NetworkOutageScenarios.pod_network_outage_filename call1
     = "pod_network_outage_egress_ingress_8065c8e74f68.yaml"
  /\ NetworkOutageScenarios.pod_network_outage_filename call2
     = "pod_network_outage_egress_ingress_8065c8e74f68.yaml".
Proof.
  cbv zeta. repeat split; try (vm_compute; reflexivity).
  - intros H. vm_compute in H. discriminate.
  - intros H. vm_compute in H. discriminate.
Qed.

(** ** A call that writes *)

(** [cpu_hog] run on a file system that has its template: the path
    returned is the file written, the file holds the rendering of the
    assembled configuration, and its directory exists afterwards. *)
Example cpu_hog_end_to_end :
  let out :=
    HogScenarios.cpu_hog example_env "/tmp/x" cpu_hog_call templates_fs in
  fst out = Ok "/tmp/x/cpu_hog.yaml"
  /\ files templates_fs !! "/tmp/x/cpu_hog.yaml" = None
  /\ files (snd out) !! "/tmp/x/cpu_hog.yaml"
     = Some ("# cpu hog: "
             +:+ Json.dumps (VDict (HogScenarios.cpu_hog_data cpu_hog_call)))
  /\ bool_decide ("/tmp/x" ∈ dirs (snd out)) = true
  /\ dict_get "duration" (HogScenarios.cpu_hog_data cpu_hog_call)
     = Some (VInt 120)
  /\ dict_get "node_name" (HogScenarios.cpu_hog_data cpu_hog_call)
     = Some (VStr "worker-1").
Proof.
  cbv zeta. repeat split; vm_compute; reflexivity.
Qed.

(** * More of the generator *)

(** ** Every builder is a configuration followed by a rendering *)

Lemma run_builder_plan env scenario_dir call :
  run_builder env scenario_dir call
  = (config <- lift (config_of call) ;;
     render_to env (template_of env call) config
       (os_path.join scenario_dir (filename_of call))).
Proof. destruct call; reflexivity. Qed.

(** The three ways a rendering ends. *)
Lemma render_to_missing env template_path config output_path fs :
  files fs !! template_file template_path = None ->
  render_to env template_path config output_path fs
  = (Raise (TemplateNotFound (os_path.basename template_path)), fs).
Proof.
  intros H. unfold render_to, bind, TemplateWriter.init.
  change (files fs !! template_file template_path = None) in H.
  unfold template_file in H. rewrite H. reflexivity.
Qed.

Lemma render_to_no_directory env template_path config output_path fs text :
  files fs !! template_file template_path = Some text ->
  os_path.dirname output_path = EmptyString ->
  render_to env template_path config output_path fs
  = (Raise (FileNotFoundError EmptyString), fs).
Proof.
  intros H Hd. unfold render_to, bind, TemplateWriter.init.
  unfold template_file in H. rewrite H.
  unfold TemplateWriter.write_to_file, bind, makedirs. rewrite Hd.
  reflexivity.
Qed.

Lemma render_to_written env template_path config output_path fs text :
  files fs !! template_file template_path = Some text ->
  os_path.dirname output_path <> EmptyString ->
  render_to env template_path config output_path fs
  = (Ok output_path,
     {| files := <[output_path := jinja_render env text config]> (files fs);
        dirs := list_to_set
                  (ancestors (S (String.length (os_path.dirname output_path)))
                     (os_path.dirname output_path))
                ∪ dirs fs |}).
Proof.
  intros H Hd. unfold render_to, bind, TemplateWriter.init.
  unfold template_file in H. rewrite H.
  unfold TemplateWriter.write_to_file, bind, makedirs, write_text, ret.
  destruct (String.eqb_spec (os_path.dirname output_path) EmptyString);
    [contradiction|reflexivity].
Qed.

Lemma bind_lift_ok {A : Type} (c : pydict) (k : pydict -> io A) fs :
  (x <- lift (Ok c) ;; k x) fs = k c fs.
Proof. reflexivity. Qed.

Lemma bind_lift_raise {A : Type} e (k : pydict -> io A) fs :
  (x <- lift (Raise e) ;; k x) fs = (Raise e, fs).
Proof. reflexivity. Qed.

Lemma run_builder_outcome env scenario_dir call fs :
  outcome_of env scenario_dir call fs
    (fst (run_builder env scenario_dir call fs))
    (snd (run_builder env scenario_dir call fs)).
Proof.
  rewrite run_builder_plan.
  destruct (config_of call) as [config|e] eqn:Hc;
    [rewrite bind_lift_ok | rewrite bind_lift_raise].
  - destruct (files fs !! template_file (template_of env call)) as [text|] eqn:Ht.
    + destruct (String.eqb_spec
                  (os_path.dirname (os_path.join scenario_dir (filename_of call)))
                  EmptyString) as [Hd|Hd].
      * rewrite (render_to_no_directory _ _ _ _ _ _ Ht Hd).
        eapply outcome_no_directory; eassumption.
      * rewrite (render_to_written _ _ _ _ _ _ Ht Hd).
        eapply outcome_written; eassumption.
    + rewrite (render_to_missing _ _ _ _ _ Ht).
      eapply outcome_template_missing; eassumption.
  - apply outcome_config_error. exact Hc.
Qed.

(** ** All or nothing *)

Lemma run_builder_pair env scenario_dir call fs :
  run_builder env scenario_dir call fs
  = (fst (run_builder env scenario_dir call fs),
     snd (run_builder env scenario_dir call fs)).
Proof. apply surjective_pairing. Qed.

(** The outcome of a call that is known to have ended in [r] and [fs']. *)
Lemma run_builder_outcome_of env scenario_dir call fs r fs' :
  run_builder env scenario_dir call fs = (r, fs') ->
  outcome_of env scenario_dir call fs r fs'.
Proof.
  intros H. pose proof (run_builder_outcome env scenario_dir call fs) as Ho.
  rewrite H in Ho. exact Ho.
Qed.



(** ** What a successful call leaves behind *)

Lemma ancestors_head fuel d :
  d <> EmptyString -> In d (ancestors (S fuel) d).
Proof.
  intros Hd. simpl.
  destruct (String.eqb_spec d EmptyString); [contradiction|]. left. reflexivity.
Qed.

(** X2.  A builder that returns has written exactly one file: the path it
    returns is [scenario_dir] joined with the file name of the call, the
    file holds what the engine renders from the template text and the
    assembled configuration, every other file is as it was, no directory
    is lost, and the directory of the file exists. *)
Theorem successful_builder_writes_one_file (env : environment)
    (scenario_dir : string) (call : builder_call) (fs fs' : filesystem)
    (path : string) :
  run_builder env scenario_dir call fs = (Ok path, fs') ->
  path = os_path.join scenario_dir (filename_of call)
  /\ (exists text config,
        config_of call = Ok config
        /\ files fs !! template_file (template_of env call) = Some text
        /\ files fs' !! path = Some (jinja_render env text config))
  /\ (forall other, other <> path -> files fs' !! other = files fs !! other)
  /\ dirs fs ⊆ dirs fs'
  /\ os_path.dirname path ∈ dirs fs'.
Proof.
  intros H. apply run_builder_outcome_of in H.
  inversion H as [ | | | config text Hc Ht Hd path' Hp Hfs]; subst.
  split; [reflexivity|]. split; [|split; [|split]].
  - exists text, config. cbn [files]. rewrite lookup_insert_eq. auto.
  - intros other Hne. cbn [files]. apply lookup_insert_ne. congruence.
  - cbn [dirs]. set_solver.
  - cbn [dirs]. apply elem_of_union_l, elem_of_list_to_set, list_elem_of_In.
    apply ancestors_head. exact Hd.
Qed.

Lemma successful_builder_writes_one_file_witness :
  files (snd (run_builder example_env "/tmp/x" (call_cpu_hog cpu_hog_call)
                templates_fs))
    !! "/templates/kube/cpu-hog.yml.j2"
  = Some "# cpu hog: ".
Proof.
  destruct (successful_builder_writes_one_file example_env "/tmp/x"
              (call_cpu_hog cpu_hog_call) templates_fs
              (snd (run_builder example_env "/tmp/x" (call_cpu_hog cpu_hog_call)
                      templates_fs))
              "/tmp/x/cpu_hog.yaml")
    as (_ & _ & Hother & _).
  - rewrite run_builder_pair at 1. f_equal; vm_compute; reflexivity.
  - rewrite Hother by discriminate. vm_compute. reflexivity.
Defined.

(** ** The order of the checks *)

Lemma config_error_is_value_error call e :
  config_of call = Raise e -> exists msg, e = ValueError msg.
Proof.
  destruct call; cbn [config_of]; try discriminate.
  - unfold NetworkOutageScenarios.pod_egress_shaping_config,
      NetworkOutageScenarios.shaping_config, _get_pod_selector_config.
    destruct (negb _ && negb _); cbn [rbind]; intros H; inversion H; eauto.
  - unfold NetworkOutageScenarios.pod_network_outage_config,
      _get_pod_selector_config.
    destruct (negb _ && negb _); cbn [rbind]; intros H; inversion H; eauto.
  - unfold NetworkOutageScenarios.pod_ingress_shaping_config,
      NetworkOutageScenarios.shaping_config, _get_pod_selector_config.
    destruct (negb _ && negb _); cbn [rbind]; intros H; inversion H; eauto.
  - unfold ContainerScenarios.container_kill_config, _get_pod_selector_config.
    destruct (ContainerScenarios.kill_kw.scenarios kw); [discriminate|].
    destruct (negb (truthy (ContainerScenarios.kill_kw.namespace kw)));
      [intros H; inversion H; eauto|].
    destruct (negb _ && negb _); cbn [rbind]; intros H; inversion H; eauto.
  - unfold ContainerScenarios.container_pause_config.
    destruct (negb _ && negb _); intros H; inversion H; eauto.
Qed.

(** X3.  [TemplateNotFound] is raised exactly when the configuration was
    assembled and the template file is not there; it names the file, not
    its directory.  A call without its selector raises [ValueError] even
    where the template is missing too. *)
Theorem template_not_found_iff (env : environment) (scenario_dir : string)
    (call : builder_call) (fs fs' : filesystem) (name : string) :
  run_builder env scenario_dir call fs = (Raise (TemplateNotFound name), fs')
  <-> (exists config, config_of call = Ok config)
      /\ files fs !! template_file (template_of env call) = None
      /\ name = os_path.basename (template_of env call)
      /\ fs' = fs.
Proof.
  split.
  - intros H. apply run_builder_outcome_of in H.
    inversion H as [e Hc | config Hc Ht | | ]; subst.
    + destruct (config_error_is_value_error _ _ Hc) as [msg Hm]. discriminate.
    + eauto.
  - intros ([config Hc] & Ht & -> & ->).
    rewrite run_builder_plan, Hc, bind_lift_ok.
    apply render_to_missing. exact Ht.
Qed.

Lemma template_not_found_iff_witness :
  run_builder example_env "/tmp/x"
    (call_regex_openshift_pod_kill PodScenarios.kw.omitted) templates_fs
  = (Raise (TemplateNotFound "regex_openshift_pod_kill.yml.j2"), templates_fs).
Proof.
  apply (proj2 (template_not_found_iff example_env "/tmp/x"
                  (call_regex_openshift_pod_kill PodScenarios.kw.omitted)
                  templates_fs templates_fs "regex_openshift_pod_kill.yml.j2")).
  split; [eexists; reflexivity|].
  split; [vm_compute; reflexivity|]. split; reflexivity.
Defined.

(** ** Where the file goes *)









(** ** Calls that write the same file *)

Lemma run_builder_ok_inv env scenario_dir call fs path fs' :
  run_builder env scenario_dir call fs = (Ok path, fs') ->
  exists config text,
    config_of call = Ok config
    /\ files fs !! template_file (template_of env call) = Some text
    /\ os_path.dirname (os_path.join scenario_dir (filename_of call))
       <> EmptyString
    /\ path = os_path.join scenario_dir (filename_of call)
    /\ fs' = {| files := <[path := jinja_render env text config]> (files fs);
               dirs := list_to_set
                         (ancestors (S (String.length (os_path.dirname path)))
                            (os_path.dirname path))
                       ∪ dirs fs |}.
Proof.
  intros H. apply run_builder_outcome_of in H.
  inversion H as [ | | | config text Hc Ht Hd p Hp Hfs].
  exists config, text. repeat split; assumption || reflexivity.
Qed.

(** X5.  Of two successful calls into the same directory that write under
    the same name, the first leaves no trace: the files and directories
    after both are those the second call alone would have left.  So a call
    made twice is a call made once, and a unified and a single-scenario
    [container_kill] overwrite one another.  (The second call must not find
    its template in the file the first one wrote.) *)
Theorem same_name_last_writer_wins (env : environment) (scenario_dir : string)
    (call1 call2 : builder_call) (fs fs1 fs2 : filesystem)
    (path1 path2 : string) :
  filename_of call1 = filename_of call2 ->
  run_builder env scenario_dir call1 fs = (Ok path1, fs1) ->
  run_builder env scenario_dir call2 fs1 = (Ok path2, fs2) ->
  template_file (template_of env call2) <> path1 ->
  path2 = path1
  /\ run_builder env scenario_dir call2 fs = (Ok path2, fs2).
Proof.
  intros Hname H1 H2 Ht.
  apply run_builder_ok_inv in H1 as (config1 & text1 & Hc1 & Ht1 & Hd1 & Hp1 & Hfs1).
  apply run_builder_ok_inv in H2 as (config2 & text2 & Hc2 & Ht2 & Hd2 & Hp2 & Hfs2).
  rewrite <- Hname in Hp2, Hd2. rewrite <- Hp1 in Hp2. subst path2.
  split; [reflexivity|].
  rewrite Hfs1 in Ht2. cbn [files] in Ht2.
  rewrite lookup_insert_ne in Ht2 by (intros E; apply Ht; symmetry; exact E).
  rewrite run_builder_plan, Hc2, bind_lift_ok.
  rewrite (render_to_written _ _ _ _ _ _ Ht2)
    by (rewrite <- Hname; exact Hd1).
  rewrite <- Hname, <- Hp1, Hfs2, Hfs1. cbn [files dirs].
  f_equal. f_equal.
  - rewrite insert_insert_eq. reflexivity.
  - rewrite (assoc_L (∪)), union_idemp_L. reflexivity.
Qed.

Lemma same_name_last_writer_wins_witness :
  let unified := call_container_kill kill_unified_call in
  let single := call_container_kill kill_single_call in
  let after_unified :=
    snd (run_builder example_env "/tmp/x" unified openshift_templates_fs) in
  run_builder example_env "/tmp/x" single after_unified
  = run_builder example_env "/tmp/x" single openshift_templates_fs.
Proof.
  cbv zeta.
  destruct (same_name_last_writer_wins example_env "/tmp/x"
              (call_container_kill kill_unified_call)
              (call_container_kill kill_single_call)
              openshift_templates_fs
              (snd (run_builder example_env "/tmp/x"
                      (call_container_kill kill_unified_call)
                      openshift_templates_fs))
              (snd (run_builder example_env "/tmp/x"
                      (call_container_kill kill_single_call)
                      (snd (run_builder example_env "/tmp/x"
                              (call_container_kill kill_unified_call)
                              openshift_templates_fs))))
              "/tmp/x/container_kill.yaml" "/tmp/x/container_kill.yaml")
    as [_ H].
  - reflexivity.
  - rewrite run_builder_pair at 1. f_equal; vm_compute; reflexivity.
  - rewrite run_builder_pair at 1. f_equal; vm_compute; reflexivity.
  - discriminate.
  - rewrite H. rewrite run_builder_pair at 1. f_equal; vm_compute; reflexivity.
Defined.

(** ** Node targeting of the hog builders *)

(** X6.  Each hog configuration carries the node name if one is given, else
    the node selector if one is given, else neither: never both keys, and
    an empty name or selector counts as none.  The other keys are always
    the same, in the same order, and the selector cannot displace them. *)
Theorem hog_node_targeting :
  (forall kw,
     let config := HogScenarios.cpu_hog_data kw in
     node_targeting (HogScenarios.cpu_kw.node_name kw)
       (HogScenarios.cpu_kw.node_selector kw) config
     /\ dict_get "hog_type" config = Some (VStr "cpu")
     /\ firstn 9 (dict_keys config)
        = [ "duration"; "workers"; "hog_type"; "image"; "namespace";
            "cpu_load_percentage"; "cpu_method"; "number_of_nodes"; "taints" ]
     /\ (List.length config <= 10)%nat)
  /\ (forall kw,
        let config := HogScenarios.io_hog_data kw in
        node_targeting (HogScenarios.io_kw.node_name kw)
          (HogScenarios.io_kw.node_selector kw) config
        /\ dict_get "hog_type" config = Some (VStr "io")
        /\ firstn 11 (dict_keys config)
           = [ "duration"; "workers"; "hog_type"; "image"; "namespace";
               "io_block_size"; "io_write_bytes"; "io_target_pod_folder";
               "io_target_pod_volume"; "number_of_nodes"; "taints" ]
        /\ (List.length config <= 12)%nat)
  /\ (forall kw,
        let config := HogScenarios.memory_hog_data kw in
        node_targeting (HogScenarios.memory_kw.node_name kw)
          (HogScenarios.memory_kw.node_selector kw) config
        /\ dict_get "hog_type" config = Some (VStr "memory")
        /\ firstn 8 (dict_keys config)
           = [ "duration"; "workers"; "hog_type"; "image"; "namespace";
               "memory_vm_bytes"; "number_of_nodes"; "taints" ]
        /\ (List.length config <= 9)%nat).
Proof.
  split; [|split]; intros kw; cbv zeta;
    unfold HogScenarios.cpu_hog_data, HogScenarios.io_hog_data,
      HogScenarios.memory_hog_data, node_targeting, _get_selector_config.
  - destruct (truthy (HogScenarios.cpu_kw.node_name kw));
      [|destruct (truthy (HogScenarios.cpu_kw.node_selector kw))];
      repeat split; simpl; lia.
  - destruct (truthy (HogScenarios.io_kw.node_name kw));
      [|destruct (truthy (HogScenarios.io_kw.node_selector kw))];
      repeat split; simpl; lia.
  - destruct (truthy (HogScenarios.memory_kw.node_name kw));
      [|destruct (truthy (HogScenarios.memory_kw.node_selector kw))];
      repeat split; simpl; lia.
Qed.

(** ** The selectors of an application outage *)

(** X7.  [application_outage] emits exactly one of [pod_selectors] and
    [pod_selector]: a non-empty list of selector groups is used as it is
    and the single selector is then ignored; otherwise, also for an empty
    list, the single selector is emitted, as [{}] when it is absent or
    empty.  An absent or empty [block] becomes both directions. *)
Theorem application_outage_selectors (kw : ApplicationOutageScenarios.kw.t) :
  let config := ApplicationOutageScenarios.application_outage_config kw in
  let groups := ApplicationOutageScenarios.kw.pod_selectors kw in
  (if truthy groups
   then dict_get "pod_selectors" config = Some groups
        /\ has_key "pod_selector" config = false
   else dict_get "pod_selector" config
        = Some (py_or (ApplicationOutageScenarios.kw.pod_selector kw) (VDict []))
        /\ has_key "pod_selectors" config = false)
  /\ dict_keys config
     = [ "duration"; "namespace"; "block";
         if truthy groups then "pod_selectors" else "pod_selector" ]
  /\ dict_get "block" config
     = Some (if truthy (ApplicationOutageScenarios.kw.block kw)
             then ApplicationOutageScenarios.kw.block kw
             else VList [VStr "Ingress"; VStr "Egress"]).
Proof.
  cbv zeta. unfold ApplicationOutageScenarios.application_outage_config, py_or.
  destruct (truthy (ApplicationOutageScenarios.kw.pod_selectors kw));
    repeat split; reflexivity.
Qed.

(** ** Pod targeting *)

(** X8.  In [pod_egress_shaping], [pod_ingress_shaping],
    [pod_network_outage] and single-scenario [container_kill], a
    configuration that is assembled carries the pod name if one is given
    and then no [label_selector] key, even when a label selector was given
    too; otherwise it carries the label selector and no [pod_name] key.
    The namespace is passed on unchanged. *)
Theorem pod_targeting_is_exclusive (call : builder_call)
    (namespace pod_name label_selector : pyval) (config : pydict) :
  resolved_selectors call = Some (namespace, pod_name, label_selector) ->
  config_of call = Ok config ->
  pod_targeting pod_name label_selector config
  /\ dict_get "namespace" config = Some namespace.
Proof.
  unfold pod_targeting.
  destruct call; cbn [resolved_selectors config_of]; try discriminate.
  - intros H; injection H as <- <- <-.
    unfold NetworkOutageScenarios.pod_egress_shaping_config,
      NetworkOutageScenarios.shaping_config, _get_pod_selector_config.
    destruct (truthy (NetworkOutageScenarios.shaping_kw.pod_name kw));
      [|destruct (truthy (NetworkOutageScenarios.shaping_kw.label_selector kw))];
      cbn [negb andb rbind]; intros Hc; try discriminate;
      injection Hc as <-; repeat split; reflexivity.
  - intros H; injection H as <- <- <-.
    unfold NetworkOutageScenarios.pod_network_outage_config,
      _get_pod_selector_config.
    destruct (truthy (NetworkOutageScenarios.outage_kw.pod_name kw));
      [|destruct (truthy (NetworkOutageScenarios.outage_kw.label_selector kw))];
      cbn [negb andb rbind]; intros Hc; try discriminate;
      injection Hc as <-; repeat split; reflexivity.
  - intros H; injection H as <- <- <-.
    unfold NetworkOutageScenarios.pod_ingress_shaping_config,
      NetworkOutageScenarios.shaping_config, _get_pod_selector_config.
    destruct (truthy (NetworkOutageScenarios.shaping_kw.pod_name kw));
      [|destruct (truthy (NetworkOutageScenarios.shaping_kw.label_selector kw))];
      cbn [negb andb rbind]; intros Hc; try discriminate;
      injection Hc as <-; repeat split; reflexivity.
  - unfold ContainerScenarios.container_kill_config, _get_pod_selector_config.
    destruct (ContainerScenarios.kill_kw.scenarios kw); [discriminate|].
    intros H; injection H as <- <- <-.
    destruct (truthy (ContainerScenarios.kill_kw.namespace kw));
      cbn [negb]; [|discriminate].
    destruct (truthy (ContainerScenarios.kill_kw.pod_name kw));
      [|destruct (truthy (ContainerScenarios.kill_kw.label_selector kw))];
      cbn [negb andb rbind]; intros Hc; try discriminate;
      injection Hc as <-; repeat split; reflexivity.
Qed.

Lemma pod_targeting_is_exclusive_witness :
  exists config,
    config_of (call_container_kill kill_single_call) = Ok config
    /\ dict_get "pod_name" config = Some (VStr "rook-ceph-osd-0")
    /\ has_key "label_selector" config = false
    /\ dict_get "namespace" config = Some (VStr "openshift-storage").
Proof.
  eexists. split; [reflexivity|].
  destruct (pod_targeting_is_exclusive (call_container_kill kill_single_call)
              (VStr "openshift-storage") (VStr "rook-ceph-osd-0") VNone _
              eq_refl eq_refl) as [[Hp Hl] Hn].
  split; [exact Hp|]. split; [exact Hl | exact Hn].
Defined.

(** ** Container pause: which selector wins, and the generated name *)

Lemma split_last_has_no_char c s :
  PyStr.contains_char c (PyStr.split_last c s) = false.
Proof.
  induction s as [|a s IH]; [reflexivity|].
  simpl. destruct (PyStr.contains_char c s) eqn:Hc; [exact IH|].
  destruct (Ascii.eqb a c) eqn:Ea; [exact Hc|].
  simpl. rewrite Ea. exact Hc.
Qed.

Lemma component_of_has_no_equals label_selector :
  PyStr.contains_char ContainerScenarios.equals_sign
    (ContainerScenarios.component_of label_selector) = false.
Proof.
  unfold ContainerScenarios.component_of.
  destruct label_selector as [s|]; [|reflexivity].
  destruct (PyStr.contains_char ContainerScenarios.equals_sign s);
    [apply split_last_has_no_char | reflexivity].
Qed.

(** X9.  [container_pause] prefers the label selector, unlike the resolver
    of the other builders: with a non-empty label selector the pod name is
    not looked at, the configuration is the same whatever pod name comes
    with it, and it carries that selector.  No configuration of
    [container_pause] has a [pod_name] key, and all have the same seven
    keys, the instance count under [count]. *)
Theorem container_pause_prefers_label_selector (namespace : pyval)
    (kw : ContainerScenarios.pause_kw.t) (label : string) :
  label <> EmptyString ->
  (forall pod_name,
     ContainerScenarios.container_pause_config namespace
       (pause_with_selectors pod_name (Some label) kw)
     = ContainerScenarios.container_pause_config namespace
         (pause_with_selectors None (Some label) kw))
  /\ (exists config,
        ContainerScenarios.container_pause_config namespace
          (pause_with_selectors None (Some label) kw) = Ok config
        /\ dict_get "label_selector" config = Some (VStr label))
  /\ (forall namespace' kw' config',
        ContainerScenarios.container_pause_config namespace' kw' = Ok config' ->
        dict_keys config'
        = [ "scenario_name"; "namespace"; "label_selector"; "container_name";
            "pause_seconds"; "count"; "expected_recovery_time" ]
        /\ dict_get "count" config'
           = Some (kwarg (VInt 1)
                     (ContainerScenarios.pause_kw.instance_count kw'))).
Proof.
  intros Hl.
  assert (Ht : truthy (VStr label) = true).
  { simpl. destruct (String.eqb_spec label EmptyString);
      [contradiction|reflexivity]. }
  split; [|split].
  - intros pod_name. unfold ContainerScenarios.container_pause_config.
    cbn [pause_with_selectors ContainerScenarios.pause_kw.pod_name
         ContainerScenarios.pause_kw.label_selector of_opt_str].
    rewrite Ht. cbn [negb andb].
    rewrite !andb_false_r.
    destruct pod_name as [p|]; [|reflexivity].
    rewrite andb_false_r. reflexivity.
  - unfold ContainerScenarios.container_pause_config.
    cbn [pause_with_selectors ContainerScenarios.pause_kw.pod_name
         ContainerScenarios.pause_kw.label_selector of_opt_str].
    rewrite Ht. cbn [negb andb truthy].
    eexists. split; reflexivity.
  - intros namespace' kw' config'.
    unfold ContainerScenarios.container_pause_config.
    destruct (negb _ && negb _); [discriminate|].
    intros H. injection H as <-. split; reflexivity.
Qed.

Lemma container_pause_prefers_label_selector_witness :
  ContainerScenarios.container_pause_config (VStr "openshift-storage")
    (pause_with_selectors (Some "rook-ceph-osd-0") (Some "app=rook-ceph-osd")
       ContainerScenarios.pause_kw.omitted)
  = ContainerScenarios.container_pause_config (VStr "openshift-storage")
      (pause_with_selectors None (Some "app=rook-ceph-osd")
         ContainerScenarios.pause_kw.omitted).
Proof.
  apply (proj1 (container_pause_prefers_label_selector
                  (VStr "openshift-storage") ContainerScenarios.pause_kw.omitted
                  "app=rook-ceph-osd" ltac:(discriminate))).
Defined.

(** X10.  The scenario name [container_pause] makes up, when none (or an
    empty one) is given, is [container_pause_<component>_<seconds>s], where
    the component is what follows the last [=] of the selector, or
    [container] for a selector without [=]; the component never contains
    [=].  A name that is given is kept as it is, and so is an expected
    recovery time that is given, 0 included. *)
Theorem container_pause_generated_name (namespace : pyval)
    (kw : ContainerScenarios.pause_kw.t) (config : pydict) :
  ContainerScenarios.container_pause_config namespace kw = Ok config ->
  (truthy (of_opt_str (ContainerScenarios.pause_kw.scenario_name kw)) = false ->
   exists component,
     dict_get "scenario_name" config
     = Some (VStr ("container_pause_" +:+ component +:+ "_"
                   +:+ PyStr.of_Z
                         (kwarg 60 (ContainerScenarios.pause_kw.pause_seconds kw))
                   +:+ "s"))
     /\ PyStr.contains_char ContainerScenarios.equals_sign component = false
     /\ (forall label,
           ContainerScenarios.pause_kw.label_selector kw = Some label ->
           label <> EmptyString ->
           component
           = if PyStr.contains_char ContainerScenarios.equals_sign label
             then PyStr.split_last ContainerScenarios.equals_sign label
             else "container"))
  /\ (forall name,
        ContainerScenarios.pause_kw.scenario_name kw = Some name ->
        name <> EmptyString ->
        dict_get "scenario_name" config = Some (VStr name))
  /\ (forall t,
        ContainerScenarios.pause_kw.expected_recovery_time kw = Some t ->
        dict_get "expected_recovery_time" config = Some (VInt t)).
Proof.
  unfold ContainerScenarios.container_pause_config.
  destruct (negb _ && negb _); [discriminate|].
  intros H. injection H as <-. split; [|split].
  - intros Hs. rewrite Hs. cbn [negb].
    eexists. split; [reflexivity|].
    split; [apply component_of_has_no_equals|].
    intros label Hl Hne. rewrite Hl.
    assert (Ht : truthy (VStr label) = true).
    { simpl. destruct (String.eqb_spec label EmptyString);
        [contradiction|reflexivity]. }
    cbn [of_opt_str]. rewrite Ht. cbn [negb].
    destruct (ContainerScenarios.pause_kw.pod_name kw) as [p|];
      rewrite ?andb_false_r; reflexivity.
  - intros name Hn Hne. rewrite Hn.
    assert (Ht : truthy (VStr name) = true).
    { simpl. destruct (String.eqb_spec name EmptyString);
        [contradiction|reflexivity]. }
    cbn [of_opt_str]. rewrite Ht. reflexivity.
  - intros t Ht. rewrite Ht. reflexivity.
Qed.

Lemma container_pause_generated_name_witness :
  exists config,
    ContainerScenarios.container_pause_config (VStr "openshift-storage")
      (pause_with_selectors None (Some "tier=storage,app=rook-ceph-osd")
         ContainerScenarios.pause_kw.omitted)
    = Ok config
    /\ dict_get "scenario_name" config
       = Some (VStr "container_pause_rook-ceph-osd_60s").
Proof.
  eexists. split; [reflexivity|].
  destruct (container_pause_generated_name (VStr "openshift-storage")
              (pause_with_selectors None (Some "tier=storage,app=rook-ceph-osd")
                 ContainerScenarios.pause_kw.omitted) _ eq_refl)
    as [Hname _].
  destruct (Hname eq_refl) as (component & Hs & _ & Hc).
  rewrite Hs, (Hc _ eq_refl ltac:(discriminate)). reflexivity.
Defined.

(** ** Node-level network chaos: precedence and the name of the file *)

(** X11.  In [pod_network_chaos] a node name wins over a label selector:
    with a non-empty node name the configuration, and with it the file
    name, is the same whatever label selector comes with it.  Leaving both
    out is the same call as naming the worker selector.  The file name is
    always 27 characters long: [network_chaos_], 8 digits, [.yaml]. *)
Theorem network_chaos_node_name_wins (kw : NetworkOutageScenarios.chaos_kw.t)
    (node_name : pyval) :
  (truthy node_name = true ->
   forall label1 label2,
     NetworkOutageScenarios.pod_network_chaos_config
       (chaos_with_selectors node_name label1 kw)
     = NetworkOutageScenarios.pod_network_chaos_config
         (chaos_with_selectors node_name label2 kw)
     /\ NetworkOutageScenarios.pod_network_chaos_filename
          (chaos_with_selectors node_name label1 kw)
        = NetworkOutageScenarios.pod_network_chaos_filename
            (chaos_with_selectors node_name label2 kw))
  /\ (NetworkOutageScenarios.pod_network_chaos_config
        (chaos_with_selectors VNone VNone kw)
      = NetworkOutageScenarios.pod_network_chaos_config
          (chaos_with_selectors VNone
             (VStr "node-role.kubernetes.io/worker") kw)
      /\ NetworkOutageScenarios.pod_network_chaos_filename
           (chaos_with_selectors VNone VNone kw)
         = NetworkOutageScenarios.pod_network_chaos_filename
             (chaos_with_selectors VNone
                (VStr "node-role.kubernetes.io/worker") kw))
  /\ String.length (NetworkOutageScenarios.pod_network_chaos_filename kw)
     = 27%nat.
Proof.
  split; [|split].
  - intros Hn label1 label2.
    assert (Hc : NetworkOutageScenarios.pod_network_chaos_config
                   (chaos_with_selectors node_name label1 kw)
                 = NetworkOutageScenarios.pod_network_chaos_config
                     (chaos_with_selectors node_name label2 kw)).
    { unfold NetworkOutageScenarios.pod_network_chaos_config.
      cbn [chaos_with_selectors NetworkOutageScenarios.chaos_kw.node_name
           NetworkOutageScenarios.chaos_kw.label_selector
           NetworkOutageScenarios.chaos_kw.duration
           NetworkOutageScenarios.chaos_kw.instance_count
           NetworkOutageScenarios.chaos_kw.interfaces
           NetworkOutageScenarios.chaos_kw.execution
           NetworkOutageScenarios.chaos_kw.egress
           NetworkOutageScenarios.chaos_kw.image].
      rewrite Hn. reflexivity. }
    split; [exact Hc|].
    unfold NetworkOutageScenarios.pod_network_chaos_filename. rewrite Hc.
    reflexivity.
  - split; reflexivity.
  - unfold NetworkOutageScenarios.pod_network_chaos_filename. cbv zeta.
    rewrite !length_append, length_hexdigest_prefix by lia. reflexivity.
Qed.

Lemma network_chaos_node_name_wins_witness :
  NetworkOutageScenarios.pod_network_chaos_filename
    (chaos_with_selectors (VStr "worker-1") (VStr "role=infra")
       NetworkOutageScenarios.chaos_kw.omitted)
  = NetworkOutageScenarios.pod_network_chaos_filename
      (chaos_with_selectors (VStr "worker-1") VNone
         NetworkOutageScenarios.chaos_kw.omitted).
Proof.
  apply (proj1 (network_chaos_node_name_wins
                  NetworkOutageScenarios.chaos_kw.omitted (VStr "worker-1"))
           eq_refl (VStr "role=infra") VNone).
Defined.

(** ** Network chaos ingress: both targeting keys, always *)

(** X12.  [network_chaos_ingress] always emits the same nine keys, with
    both [node_interface_name] and [label_selector] among them.  The label
    selector is the worker selector only when the node-interface mapping
    and the label selector are both absent or empty; with a node-interface
    mapping and no label selector the key is emitted with [None]. *)
Theorem network_chaos_ingress_targeting
    (kw : NetworkOutageScenarios.ingress_kw.t) :
  let config := NetworkOutageScenarios.network_chaos_ingress_config kw in
  let nodes := NetworkOutageScenarios.ingress_kw.node_interface_name kw in
  let label := NetworkOutageScenarios.ingress_kw.label_selector kw in
  dict_keys config
  = [ "node_interface_name"; "label_selector"; "instance_count";
      "kubeconfig_path"; "execution_type"; "network_params"; "wait_duration";
      "test_duration"; "kraken_config" ]
  /\ dict_get "node_interface_name" config = Some nodes
  /\ dict_get "label_selector" config
     = Some (if truthy nodes || truthy label then label
             else VStr "node-role.kubernetes.io/worker")
  /\ (truthy nodes = true -> label = VNone ->
      dict_get "label_selector" config = Some VNone).
Proof.
  cbv zeta. unfold NetworkOutageScenarios.network_chaos_ingress_config.
  destruct (truthy (NetworkOutageScenarios.ingress_kw.node_interface_name kw));
    [|destruct (truthy (NetworkOutageScenarios.ingress_kw.label_selector kw))];
    repeat split; try reflexivity; try discriminate.
  intros _ ->. reflexivity.
Qed.

(** ** Container kill in unified mode *)

Lemma default_scenario_name_inj kw c1 c2 l1 l2 d1 d2 :
  entry_get "name" (ContainerScenarios.default_scenario kw c1 l1 d1)
  = entry_get "name" (ContainerScenarios.default_scenario kw c2 l2 d2) ->
  c1 = c2.
Proof.
  unfold ContainerScenarios.default_scenario. cbn [entry_get].
  change (dict_get "name" (dict_lit ?l)) with (dict_get "name" l).
  cbn [dict_get String.eqb Ascii.eqb Bool.eqb].
  intros H. injection H as H.
  rewrite <- !append_assoc in H.
  do 3 apply append_inv_tail in H. exact H.
Qed.

(** X13.  With a list of scenarios, [container_kill] validates nothing and
    cannot raise [ValueError]: a non-empty list is emitted as it is,
    whatever the namespace and the selectors are.  For the empty list every
    built-in entry carries the same namespace (the one given, else
    [openshift-storage]), signal, container name and count, and half the
    wait duration, rounded down, as expected recovery time; the eight
    names are different from one another for every signal, and so are the
    eight label selectors. *)
Theorem container_kill_unified_mode (kw : ContainerScenarios.kill_kw.t)
    (scenarios : list pyval) :
  ContainerScenarios.kill_kw.scenarios kw = Some scenarios ->
  (scenarios <> [] ->
   ContainerScenarios.container_kill_config kw
   = Ok [("scenarios", VList scenarios)])
  /\ (exists entries,
        ContainerScenarios.container_kill_config kw
        = Ok [("scenarios", VList entries)]
        /\ (scenarios = [] ->
            Forall
              (fun entry =>
                 entry_get "namespace" entry
                 = Some (py_or (ContainerScenarios.kill_kw.namespace kw)
                           (VStr "openshift-storage"))
                 /\ entry_get "kill_signal" entry
                    = Some (VStr (kwarg "SIGKILL"
                                    (ContainerScenarios.kill_kw.kill_signal kw)))
                 /\ entry_get "container_name" entry
                    = Some (kwarg (VStr EmptyString)
                              (ContainerScenarios.kill_kw.container_name kw))
                 /\ entry_get "count" entry
                    = Some (kwarg (VInt 1)
                              (ContainerScenarios.kill_kw.instance_count kw))
                 /\ entry_get "expected_recovery_time" entry
                    = Some (VInt (kwarg 300
                                    (ContainerScenarios.kill_kw.wait_duration kw)
                                  / 2)))
              entries
            /\ NoDup (map (entry_get "name") entries)
            /\ NoDup (map (entry_get "label_selector") entries))).
Proof.
  intros Hs. unfold ContainerScenarios.container_kill_config. rewrite Hs.
  split.
  - intros Hne. destruct scenarios; [contradiction|reflexivity].
  - eexists. split; [reflexivity|]. intros ->.
    split; [|split].
    + unfold ContainerScenarios.default_scenarios.
      repeat (apply List.Forall_cons; [repeat split; reflexivity|]).
      apply List.Forall_nil.
    + unfold ContainerScenarios.default_scenarios. cbn [map].
      repeat (apply NoDup_cons_2;
              [ rewrite list_elem_of_In; cbn [In]; intros Hin;
                repeat (destruct Hin as [Hin|Hin];
                        [apply default_scenario_name_inj in Hin; discriminate|]);
                exact Hin
              | ]).
      apply NoDup_nil_2.
    + unfold ContainerScenarios.default_scenarios. cbn [map].
      repeat (apply NoDup_cons_2;
              [ rewrite list_elem_of_In; cbn [In]; intros Hin;
                repeat (destruct Hin as [Hin|Hin]; [discriminate|]);
                exact Hin
              | ]).
      apply NoDup_nil_2.
Qed.

Lemma container_kill_unified_mode_witness :
  ContainerScenarios.container_kill_config
    {| ContainerScenarios.kill_kw.namespace := VNone;
       ContainerScenarios.kill_kw.label_selector := VNone;
       ContainerScenarios.kill_kw.pod_name := VNone;
       ContainerScenarios.kill_kw.container_name := None;
       ContainerScenarios.kill_kw.kill_signal := None;
       ContainerScenarios.kill_kw.instance_count := None;
       ContainerScenarios.kill_kw.wait_duration := None;
       ContainerScenarios.kill_kw.scenarios :=
         Some [VDict [("name", VStr "mon_kill")]] |}
  = Ok [("scenarios", VList [VDict [("name", VStr "mon_kill")]])].
Proof.
  refine (proj1 (container_kill_unified_mode
                   {| ContainerScenarios.kill_kw.namespace := VNone;
                      ContainerScenarios.kill_kw.label_selector := VNone;
                      ContainerScenarios.kill_kw.pod_name := VNone;
                      ContainerScenarios.kill_kw.container_name := None;
                      ContainerScenarios.kill_kw.kill_signal := None;
                      ContainerScenarios.kill_kw.instance_count := None;
                      ContainerScenarios.kill_kw.wait_duration := None;
                      ContainerScenarios.kill_kw.scenarios :=
                        Some [VDict [("name", VStr "mon_kill")]] |}
                   [VDict [("name", VStr "mon_kill")]] eq_refl) _).
  discriminate.
Defined.

(** ** Sorting: the order of the input is forgotten *)

Section SortedFacts.
Context {A : Type} (le : A -> A -> bool).
Context `{!Total (fun x y => Is_true (le x y)),
          !Transitive (fun x y => Is_true (le x y)),
          !AntiSymm (=) (fun x y => Is_true (le x y))}.

Lemma insert_sorted_perm x l : Permutation (insert_sorted le x l) (x :: l).
Proof.
  induction l as [|y l IH]; simpl; [reflexivity|].
  destruct (le x y); [reflexivity|].
  rewrite IH. apply perm_swap.
Qed.

Lemma sorted_perm l : Permutation (sorted le l) l.
Proof.
  unfold sorted. induction l as [|x l IH]; simpl; [reflexivity|].
  rewrite insert_sorted_perm, IH. reflexivity.
Qed.

Lemma insert_sorted_Sorted x l :
  Sorted (fun x y => Is_true (le x y)) l ->
  Sorted (fun x y => Is_true (le x y)) (insert_sorted le x l).
Proof.
  induction l as [|y l IH]; simpl; intros Hs.
  - repeat constructor.
  - destruct (le x y) eqn:E.
    + constructor; [exact Hs|]. constructor. rewrite E. exact I.
    + apply Sorted_inv in Hs as [Hs Hhd].
      constructor; [apply IH; exact Hs|].
      assert (Hyx : Is_true (le y x)).
      { destruct (total (fun x y => Is_true (le x y)) x y) as [H|H];
          [rewrite E in H; contradiction | exact H]. }
      destruct l as [|z l]; simpl.
      * constructor. exact Hyx.
      * destruct (le x z); constructor; [exact Hyx|].
        inversion Hhd; assumption.
Qed.

Lemma sorted_Sorted l : Sorted (fun x y => Is_true (le x y)) (sorted le l).
Proof.
  unfold sorted. induction l as [|x l IH]; simpl; [constructor|].
  apply insert_sorted_Sorted. exact IH.
Qed.

(** Lists with the same elements sort to the same list. *)
Lemma sorted_of_perm l1 l2 :
  Permutation l1 l2 -> sorted le l1 = sorted le l2.
Proof.
  intros Hp.
  apply (Sorted_unique (fun x y => Is_true (le x y)));
    try apply sorted_Sorted.
  rewrite !sorted_perm. exact Hp.
Qed.

End SortedFacts.

Lemma sorted_ints_of_perm l1 l2 :
  Permutation l1 l2 -> sorted_ints l1 = sorted_ints l2.
Proof.
  apply sorted_of_perm.
  - intros x y. destruct (Z.leb_spec x y), (Z.leb_spec y x); simpl; auto. lia.
  - intros x y z Hxy Hyz. apply Is_true_true in Hxy, Hyz.
    apply Is_true_true. apply Z.leb_le in Hxy, Hyz. apply Z.leb_le. lia.
  - intros x y Hxy Hyx. apply Is_true_true in Hxy, Hyx.
    apply Z.leb_le in Hxy, Hyx. lia.
Qed.

Lemma sorted_strs_of_perm l1 l2 :
  Permutation l1 l2 -> sorted_strs l1 = sorted_strs l2.
Proof.
  apply sorted_of_perm.
  - exact String.le_total.
  - exact (@PreOrder_Transitive _ _
             (@partial_order_pre _ _ String.le_po)).
  - exact (@partial_order_anti_symm _ _ String.le_po).
Qed.

(** ** The readable name of [pod_network_outage] *)

Lemma list_or_same_elements {A : Type} (o1 o2 : option (list A)) dflt :
  same_elements o1 o2 ->
  Permutation (NetworkOutageScenarios.list_or o1 dflt)
    (NetworkOutageScenarios.list_or o2 dflt).
Proof.
  destruct o1 as [l1|], o2 as [l2|]; simpl; try contradiction;
    [|reflexivity].
  intros Hp. destruct l1 as [|x l1], l2 as [|y l2]; try reflexivity.
  - apply Permutation_nil_l in Hp. discriminate.
  - apply Permutation_nil_r in Hp. discriminate.
  - exact Hp.
Qed.

Lemma ports_descriptor_same_elements tag o1 o2 :
  same_elements o1 o2 ->
  NetworkOutageScenarios.ports_descriptor tag o1
  = NetworkOutageScenarios.ports_descriptor tag o2.
Proof.
  destruct o1 as [l1|], o2 as [l2|]; cbn [same_elements]; try contradiction;
    [|reflexivity].
  intros Hp. destruct l1 as [|x l1], l2 as [|y l2]; try reflexivity.
  - apply Permutation_nil_l in Hp. discriminate.
  - apply Permutation_nil_r in Hp. discriminate.
  - rewrite !ports_descriptor_some by discriminate.
    unfold ports_digest.
    rewrite (Permutation_length Hp), (sorted_ints_of_perm _ _ Hp).
    reflexivity.
Qed.

(** X14.  The readable name of a [pod_network_outage] file forgets the
    order in which the directions and the ports are given, and it does not
    look at the namespace, the selectors, the instance count or the
    durations: two calls whose direction and port lists have the same
    elements have the same readable name, and when that name has at most
    200 characters, the same file. *)
Theorem outage_name_ignores_order
    (kw1 kw2 : NetworkOutageScenarios.outage_kw.t) :
  same_elements (NetworkOutageScenarios.outage_kw.direction kw1)
    (NetworkOutageScenarios.outage_kw.direction kw2) ->
  same_elements (NetworkOutageScenarios.outage_kw.ingress_ports kw1)
    (NetworkOutageScenarios.outage_kw.ingress_ports kw2) ->
  same_elements (NetworkOutageScenarios.outage_kw.egress_ports kw1)
    (NetworkOutageScenarios.outage_kw.egress_ports kw2) ->
  NetworkOutageScenarios.readable_base_filename kw1
  = NetworkOutageScenarios.readable_base_filename kw2
  /\ (keeps_readable_name kw1 ->
      NetworkOutageScenarios.pod_network_outage_filename kw1
      = NetworkOutageScenarios.pod_network_outage_filename kw2).
Proof.
  intros Hd Hi He.
  assert (Hr : NetworkOutageScenarios.readable_base_filename kw1
               = NetworkOutageScenarios.readable_base_filename kw2).
  { unfold NetworkOutageScenarios.readable_base_filename,
      NetworkOutageScenarios.direction_str, NetworkOutageScenarios.ports_str.
    rewrite (sorted_strs_of_perm _ _ (list_or_same_elements _ _ _ Hd)),
      (ports_descriptor_same_elements "ingress" _ _ Hi),
      (ports_descriptor_same_elements "egress" _ _ He).
    reflexivity. }
  split; [exact Hr|]. intros K1.
  assert (K2 : keeps_readable_name kw2)
    by (unfold keeps_readable_name in *; rewrite <- Hr; exact K1).
  rewrite !outage_filename_readable by assumption. rewrite Hr. reflexivity.
Qed.

Lemma outage_name_ignores_order_witness :
  NetworkOutageScenarios.pod_network_outage_filename
    {| NetworkOutageScenarios.outage_kw.direction := Some ["ingress"; "egress"];
       NetworkOutageScenarios.outage_kw.ingress_ports := Some [443; 80];
       NetworkOutageScenarios.outage_kw.egress_ports := None;
       NetworkOutageScenarios.outage_kw.pod_name := VStr "rook-ceph-osd-0";
       NetworkOutageScenarios.outage_kw.label_selector := VNone;
       NetworkOutageScenarios.outage_kw.instance_count := Some (VInt 2);
       NetworkOutageScenarios.outage_kw.wait_duration := None;
       NetworkOutageScenarios.outage_kw.test_duration := None |}
  = NetworkOutageScenarios.pod_network_outage_filename
      {| NetworkOutageScenarios.outage_kw.direction := Some ["egress"; "ingress"];
         NetworkOutageScenarios.outage_kw.ingress_ports := Some [80; 443];
         NetworkOutageScenarios.outage_kw.egress_ports := None;
         NetworkOutageScenarios.outage_kw.pod_name := VNone;
         NetworkOutageScenarios.outage_kw.label_selector :=
           VDict [("app", VStr "rook-ceph-mon")];
         NetworkOutageScenarios.outage_kw.instance_count := None;
         NetworkOutageScenarios.outage_kw.wait_duration := Some (VInt 60);
         NetworkOutageScenarios.outage_kw.test_duration := None |}.
Proof.
  apply outage_name_ignores_order.
  - apply perm_swap.
  - apply perm_swap.
  - exact I.
  - apply Nat.leb_le. reflexivity.
Defined.

(** ** How long the name of an outage file can be *)

(** X15.  The file name of [pod_network_outage] is ["pod_network_outage_"],
    the direction tags, some middle part and [".yaml"]; it has at most 205
    characters, or, when the direction tags are that long, 37 characters
    more than the direction tags.  With the directions left out it always
    has at most 205 characters, however many ports are given. *)
Theorem outage_filename_length (kw : NetworkOutageScenarios.outage_kw.t) :
  (exists middle,
     NetworkOutageScenarios.pod_network_outage_filename kw
     = "pod_network_outage_" +:+ NetworkOutageScenarios.direction_str kw
         +:+ middle +:+ ".yaml")
  /\ (String.length (NetworkOutageScenarios.pod_network_outage_filename kw)
      <= Nat.max 205
           (String.length (NetworkOutageScenarios.direction_str kw) + 37))%nat
  /\ (NetworkOutageScenarios.outage_kw.direction kw = None ->
      (String.length (NetworkOutageScenarios.pod_network_outage_filename kw)
       <= 205)%nat).
Proof.
  assert (Hlen :
    (String.length (NetworkOutageScenarios.pod_network_outage_filename kw)
     <= Nat.max 205
          (String.length (NetworkOutageScenarios.direction_str kw) + 37))%nat).
  { destruct (Nat.le_gt_cases
                (String.length
                   (NetworkOutageScenarios.readable_base_filename kw)) 200)
      as [Hs|Hl].
    - rewrite (outage_filename_readable kw Hs), length_append.
      change (String.length ".yaml") with 5%nat. lia.
    - rewrite (outage_filename_hashed kw Hl), !length_append,
        length_hexdigest_prefix by lia.
      change (String.length ".yaml") with 5%nat.
      change (String.length "_") with 1%nat.
      change (String.length "pod_network_outage_") with 19%nat. lia. }
  split; [|split].
  - destruct (Nat.le_gt_cases
                (String.length
                   (NetworkOutageScenarios.readable_base_filename kw)) 200)
      as [Hs|Hl].
    + exists (NetworkOutageScenarios.ports_str kw).
      rewrite (outage_filename_readable kw Hs).
      unfold NetworkOutageScenarios.readable_base_filename.
      rewrite !append_assoc. reflexivity.
    + eexists. rewrite (outage_filename_hashed kw Hl).
      rewrite <- (append_assoc "_"). reflexivity.
  - exact Hlen.
  - intros Hd. revert Hlen.
    unfold NetworkOutageScenarios.direction_str. rewrite Hd.
    change (String.length
              (PyStr.join "_"
                 (sorted_strs
                    (NetworkOutageScenarios.list_or None ["egress"; "ingress"]))))
      with 14%nat.
    lia.
Qed.

Lemma outage_filename_length_witness :
  (String.length
     (NetworkOutageScenarios.pod_network_outage_filename
        (outage_call (Some (twenty_ports 10000)) (Some (twenty_ports 20000))
           None None None))
   <= 205)%nat.
Proof.
  apply (proj2 (proj2 (outage_filename_length
                         (outage_call (Some (twenty_ports 10000))
                            (Some (twenty_ports 20000)) None None None)))).
  reflexivity.
Defined.

(** ** Empty lists of an outage call *)

(** X16.  For [pod_network_outage] an empty direction list or port list is
    a list left out: the configuration is the same, with both directions
    and with empty port lists, and so is the readable name, hence the file
    whenever the readable name is kept. *)
Theorem outage_empty_lists_are_absent (namespace : pyval)
    (kw : NetworkOutageScenarios.outage_kw.t) :
  NetworkOutageScenarios.pod_network_outage_config namespace
    (without_empty_lists kw)
  = NetworkOutageScenarios.pod_network_outage_config namespace kw
  /\ NetworkOutageScenarios.readable_base_filename (without_empty_lists kw)
     = NetworkOutageScenarios.readable_base_filename kw
  /\ (keeps_readable_name kw ->
      NetworkOutageScenarios.pod_network_outage_filename
        (without_empty_lists kw)
      = NetworkOutageScenarios.pod_network_outage_filename kw)
  /\ (NetworkOutageScenarios.outage_kw.direction kw = Some [] ->
      NetworkOutageScenarios.outage_kw.ingress_ports kw = Some [] ->
      NetworkOutageScenarios.outage_kw.egress_ports kw = Some [] ->
      NetworkOutageScenarios.readable_base_filename kw
      = "pod_network_outage_egress_ingress").
Proof.
  assert (Hr : NetworkOutageScenarios.readable_base_filename
                 (without_empty_lists kw)
               = NetworkOutageScenarios.readable_base_filename kw).
  { unfold NetworkOutageScenarios.readable_base_filename,
      NetworkOutageScenarios.direction_str, NetworkOutageScenarios.ports_str.
    cbn [without_empty_lists NetworkOutageScenarios.outage_kw.direction
         NetworkOutageScenarios.outage_kw.ingress_ports
         NetworkOutageScenarios.outage_kw.egress_ports].
    destruct (NetworkOutageScenarios.outage_kw.direction kw) as [[|d ds]|],
      (NetworkOutageScenarios.outage_kw.ingress_ports kw) as [[|p ps]|],
      (NetworkOutageScenarios.outage_kw.egress_ports kw) as [[|q qs]|];
      reflexivity. }
  split; [|split; [exact Hr|split]].
  - unfold NetworkOutageScenarios.pod_network_outage_config.
    cbn [without_empty_lists NetworkOutageScenarios.outage_kw.direction
         NetworkOutageScenarios.outage_kw.ingress_ports
         NetworkOutageScenarios.outage_kw.egress_ports
         NetworkOutageScenarios.outage_kw.pod_name
         NetworkOutageScenarios.outage_kw.label_selector
         NetworkOutageScenarios.outage_kw.instance_count
         NetworkOutageScenarios.outage_kw.wait_duration
         NetworkOutageScenarios.outage_kw.test_duration].
    destruct (NetworkOutageScenarios.outage_kw.direction kw) as [[|d ds]|],
      (NetworkOutageScenarios.outage_kw.ingress_ports kw) as [[|p ps]|],
      (NetworkOutageScenarios.outage_kw.egress_ports kw) as [[|q qs]|];
      reflexivity.
  - intros K.
    assert (K' : keeps_readable_name (without_empty_lists kw))
      by (unfold keeps_readable_name in *; rewrite Hr; exact K).
    rewrite !outage_filename_readable by assumption. rewrite Hr. reflexivity.
  - intros Hd Hi He.
    unfold NetworkOutageScenarios.readable_base_filename,
      NetworkOutageScenarios.direction_str, NetworkOutageScenarios.ports_str.
    rewrite Hd, Hi, He. reflexivity.
Qed.

Lemma outage_empty_lists_are_absent_witness :
  NetworkOutageScenarios.pod_network_outage_filename
    {| NetworkOutageScenarios.outage_kw.direction := Some [];
       NetworkOutageScenarios.outage_kw.ingress_ports := Some [];
       NetworkOutageScenarios.outage_kw.egress_ports := Some [];
       NetworkOutageScenarios.outage_kw.pod_name := VStr "rook-ceph-osd-0";
       NetworkOutageScenarios.outage_kw.label_selector := VNone;
       NetworkOutageScenarios.outage_kw.instance_count := None;
       NetworkOutageScenarios.outage_kw.wait_duration := None;
       NetworkOutageScenarios.outage_kw.test_duration := None |}
  = NetworkOutageScenarios.pod_network_outage_filename
      (outage_call None None None None None).
Proof.
  symmetry.
  apply (proj1 (proj2 (proj2 (outage_empty_lists_are_absent VNone
           {| NetworkOutageScenarios.outage_kw.direction := Some [];
              NetworkOutageScenarios.outage_kw.ingress_ports := Some [];
              NetworkOutageScenarios.outage_kw.egress_ports := Some [];
              NetworkOutageScenarios.outage_kw.pod_name := VStr "rook-ceph-osd-0";
              NetworkOutageScenarios.outage_kw.label_selector := VNone;
              NetworkOutageScenarios.outage_kw.instance_count := None;
              NetworkOutageScenarios.outage_kw.wait_duration := None;
              NetworkOutageScenarios.outage_kw.test_duration := None |})))).
  apply Nat.leb_le. reflexivity.
Defined.

(** ** The name of a network chaos file and the order of keys *)

Lemma key_le_total : Total (fun x y => Is_true (Json.key_le x y)).
Proof. intros x y. apply String.le_total. Qed.

Lemma key_le_trans : Transitive (fun x y => Is_true (Json.key_le x y)).
Proof.
  intros x y z. unfold Json.key_le.
  apply (@PreOrder_Transitive _ _ (@partial_order_pre _ _ String.le_po)).
Qed.

Lemma same_key_same_item (d : pydict) x y :
  NoDup (map fst d) -> In x d -> In y d -> fst x = fst y -> x = y.
Proof.
  induction d as [|z d IH]; intros Hn Hx Hy Hk; [contradiction|].
  cbn [map] in Hn. apply NoDup_cons in Hn as [Hz Hn].
  destruct Hx as [->|Hx], Hy as [->|Hy].
  - reflexivity.
  - exfalso. apply Hz. rewrite Hk. apply list_elem_of_In, in_map. exact Hy.
  - exfalso. apply Hz. rewrite <- Hk. apply list_elem_of_In, in_map. exact Hx.
  - auto.
Qed.

(** A dictionary with its items in another order has the same sorted
    form. *)
Lemma sort_keys_dict_perm (d1 d2 : pydict) :
  Permutation d1 d2 -> NoDup (map fst d1) ->
  Json.sort_keys (VDict d1) = Json.sort_keys (VDict d2).
Proof.
  intros Hp Hn. cbn [Json.sort_keys]. f_equal.
  set (g := fun kx : string * pyval =>
              let '(k, x) := kx in (k, Json.sort_keys x)).
  assert (Hg : forall kx, fst (g kx) = fst kx) by (intros [k x]; reflexivity).
  assert (Hn' : NoDup (map fst (map g d1))).
  { rewrite map_map. erewrite map_ext; [exact Hn|]. intros kx. apply Hg. }
  apply (Sorted_unique_strong (fun x y => Is_true (Json.key_le x y)) (Transitive0 := key_le_trans)).
  - intros x1 x2 H1 H2 H12 H21.
    apply list_elem_of_In in H1, H2.
    apply (Permutation_in _ (sorted_perm Json.key_le _)) in H1, H2.
    apply (Permutation_in _ (Permutation_sym (Permutation_map g Hp))) in H2.
    apply (same_key_same_item (map g d1)); try assumption.
    apply (@partial_order_anti_symm _ _ String.le_po); assumption.
  - apply (sorted_Sorted Json.key_le (Total0 := key_le_total)).
  - apply (sorted_Sorted Json.key_le (Total0 := key_le_total)).
  - rewrite !sorted_perm. apply Permutation_map. exact Hp.
Qed.

Lemma chaos_sorted_config_egress kw v1 v2 :
  truthy v1 = truthy v2 ->
  Json.sort_keys v1 = Json.sort_keys v2 ->
  Json.sort_keys
    (VDict (NetworkOutageScenarios.pod_network_chaos_config
              (chaos_with_egress v1 kw)))
  = Json.sort_keys
      (VDict (NetworkOutageScenarios.pod_network_chaos_config
                (chaos_with_egress v2 kw))).
Proof.
  intros Ht Hs. unfold NetworkOutageScenarios.pod_network_chaos_config, py_or.
  cbn [chaos_with_egress NetworkOutageScenarios.chaos_kw.node_name
       NetworkOutageScenarios.chaos_kw.label_selector
       NetworkOutageScenarios.chaos_kw.duration
       NetworkOutageScenarios.chaos_kw.instance_count
       NetworkOutageScenarios.chaos_kw.interfaces
       NetworkOutageScenarios.chaos_kw.execution
       NetworkOutageScenarios.chaos_kw.egress
       NetworkOutageScenarios.chaos_kw.image].
  rewrite <- Ht.
  assert (He : Json.sort_keys
                 (if truthy v1 then v1
                  else VDict [("latency", VStr "25ms"); ("loss", VStr "1%")])
               = Json.sort_keys
                   (if truthy v1 then v2
                    else VDict [("latency", VStr "25ms"); ("loss", VStr "1%")])).
  { destruct (truthy v1); [exact Hs | reflexivity]. }
  set (e1 := if truthy v1 then v1 else _) in *.
  set (e2 := if truthy v1 then v2 else _) in *.
  destruct (truthy (NetworkOutageScenarios.chaos_kw.node_name kw));
    [|destruct (negb false && _);
      [|destruct (truthy (NetworkOutageScenarios.chaos_kw.label_selector kw))]];
    cbn [negb andb truthy String.eqb Ascii.eqb Bool.eqb
         NetworkOutageScenarios.worker_selector];
    change (Json.sort_keys (VDict ?d))
      with (VDict (sorted Json.key_le
                     (map (fun '(k, x) => (k, Json.sort_keys x)) d)));
    cbn [dict_lit dict_update dict_set fold_left map fst snd
         String.eqb Ascii.eqb Bool.eqb];
    rewrite He; reflexivity.
Qed.

(** X17.  The file name of [pod_network_chaos] does not depend on the order
    in which the keys of the [egress] mapping are written: the
    configuration is serialised with sorted keys before it is hashed. *)
Theorem network_chaos_name_ignores_key_order
    (kw : NetworkOutageScenarios.chaos_kw.t) (egress1 egress2 : pydict) :
  Permutation egress1 egress2 ->
  NoDup (dict_keys egress1) ->
  NetworkOutageScenarios.pod_network_chaos_filename
    (chaos_with_egress (VDict egress1) kw)
  = NetworkOutageScenarios.pod_network_chaos_filename
      (chaos_with_egress (VDict egress2) kw).
Proof.
  intros Hp Hn. unfold NetworkOutageScenarios.pod_network_chaos_filename,
    Json.dumps_sorted. cbv zeta.
  rewrite (chaos_sorted_config_egress kw (VDict egress1) (VDict egress2));
    [reflexivity| |apply sort_keys_dict_perm; assumption].
  destruct egress1 as [|x l1], egress2 as [|y l2]; try reflexivity.
  - apply Permutation_nil_l in Hp. discriminate.
  - apply Permutation_nil_r in Hp. discriminate.
Qed.

Lemma network_chaos_name_ignores_key_order_witness :
  NetworkOutageScenarios.pod_network_chaos_filename
    (chaos_with_egress (VDict [("latency", VStr "50ms"); ("loss", VStr "3%")])
       NetworkOutageScenarios.chaos_kw.omitted)
  = NetworkOutageScenarios.pod_network_chaos_filename
      (chaos_with_egress (VDict [("loss", VStr "3%"); ("latency", VStr "50ms")])
         NetworkOutageScenarios.chaos_kw.omitted).
Proof.
  apply network_chaos_name_ignores_key_order.
  - apply perm_swap.
  - apply NoDup_cons_2; [|apply NoDup_singleton].
    rewrite list_elem_of_In. intros [H|[]]. discriminate.
Defined.

(** ** Validating and cleaning up the workloads *)

Section Validation.
Import WorkloadOps.

(** One contained workload: the loop goes on, with errors added exactly
    when the workload is not healthy, and with its actions taken. *)
Lemma visit_contained st w :
  contained w ->
  exists new,
    visit st w
    = ({| validation_errors := (validation_errors st ++ new)%list;
          actions := (actions st ++ actions_for w)%list |}, None)
    /\ (new = [] <-> healthy w).
Proof.
  intros (Hl & Hs & Hc). unfold visit, actions_for, healthy.
  destruct (get_all_deployment_pod_logs w) as [result|e|exc].
  2: { exists [no_results_message w e]. split.
       - rewrite (app_nil_r (actions st)). reflexivity.
       - split; [discriminate | intros (r & H & _); discriminate]. }
  2: { destruct (Hl exc); reflexivity. }
  destruct (stop_workload w) as [[]|e|exc].
  2: { exists [no_results_message w e]. split.
       - rewrite (app_nil_r (actions st)). reflexivity.
       - split; [discriminate
                | intros (r & _ & _ & _ & H & _); discriminate]. }
  2: { destruct (Hs exc); reflexivity. }
  destruct (cleanup_workload w) as [[]|e|exc];
    [| |destruct (Hc exc); reflexivity].
  - exists (check_logs w result). split.
    + rewrite <- app_assoc. reflexivity.
    + unfold check_logs. simpl truthy.
      destruct (String.eqb_spec result EmptyString) as [->|Hne]; cbn [negb].
      * split; [discriminate|]. intros (r & H & Hr & _).
        injection H as <-. contradiction.
      * destruct (contains "error" (PyStr.lower result)) eqn:E.
        -- split; [discriminate|]. intros (r & H & _ & Hr & _).
           injection H as <-. rewrite E in Hr. discriminate.
        -- split; [|reflexivity]. intros _. exists result. auto.
  - exists (check_logs w result ++ [no_results_message w e])%list. split.
    + rewrite app_assoc. reflexivity.
    + split.
      * intros H. destruct (check_logs w result); discriminate.
      * intros (r & _ & _ & _ & _ & H). discriminate.
Qed.

Lemma loop_contained workloads st :
  Forall contained workloads ->
  exists new,
    loop st workloads
    = ({| validation_errors := (validation_errors st ++ new)%list;
          actions := (actions st ++ flat_map actions_for workloads)%list |},
       None)
    /\ (new = [] <-> Forall healthy workloads).
Proof.
  revert st. induction workloads as [|w rest IH]; intros st Hc.
  - exists []. split.
    + simpl. rewrite !app_nil_r. destruct st; reflexivity.
    + split; [constructor | reflexivity].
  - apply Forall_cons in Hc as [Hw Hrest].
    destruct (visit_contained st w Hw) as (new1 & Hv & H1).
    cbn [loop]. rewrite Hv.
    destruct (IH {| validation_errors := (validation_errors st ++ new1)%list;
                    actions := (actions st ++ actions_for w)%list |} Hrest)
      as (new2 & Hl & H2).
    rewrite Hl.
    cbn [validation_errors actions flat_map].
    exists (new1 ++ new2)%list. split.
    + rewrite !app_assoc. reflexivity.
    + split.
      * intros H. apply app_eq_nil in H as [Ha Hb].
        apply Forall_cons. split; [apply H1; exact Ha | apply H2; exact Hb].
      * intros H. apply Forall_cons in H as [Ha Hb].
        apply H1 in Ha. apply H2 in Hb. subst. reflexivity.
Qed.

End Validation.

(** X18.  When no workload method raises anything but
    [UnexpectedBehaviour], [validate_and_cleanup] passes exactly when every
    workload is healthy -- its logs are read and are not empty, the logs
    have no [error] in any letter case, and stopping and cleaning up
    return -- and otherwise it fails the test with
    "Workload validation failed."; no exception comes out of it. *)
Theorem workload_validation_verdict
    (workloads : list WorkloadOps.workload) :
  Forall WorkloadOps.contained workloads ->
  (fst (WorkloadOps.validate_and_cleanup workloads) = WorkloadOps.Passed
   <-> Forall WorkloadOps.healthy workloads)
  /\ (fst (WorkloadOps.validate_and_cleanup workloads)
      = WorkloadOps.Failed "Workload validation failed."
      <-> ~ Forall WorkloadOps.healthy workloads)
  /\ (forall exc,
        fst (WorkloadOps.validate_and_cleanup workloads)
        <> WorkloadOps.Propagated exc).
Proof.
  intros Hc. unfold WorkloadOps.validate_and_cleanup.
  destruct (loop_contained workloads
              {| WorkloadOps.validation_errors := [];
                 WorkloadOps.actions := [] |} Hc) as (new & Hl & Hn).
  rewrite Hl. cbn [WorkloadOps.validation_errors fst app].
  destruct new as [|e new].
  - split; [|split].
    + split; [intros _; apply Hn; reflexivity | reflexivity].
    + split; [discriminate | intros H; destruct H; apply Hn; reflexivity].
    + discriminate.
  - split; [|split].
    + split; [discriminate | intros H; apply Hn in H; discriminate].
    + split; [intros _ H; apply Hn in H; discriminate | reflexivity].
    + discriminate.
Qed.

Lemma example_workloads_contained :
  Forall WorkloadOps.contained
    [workload_with_errors; workload_unreachable; workload_fine].
Proof.
  repeat (apply List.Forall_cons; [repeat split; discriminate|]).
  apply List.Forall_nil.
Qed.

Lemma workload_validation_verdict_witness :
  fst (WorkloadOps.validate_and_cleanup
         [workload_with_errors; workload_unreachable; workload_fine])
  = WorkloadOps.Failed "Workload validation failed.".
Proof.
  apply (proj1 (proj2 (workload_validation_verdict _
                         example_workloads_contained))).
  intros H. apply Forall_cons in H as [(r & Hr & _ & He & _) _].
  injection Hr as <-. vm_compute in He. discriminate.
Defined.

(** ** What is done to the workloads *)

Lemma loop_app st l1 l2 :
  WorkloadOps.loop st (l1 ++ l2)
  = match WorkloadOps.loop st l1 with
    | (st', None) => WorkloadOps.loop st' l2
    | (st', Some exc) => (st', Some exc)
    end.
Proof.
  revert st. induction l1 as [|w l1 IH]; intros st; [reflexivity|].
  cbn [app WorkloadOps.loop].
  destruct (WorkloadOps.visit st w) as [st' [exc|]]; [reflexivity | apply IH].
Qed.

(** X19.  When no workload method raises anything but
    [UnexpectedBehaviour], every workload is handled, in order, whatever
    the validation finds: a workload whose logs are read and which stops
    is stopped and then cleaned up, also when its logs are empty or show
    errors and when other workloads failed; a workload whose logs cannot
    be read, or which cannot be stopped, is left without clean-up. *)
Theorem workloads_all_handled (workloads : list WorkloadOps.workload) :
  Forall WorkloadOps.contained workloads ->
  snd (WorkloadOps.validate_and_cleanup workloads)
  = flat_map WorkloadOps.actions_for workloads
  /\ (forall w result,
        In w workloads ->
        WorkloadOps.get_all_deployment_pod_logs w = WorkloadOps.Returns result ->
        WorkloadOps.stop_workload w = WorkloadOps.Returns tt ->
        In (WorkloadOps.Stopped (WorkloadOps.deployment_name w))
          (snd (WorkloadOps.validate_and_cleanup workloads)))
  /\ (forall name,
        In (WorkloadOps.CleanedUp name)
          (snd (WorkloadOps.validate_and_cleanup workloads)) ->
        exists w result,
          In w workloads
          /\ WorkloadOps.deployment_name w = name
          /\ WorkloadOps.get_all_deployment_pod_logs w
             = WorkloadOps.Returns result
          /\ WorkloadOps.stop_workload w = WorkloadOps.Returns tt
          /\ WorkloadOps.cleanup_workload w = WorkloadOps.Returns tt).
Proof.
  intros Hc.
  assert (Ha : snd (WorkloadOps.validate_and_cleanup workloads)
               = flat_map WorkloadOps.actions_for workloads).
  { unfold WorkloadOps.validate_and_cleanup.
    destruct (loop_contained workloads
                {| WorkloadOps.validation_errors := [];
                   WorkloadOps.actions := [] |} Hc) as (new & Hl & _).
    rewrite Hl. reflexivity. }
  rewrite Ha. split; [reflexivity|]. split.
  - intros w result Hw Hl Hs. apply in_flat_map. exists w. split; [exact Hw|].
    unfold WorkloadOps.actions_for. rewrite Hl, Hs.
    destruct (WorkloadOps.cleanup_workload w); left; reflexivity.
  - intros name Hin. apply in_flat_map in Hin as (w & Hw & Hin).
    unfold WorkloadOps.actions_for in Hin.
    destruct (WorkloadOps.get_all_deployment_pod_logs w) as [result| |] eqn:El;
      try contradiction.
    destruct (WorkloadOps.stop_workload w) as [[]| |] eqn:Es;
      try contradiction.
    destruct (WorkloadOps.cleanup_workload w) as [[]| |] eqn:Ec;
      cbn [In] in Hin;
      repeat (destruct Hin as [Hin|Hin]; try discriminate);
      try contradiction.
    injection Hin as <-. exists w, result. auto.
Qed.

Lemma workloads_all_handled_witness :
  snd (WorkloadOps.validate_and_cleanup
         [workload_with_errors; workload_unreachable; workload_fine])
  = [ WorkloadOps.Stopped "vdbench-rbd"; WorkloadOps.CleanedUp "vdbench-rbd";
      WorkloadOps.Stopped "vdbench-cephfs";
      WorkloadOps.CleanedUp "vdbench-cephfs" ].
Proof.
  rewrite (proj1 (workloads_all_handled _ example_workloads_contained)).
  reflexivity.
Defined.

(** X20.  An exception other than [UnexpectedBehaviour] is not caught: when
    the log call of a workload raises one, the method ends with that
    exception, the workloads after it are neither stopped nor cleaned up,
    and the validation errors found before it are not reported as a
    failed validation. *)
Theorem workload_exception_leaves_the_loop
    (before after : list WorkloadOps.workload) (w : WorkloadOps.workload)
    (exc : string) :
  Forall WorkloadOps.contained before ->
  WorkloadOps.get_all_deployment_pod_logs w = WorkloadOps.RaisesOther exc ->
  WorkloadOps.validate_and_cleanup (before ++ w :: after)
  = (WorkloadOps.Propagated exc, flat_map WorkloadOps.actions_for before).
Proof.
  intros Hc Hw. unfold WorkloadOps.validate_and_cleanup.
  rewrite loop_app.
  destruct (loop_contained before
              {| WorkloadOps.validation_errors := [];
                 WorkloadOps.actions := [] |} Hc) as (new & Hl & _).
  rewrite Hl. cbn [WorkloadOps.loop]. unfold WorkloadOps.visit.
  rewrite Hw. reflexivity.
Qed.

Lemma workload_exception_leaves_the_loop_witness :
  WorkloadOps.validate_and_cleanup
    [workload_with_errors; workload_timing_out; workload_fine]
  = (WorkloadOps.Propagated "TimeoutExpired",
     [ WorkloadOps.Stopped "vdbench-rbd"; WorkloadOps.CleanedUp "vdbench-rbd" ]).
Proof.
  apply (workload_exception_leaves_the_loop [workload_with_errors]
           [workload_fine] workload_timing_out "TimeoutExpired").
  - apply List.Forall_cons; [repeat split; discriminate | apply List.Forall_nil].
  - reflexivity.
Defined.

(** ** Empty values and defaults *)

(** X21.  A parameter the source reads as [value or default] cannot carry
    an empty value: the taints of the hog builders, the volume of
    [io_hog], the network parameters of the shaping builders and of
    [network_chaos_ingress], and the interfaces, egress and image of
    [pod_network_chaos] are emitted as given when they are non-empty and as
    the default otherwise, an empty list, mapping or string included.  A
    parameter with a default in the signature is emitted as given, even
    when it is [0] or empty. *)
Theorem empty_values_take_defaults :
  (forall kw,
     dict_get "taints" (HogScenarios.cpu_hog_data kw)
     = Some (if truthy (HogScenarios.cpu_kw.taints kw)
             then HogScenarios.cpu_kw.taints kw else VList [])
     /\ forall v, HogScenarios.cpu_kw.duration kw = Some v ->
                  dict_get "duration" (HogScenarios.cpu_hog_data kw) = Some v)
  /\ (forall kw,
        dict_get "taints" (HogScenarios.io_hog_data kw)
        = Some (if truthy (HogScenarios.io_kw.taints kw)
                then HogScenarios.io_kw.taints kw else VList [])
        /\ dict_get "io_target_pod_volume" (HogScenarios.io_hog_data kw)
           = Some (if truthy (HogScenarios.io_kw.io_target_pod_volume kw)
                   then HogScenarios.io_kw.io_target_pod_volume kw
                   else VDict [ ("name", VStr "node-volume");
                                ("hostPath", VDict [("path", VStr "/root")]) ]))
  /\ (forall kw,
        dict_get "taints" (HogScenarios.memory_hog_data kw)
        = Some (if truthy (HogScenarios.memory_kw.taints kw)
                then HogScenarios.memory_kw.taints kw else VList []))
  /\ (forall namespace kw config,
        NetworkOutageScenarios.shaping_config namespace kw = Ok config ->
        dict_get "network_params" config
        = Some (if truthy (NetworkOutageScenarios.shaping_kw.network_params kw)
                then NetworkOutageScenarios.shaping_kw.network_params kw
                else VDict [ ("latency", VStr "50ms"); ("loss", VStr "'0.02%'");
                             ("bandwidth", VStr "100mbit") ])
        /\ forall v,
             NetworkOutageScenarios.shaping_kw.instance_count kw = Some v ->
             dict_get "instance_count" config = Some v)
  /\ (forall kw,
        let config := NetworkOutageScenarios.pod_network_chaos_config kw in
        dict_get "interfaces" config
        = Some (if truthy (NetworkOutageScenarios.chaos_kw.interfaces kw)
                then NetworkOutageScenarios.chaos_kw.interfaces kw
                else VList [VStr "ens192"])
        /\ dict_get "egress" config
           = Some (if truthy (NetworkOutageScenarios.chaos_kw.egress kw)
                   then NetworkOutageScenarios.chaos_kw.egress kw
                   else VDict [("latency", VStr "25ms"); ("loss", VStr "1%")])
        /\ dict_get "image" config
           = Some (if truthy (NetworkOutageScenarios.chaos_kw.image kw)
                   then NetworkOutageScenarios.chaos_kw.image kw
                   else VStr "quay.io/krkn-chaos/krkn:tools"))
  /\ (forall kw,
        dict_get "network_params"
          (NetworkOutageScenarios.network_chaos_ingress_config kw)
        = Some (if truthy (NetworkOutageScenarios.ingress_kw.network_params kw)
                then NetworkOutageScenarios.ingress_kw.network_params kw
                else VDict [("latency", VStr "50ms"); ("loss", VStr "5%")])).
Proof.
  repeat match goal with |- _ /\ _ => split end.
  - intros kw. unfold HogScenarios.cpu_hog_data, _get_selector_config, py_or.
    split; [|intros v Hv; rewrite Hv];
      (destruct (truthy (HogScenarios.cpu_kw.node_name kw));
       [|destruct (truthy (HogScenarios.cpu_kw.node_selector kw))];
       reflexivity).
  - intros kw. unfold HogScenarios.io_hog_data, _get_selector_config, py_or.
    split;
      (destruct (truthy (HogScenarios.io_kw.node_name kw));
       [|destruct (truthy (HogScenarios.io_kw.node_selector kw))];
       reflexivity).
  - intros kw. unfold HogScenarios.memory_hog_data, _get_selector_config, py_or.
    destruct (truthy (HogScenarios.memory_kw.node_name kw));
      [|destruct (truthy (HogScenarios.memory_kw.node_selector kw))];
      reflexivity.
  - intros namespace kw config.
    unfold NetworkOutageScenarios.shaping_config, _get_pod_selector_config,
      py_or.
    destruct (truthy (NetworkOutageScenarios.shaping_kw.pod_name kw));
      [|destruct (truthy (NetworkOutageScenarios.shaping_kw.label_selector kw))];
      cbn [negb andb rbind]; intros H; try discriminate; injection H as <-;
      (split; [reflexivity | intros v Hv; rewrite Hv; reflexivity]).
  - intros kw. cbv zeta.
    unfold NetworkOutageScenarios.pod_network_chaos_config, py_or.
    set (config := dict_lit _).
    destruct (truthy (NetworkOutageScenarios.chaos_kw.node_name kw));
      cbn [negb andb];
      [|destruct (truthy (NetworkOutageScenarios.chaos_kw.label_selector kw))
          eqn:Hl; cbn [negb];
        [rewrite Hl
        |change (truthy (VStr NetworkOutageScenarios.worker_selector)) with true;
         cbv iota]];
      rewrite !dict_get_dict_set_ne by reflexivity;
      repeat split; reflexivity.
  - intros kw. reflexivity.
Qed.

Lemma empty_values_take_defaults_witness :
  dict_get "duration" (HogScenarios.cpu_hog_data cpu_hog_call)
  = Some (VInt 120).
Proof.
  apply (proj2 (proj1 empty_values_take_defaults cpu_hog_call) (VInt 120)).
  reflexivity.
Defined.
